(** * Amazon Review Scraper: the scrape session state machine

    A shallow embedding of the content script (src/content/index.ts), the
    background service worker (src/background/index.ts) and the shared types
    (src/types), followed by the properties of the session controller, the
    review extractor and the CSV exporter.

    Modelling conventions.
    - A JavaScript string is the list of its UTF-16 code units.
    - A JavaScript number that the program only ever produces from integer
      arithmetic or [parseInt] is an integer or NaN ([jsnum]); the rounding of
      integers beyond 2^53 is not modelled.
    - The browser is an explicit [World]: the rendered page, the two storage
      tiers, the clock and the module variables of the content script.
      Every function of the scripts that touches the browser is a computation
      in the monad [M], which threads the world and records the observable
      effects (clicks, storage writes, messages, downloads, waits) in order.
    - What the page becomes after a click and what [Math.random] returns are
      inputs of a tick ([Env]); every theorem quantifies over them.
    - The page does not change during a tick unless the script itself clicks;
      the Chrome extension APIs other than the storage writes do not fail.
    - A session written to a storage tier is read back as it was written.
    - A tick runs to its end before the next one starts, so the re-entrancy
      flag is down whenever a tick begins; the flag is modelled all the same. *)

From Stdlib Require Import ZArith List Bool Lia String Ascii.
From Stdlib Require Import QArith Qround.
From Stdlib Require Import Numbers.DecimalString Numbers.DecimalPos Numbers.DecimalZ.
Import ListNotations.

Local Open Scope Z_scope.
Local Open Scope list_scope.

(* ================================================================== *)
(** ** JavaScript strings and numbers *)
(* ================================================================== *)

Definition jsstring := list Z.

(** An ASCII literal as a JavaScript string. *)
Definition js (s : string) : jsstring :=
  map (fun a => Z.of_N (N_of_ascii a)) (list_ascii_of_string s).

Fixpoint str_eqb (a b : jsstring) : bool :=
  match a, b with
  | [], [] => true
  | x :: a', y :: b' => (x =? y) && str_eqb a' b'
  | _, _ => false
  end.

(** Truthiness of a string: [''] is the only falsy string. *)
Definition truthy (s : jsstring) : bool :=
  match s with [] => false | _ => true end.

(** [a || b] on strings. *)
Definition str_or (a b : jsstring) : jsstring :=
  if truthy a then a else b.

(** The code units [String.prototype.trim] strips: WhiteSpace and
    LineTerminator of ECMA-262. *)
Definition isWhiteSpace (c : Z) : bool :=
  (c =? 9) || (c =? 10) || (c =? 11) || (c =? 12) || (c =? 13) || (c =? 32)
  || (c =? 160) || (c =? 5760) || ((8192 <=? c) && (c <=? 8202))
  || (c =? 8232) || (c =? 8233) || (c =? 8239) || (c =? 8287)
  || (c =? 12288) || (c =? 65279).

Fixpoint trimStart (s : jsstring) : jsstring :=
  match s with
  | [] => []
  | c :: s' => if isWhiteSpace c then trimStart s' else s
  end.

Definition trimEnd (s : jsstring) : jsstring := rev (trimStart (rev s)).

Definition trim (s : jsstring) : jsstring := trimEnd (trimStart s).

Fixpoint startsWith (s prefix : jsstring) : bool :=
  match prefix, s with
  | [], _ => true
  | p :: prefix', c :: s' => (c =? p) && startsWith s' prefix'
  | _ :: _, [] => false
  end.

(** [s.includes(needle)]. *)
Fixpoint includes (s needle : jsstring) : bool :=
  startsWith s needle ||
  match s with
  | [] => false
  | _ :: s' => includes s' needle
  end.

(** [parts.join(sep)]. *)
Fixpoint join (sep : jsstring) (parts : list jsstring) : jsstring :=
  match parts with
  | [] => []
  | [p] => p
  | p :: rest => p ++ sep ++ join sep rest
  end.

Definition QUOTE : Z := 34.
Definition NEWLINE : Z := 10.
Definition SPACE : Z := 32.
Definition COMMA : Z := 44.

(** [s.replace] of every double quote by two double quotes. *)
Definition doubleQuotes (s : jsstring) : jsstring :=
  flat_map (fun c => if c =? QUOTE then [QUOTE; QUOTE] else [c]) s.

(** [s.replace] of every line feed by a space. *)
Definition newlinesToSpaces (s : jsstring) : jsstring :=
  map (fun c => if c =? NEWLINE then SPACE else c) s.

(** The template literal that puts [s] between two double quotes. *)
Definition quoted (s : jsstring) : jsstring := QUOTE :: s ++ [QUOTE].

Inductive jsnum : Type :=
| NaN
| Int (z : Z).

(** Strict equality [===] on numbers: NaN differs from everything. *)
Definition num_eqb (a b : jsnum) : bool :=
  match a, b with
  | Int x, Int y => x =? y
  | _, _ => false
  end.

Definition Z_toString (z : Z) : jsstring :=
  js (NilEmpty.string_of_int (Z.to_int z)).

(** [n.toString()]. *)
Definition num_toString (n : jsnum) : jsstring :=
  match n with
  | NaN => js "NaN"
  | Int z => Z_toString z
  end.

Definition isDigit (c : Z) : bool := (48 <=? c) && (c <=? 57).

Fixpoint digitsValue (acc : Z) (s : jsstring) : Z :=
  match s with
  | c :: s' => if isDigit c then digitsValue (10 * acc + (c - 48)) s' else acc
  | [] => acc
  end.

(** [parseInt(s, 10)]: leading white space is skipped, a sign is read, then
    the longest run of decimal digits; without a digit the result is NaN. *)
Definition parseInt10 (s : jsstring) : jsnum :=
  let t := trimStart s in
  let '(neg, body) :=
    match t with
    | 45 :: r => (true, r)
    | 43 :: r => (false, r)
    | _ => (false, t)
    end in
  match body with
  | c :: _ =>
      if isDigit c
      then Int (if neg then - digitsValue 0 body else digitsValue 0 body)
      else NaN
  | [] => NaN
  end.

(** The encoding a [Blob] applies to a string part: the code units are read
    as UTF-16 (a lone surrogate becomes U+FFFD) and written as UTF-8. *)
Definition utf8_of_codepoint (c : Z) : list Z :=
  if c <? 128 then [c]
  else if c <? 2048 then
    [Z.lor 192 (Z.shiftr c 6); Z.lor 128 (Z.land c 63)]
  else if c <? 65536 then
    [Z.lor 224 (Z.shiftr c 12);
     Z.lor 128 (Z.land (Z.shiftr c 6) 63);
     Z.lor 128 (Z.land c 63)]
  else
    [Z.lor 240 (Z.shiftr c 18);
     Z.lor 128 (Z.land (Z.shiftr c 12) 63);
     Z.lor 128 (Z.land (Z.shiftr c 6) 63);
     Z.lor 128 (Z.land c 63)].

Definition isHighSurrogate (c : Z) : bool := (55296 <=? c) && (c <=? 56319).
Definition isLowSurrogate (c : Z) : bool := (56320 <=? c) && (c <=? 57343).

Fixpoint utf8_encode (s : jsstring) : list Z :=
  match s with
  | [] => []
  | c :: s' =>
      if isHighSurrogate c then
        match s' with
        | d :: s'' =>
            if isLowSurrogate d
            then utf8_of_codepoint
                   (65536 + Z.shiftl (c - 55296) 10 + (d - 56320))
                 ++ utf8_encode s''
            else utf8_of_codepoint 65533 ++ utf8_encode s'
        | [] => utf8_of_codepoint 65533
        end
      else if isLowSurrogate c then utf8_of_codepoint 65533 ++ utf8_encode s'
      else utf8_of_codepoint c ++ utf8_encode s'
  end.

(* ================================================================== *)
(** ** src/types: reviews, sessions and the star filters *)
(* ================================================================== *)

Record Review : Type := mkReview {
  id : jsstring;
  starRating : jsstring;
  author : jsstring;
  title : jsstring;
  date : jsstring;
  content : jsstring;
  verified : bool;
  variant : jsstring;
  images : list jsstring;
  starFilter : option jsstring;   (* optional field *)
  pageNumber : option jsnum       (* optional field *)
}.

Record ScrapeSession : Type := mkSession {
  isActive : bool;
  reviews : list Review;
  currentStarIndex : Z;
  currentPage : jsnum;
  lastUrl : jsstring;
  startedAt : Z;
  lastUpdated : Z
}.

Inductive StarFilter : Type :=
| one_star | two_star | three_star | four_star | five_star.

Definition STAR_FILTERS : list StarFilter :=
  [one_star; two_star; three_star; four_star; five_star].

(** The identifier of a filter, as it appears in the page address. *)
Definition filterName (f : StarFilter) : jsstring :=
  match f with
  | one_star => js "one_star"
  | two_star => js "two_star"
  | three_star => js "three_star"
  | four_star => js "four_star"
  | five_star => js "five_star"
  end.

Definition BLACK_STAR : Z := 9733.

Definition STAR_LABELS (f : StarFilter) : jsstring :=
  match f with
  | one_star => js "1" ++ [BLACK_STAR]
  | two_star => js "2" ++ [BLACK_STAR]
  | three_star => js "3" ++ [BLACK_STAR]
  | four_star => js "4" ++ [BLACK_STAR]
  | five_star => js "5" ++ [BLACK_STAR]
  end.

(** [STAR_FILTERS[i]]: [None] is [undefined], the value of an index outside
    the array. *)
Definition starFilterAt (i : Z) : option StarFilter :=
  if (0 <=? i) && (i <? Z.of_nat (List.length STAR_FILTERS))
  then nth_error STAR_FILTERS (Z.to_nat i)
  else None.

(** [STAR_LABELS[f]] where [f] may be [undefined]. *)
Definition labelOf (f : option StarFilter) : option jsstring :=
  option_map STAR_LABELS f.

(** A filter spliced into a template literal. *)
Definition filterText (f : option StarFilter) : jsstring :=
  match f with
  | Some f => filterName f
  | None => js "undefined"
  end.

Definition filter_eqb (a b : StarFilter) : bool :=
  match a, b with
  | one_star, one_star | two_star, two_star | three_star, three_star
  | four_star, four_star | five_star, five_star => true
  | _, _ => false
  end.

(** [STAR_FILTERS.includes(s)], returning the member found. *)
Definition filterOfString (s : jsstring) : option StarFilter :=
  find (fun f => str_eqb s (filterName f)) STAR_FILTERS.

(** Field updates of the session object. *)
Definition set_isActive (b : bool) (s : ScrapeSession) : ScrapeSession :=
  mkSession b (reviews s) (currentStarIndex s) (currentPage s)
            (lastUrl s) (startedAt s) (lastUpdated s).

Definition set_reviews (r : list Review) (s : ScrapeSession) : ScrapeSession :=
  mkSession (isActive s) r (currentStarIndex s) (currentPage s)
            (lastUrl s) (startedAt s) (lastUpdated s).

Definition set_currentStarIndex (i : Z) (s : ScrapeSession) : ScrapeSession :=
  mkSession (isActive s) (reviews s) i (currentPage s)
            (lastUrl s) (startedAt s) (lastUpdated s).

Definition set_currentPage (p : jsnum) (s : ScrapeSession) : ScrapeSession :=
  mkSession (isActive s) (reviews s) (currentStarIndex s) p
            (lastUrl s) (startedAt s) (lastUpdated s).

Definition set_lastUrl (u : jsstring) (s : ScrapeSession) : ScrapeSession :=
  mkSession (isActive s) (reviews s) (currentStarIndex s) (currentPage s)
            u (startedAt s) (lastUpdated s).

Definition set_lastUpdated (t : Z) (s : ScrapeSession) : ScrapeSession :=
  mkSession (isActive s) (reviews s) (currentStarIndex s) (currentPage s)
            (lastUrl s) (startedAt s) t.

(* ================================================================== *)
(** ** The rendered page *)
(* ================================================================== *)

(** A review card, [li[data-hook=review]], seen through the queries the
    extractor runs on it.  A text field is [None] when the selector matches
    no element (or the element has no [innerText]).  [cardThrows] stands for
    a card on which a DOM access raises. *)
Record Card : Type := mkCard {
  cardThrows : bool;
  cardId : jsstring;                    (* card.id, empty when absent *)
  profileName : option jsstring;        (* .a-profile-name *)
  ratingAlt : option jsstring;          (* review-star-rating .a-icon-alt *)
  titleSpan : option jsstring;          (* review-title span:last-child *)
  reviewDate : option jsstring;         (* span review-date *)
  reviewBody : option jsstring;         (* span review-body span *)
  avpBadge : bool;                      (* span avp-badge present *)
  formatStrip : option jsstring         (* a format-strip *)
}.

(** [window.location]; [searchParams] is the parsed query string. *)
Record Location : Type := mkLocation {
  href : jsstring;
  pathname : jsstring;
  searchParams : list (jsstring * jsstring)
}.

Record Page : Type := mkPage {
  location : Location;
  reviewCards : list Card;
  noReviewsSection : bool;              (* .no-reviews-section present *)
  captchaForm : bool;                   (* form action=/errors/validateCaptcha *)
  bodyInnerText : jsstring;             (* document.body.innerText *)
  lastItems : list bool;                (* each li.a-last holding an anchor:
                                           true when it has class a-disabled *)
  histogramRows : list (option jsstring);
                                        (* .histogram-row-container elements:
                                           their data-reviews-state-param *)
  filterLinks : list jsstring;          (* href of each a[href*=filterByStar] *)
  starDropdown : option (list jsstring);(* option values of the dropdown *)
  seeAllReviewsLink : option jsstring   (* href of see-all-reviews-link-foot *)
}.

(** [new URLSearchParams(search).get(key)]. *)
Fixpoint searchParam (key : jsstring) (ps : list (jsstring * jsstring))
  : option jsstring :=
  match ps with
  | [] => None
  | (k, v) :: ps' => if str_eqb k key then Some v else searchParam key ps'
  end.

(* ================================================================== *)
(** ** Exceptions *)
(* ================================================================== *)

Inductive Exc (A : Type) : Type :=
| Ok (a : A)
| Throw (e : jsstring).
Arguments Ok {A} a.
Arguments Throw {A} e.

Definition exc_bind {A B} (m : Exc A) (k : A -> Exc B) : Exc B :=
  match m with
  | Ok a => k a
  | Throw e => Throw e
  end.

(** [try { body } catch (e) { handler(e) }]. *)
Definition try_catch {A} (body : Exc A) (handler : jsstring -> A) : A :=
  match body with
  | Ok a => a
  | Throw e => handler e
  end.

(* ================================================================== *)
(** ** The browser: storage tiers, clock, observable effects *)
(* ================================================================== *)

(** The value stored under [delaySettings]; the fields are [min] and [max]. *)
Record DelaySettings : Type := mkDelay {
  ds_min : Z;
  ds_max : Z
}.

(** [chrome.storage.local], the durable tier, by key. *)
Record ChromeStore : Type := mkChrome {
  amazon_scraper_session : option ScrapeSession;
  isScanning : option bool;
  delaySettings : option DelaySettings
}.

Record World : Type := mkWorld {
  page : Page;
  localStore : option ScrapeSession;   (* localStorage[STORAGE_KEY], the fast tier *)
  chromeStore : ChromeStore;
  clock : Z;                           (* Date.now() *)
  sessionFitsLocal : bool;                (* localStorage.setItem of the session succeeds *)
  sessionFitsChrome : bool;               (* chrome.storage.local.set of the session succeeds *)
  lastProcessedUrl : jsstring;         (* module variable of the content script *)
  isProcessing : bool                  (* module variable of the content script *)
}.

Inductive Level : Type := LInfo | LSuccess | LWarn | LError.

(** The log lines of the two scripts, with the values spliced into them. *)
Inductive LogMsg : Type :=
| MsgRestoredSession (n : nat) (label : option jsstring)
| MsgLocalSaveFailed
| MsgChromeSaveFailed
| MsgSessionCleared
| MsgRestoredFromChrome (n : nat)
| MsgCreatedSession
| MsgFoundCards (pageNum : jsnum) (label : option jsstring) (n : nat)
| MsgCardParseError (position : nat)
| MsgPageLoadTimeout
| MsgAttemptClick (label : option jsstring)
| MsgClickedHistogram (label : option jsstring)
| MsgClickedHref (label : option jsstring)
| MsgUsedDropdown (label : option jsstring)
| MsgNoFilterLink (label : option jsstring)
| MsgNoReviewsToExport
| MsgDownloaded (n : nat)
| MsgFilterMismatch (expected current : option StarFilter)
| MsgSwitchingFromAll (label : option jsstring)
| MsgSaved (n total : nat)
| MsgNoReviewsOnPage
| MsgNextPageIn (waitTime : Z)
| MsgStalled
| MsgNavigated (newPage : jsnum)
| MsgEndOfFilter (label : option jsstring)
| MsgComplete (total : nat)
| MsgSwitchingTo (label : option jsstring)
| MsgSwitchFailed (label : option jsstring)
| MsgOnProductPage
| MsgRedirecting
| MsgCaptcha
| MsgProcessing (label : option jsstring) (pageNum : jsnum).

(** Messages on [chrome.runtime] other than log lines. *)
Inductive Message : Type :=
| REVIEWS_UPDATE (total : nat) (currentFilter : option jsstring) (pageNum : jsnum)
| WAITING_STATUS (duration : Z)
| SCRAPING_COMPLETE (total : nat)
| SCRAPING_STARTED
| SCRAPING_STOPPED.

Inductive AlertMsg : Type :=
| AlertCaptcha
| AlertComplete (total : nat)
| AlertSwitchFailed (label : option jsstring).

Inductive Strategy : Type := ViaHistogram | ViaHref | ViaDropdown.

Inductive Event : Type :=
| ELog (level : Level) (msg : LogMsg)
| ESend (m : Message)
| EAlert (a : AlertMsg)
| EClickFilter (via : Strategy) (f : option StarFilter)
| EClickNext
| ERedirect (target : jsstring)
| EScroll
| EWait (ms : Z)
| ELocalSet (s : ScrapeSession)
| EChromeSet (s : ScrapeSession)
| ELocalRemove
| EChromeRemove
| EChromeSetScanning (b : bool)
| EDownload (bytes : list Z) (filename : jsstring).

(** What a tick cannot decide: the page a click leads to, and the value of
    [Math.random()], a rational in [0, 1). *)
Record Env : Type := mkEnv {
  afterNext : Page;
  afterFilter : Page;
  random : Q
}.

Definition set_page (p : Page) (w : World) : World :=
  mkWorld p (localStore w) (chromeStore w) (clock w)
          (sessionFitsLocal w) (sessionFitsChrome w) (lastProcessedUrl w) (isProcessing w).

Definition set_localStore (s : option ScrapeSession) (w : World) : World :=
  mkWorld (page w) s (chromeStore w) (clock w)
          (sessionFitsLocal w) (sessionFitsChrome w) (lastProcessedUrl w) (isProcessing w).

Definition set_chromeStore (c : ChromeStore) (w : World) : World :=
  mkWorld (page w) (localStore w) c (clock w)
          (sessionFitsLocal w) (sessionFitsChrome w) (lastProcessedUrl w) (isProcessing w).

Definition set_clock (t : Z) (w : World) : World :=
  mkWorld (page w) (localStore w) (chromeStore w) t
          (sessionFitsLocal w) (sessionFitsChrome w) (lastProcessedUrl w) (isProcessing w).

Definition set_lastProcessedUrl (u : jsstring) (w : World) : World :=
  mkWorld (page w) (localStore w) (chromeStore w) (clock w)
          (sessionFitsLocal w) (sessionFitsChrome w) u (isProcessing w).

Definition set_isProcessing (b : bool) (w : World) : World :=
  mkWorld (page w) (localStore w) (chromeStore w) (clock w)
          (sessionFitsLocal w) (sessionFitsChrome w) (lastProcessedUrl w) b.

Definition set_session (s : option ScrapeSession) (c : ChromeStore) : ChromeStore :=
  mkChrome s (isScanning c) (delaySettings c).

Definition set_isScanning (b : bool) (c : ChromeStore) : ChromeStore :=
  mkChrome (amazon_scraper_session c) (Some b) (delaySettings c).

(** Computations of the scripts: a world in, a result, a world and the
    effects performed, in order, out. *)
Definition M (A : Type) : Type := World -> A * World * list Event.

Definition ret {A} (a : A) : M A := fun w => (a, w, []).

Definition bind {A B} (m : M A) (k : A -> M B) : M B :=
  fun w =>
    let '(a, w1, t1) := m w in
    let '(b, w2, t2) := k a w1 in
    (b, w2, t1 ++ t2).

Declare Scope js_scope.
Delimit Scope js_scope with js.
Notation "x <- m ;; k" := (bind m (fun x => k))
  (at level 61, m at next level, right associativity) : js_scope.
Notation "m ;; k" := (bind m (fun _ => k))
  (at level 61, right associativity) : js_scope.
Local Open Scope js_scope.

Definition emit (e : Event) : M unit := fun w => (tt, w, [e]).
Definition getWorld : M World := fun w => (w, w, []).
Definition modify (f : World -> World) : M unit := fun w => (tt, f w, []).

Definition value {A} (r : A * World * list Event) : A := fst (fst r).
Definition world {A} (r : A * World * list Event) : World := snd (fst r).
Definition trace {A} (r : A * World * list Event) : list Event := snd r.

(** ** src/content/index.ts *)

Definition DELAY_BETWEEN_PAGES_MIN : Z := 2000.
Definition DELAY_BETWEEN_PAGES_MAX : Z := 5000.
Definition DELAY_BETWEEN_STARS : Z := 3000.
Definition PAGE_LOAD_CHECK_INTERVAL : Z := 500.
Definition PAGE_LOAD_TIMEOUT : Z := 10000.

(** [await delay(ms)]. *)
Definition delay (ms : Z) : M unit :=
  emit (EWait ms) ;; modify (fun w => set_clock (clock w + ms) w).

(** The value [randomDelay(min, max)] waits for, [r] being [Math.random()]. *)
Definition randomDelay (min max : Z) (r : Q) : Z :=
  Qfloor (r * inject_Z (max - min + 1) + inject_Z min).

(** [log(msg, type)]: the console line and its [LOG_MESSAGE] copy. *)
Definition log (msg : LogMsg) (level : Level) : M unit := emit (ELog level msg).

Definition loadSessionFromLocalStorage : M (option ScrapeSession) :=
  w <- getWorld ;;
  match localStore w with
  | Some session =>
      log (MsgRestoredSession (List.length (reviews session))
             (labelOf (starFilterAt (currentStarIndex session)))) LInfo ;;
      ret (Some session)
  | None => ret None
  end.

(** [saveSession] stamps the session object; the stamped object is returned
    because the caller keeps using it. *)
Definition saveSession (session : ScrapeSession) : M ScrapeSession :=
  w <- getWorld ;;
  let session := set_lastUpdated (clock w) session in
  (if sessionFitsLocal w
   then emit (ELocalSet session) ;; modify (set_localStore (Some session))
   else log MsgLocalSaveFailed LWarn) ;;
  (if sessionFitsChrome w
   then emit (EChromeSet session) ;;
        modify (fun w => set_chromeStore (set_session (Some session) (chromeStore w)) w)
   else log MsgChromeSaveFailed LWarn) ;;
  ret session.

Definition clearSession : M unit :=
  emit ELocalRemove ;; modify (set_localStore None) ;;
  emit EChromeRemove ;;
  modify (fun w => set_chromeStore (set_session None (chromeStore w)) w) ;;
  log MsgSessionCleared LInfo.

Definition getOrCreateSession : M ScrapeSession :=
  fromLocal <- loadSessionFromLocalStorage ;;
  session <-
    match fromLocal with
    | Some s => ret (Some s)
    | None =>
        w <- getWorld ;;
        match amazon_scraper_session (chromeStore w) with
        | Some s =>
            log (MsgRestoredFromChrome (List.length (reviews s))) LInfo ;;
            ret (Some s)
        | None => ret None
        end
    end ;;
  match session with
  | Some s => ret s
  | None =>
      w <- getWorld ;;
      match isScanning (chromeStore w) with
      | Some true =>
          log MsgCreatedSession LSuccess ;;
          ret (mkSession true [] 0 (Int 1) [] (clock w) (clock w))
      | _ =>
          ret (mkSession false [] 0 (Int 1) (href (location (page w)))
                         (clock w) (clock w))
      end
  end.

(** *** Review extraction *)

(** [el?.innerText?.trim() || fallback]. *)
Definition textOr (field : option jsstring) (fallback : jsstring) : jsstring :=
  match field with
  | Some t => str_or (trim t) fallback
  | None => fallback
  end.

(** The template literal [review-NOW-INDEX] of the synthetic id. *)
Definition syntheticId (now : Z) (index : nat) : jsstring :=
  js "review-" ++ Z_toString now ++ js "-" ++ Z_toString (Z.of_nat index).

(** The body of the [forEach] callback, inside its [try]: the review to
    push, if any, or the exception raised by the card. *)
Definition parseCard (starFilter : option StarFilter) (pageNum : jsnum)
    (now : Z) (index : nat) (card : Card) : Exc (option Review) :=
  if cardThrows card then Throw (js "TypeError") else
  let id := str_or (cardId card) (syntheticId now index) in
  let author := textOr (profileName card) (js "Anonymous") in
  let starRating := textOr (ratingAlt card) (js "N/A") in
  let title := textOr (titleSpan card) [] in
  let date := textOr (reviewDate card) [] in
  let content := textOr (reviewBody card) [] in
  let verified := avpBadge card in
  let variant := textOr (formatStrip card) [] in
  if truthy content && (0 <? Z.of_nat (List.length content))
  then Ok (Some (mkReview id starRating author title date content verified
                          variant [] (labelOf starFilter) (Some pageNum)))
  else Ok None.

(** [reviewCards.forEach((card, index) => ...)], pushing onto [acc]. *)
Fixpoint forEachCard (starFilter : option StarFilter) (pageNum : jsnum)
    (now : Z) (index : nat) (cards : list Card) (acc : list Review)
  : list Review * list Event :=
  match cards with
  | [] => (acc, [])
  | card :: rest =>
      match parseCard starFilter pageNum now index card with
      | Ok (Some r) =>
          forEachCard starFilter pageNum now (S index) rest (acc ++ [r])
      | Ok None =>
          forEachCard starFilter pageNum now (S index) rest acc
      | Throw _ =>
          let '(rs, evs) :=
            forEachCard starFilter pageNum now (S index) rest acc in
          (rs, ELog LWarn (MsgCardParseError (index + 1)) :: evs)
      end
  end.

Definition extractReviews (starFilter : option StarFilter) (pageNum : jsnum)
  : M (list Review) :=
  w <- getWorld ;;
  let reviewCards := reviewCards (page w) in
  log (MsgFoundCards pageNum (labelOf starFilter) (List.length reviewCards)) LInfo ;;
  let '(reviews, evs) :=
    forEachCard starFilter pageNum (clock w) 0 reviewCards [] in
  fun w => (reviews, w, evs).

(** *** Navigation helpers *)

Definition hasNextPage : M bool :=
  w <- getWorld ;; ret (existsb negb (lastItems (page w))).

Definition clickNextPage (env : Env) : M bool :=
  w <- getWorld ;;
  match lastItems (page w) with
  | _ :: _ => emit EClickNext ;; modify (set_page (afterNext env)) ;; ret true
  | [] => ret false
  end.

Definition getCurrentPageNumber : M jsnum :=
  w <- getWorld ;;
  match searchParam (js "pageNumber") (searchParams (location (page w))) with
  | Some pageParam => ret (if truthy pageParam then parseInt10 pageParam else Int 1)
  | None => ret (Int 1)
  end.

(** The result is [None] for [null]. *)
Definition getCurrentStarFilter : M (option StarFilter) :=
  w <- getWorld ;;
  match searchParam (js "filterByStar") (searchParams (location (page w))) with
  | Some filter => ret (if truthy filter then filterOfString filter else None)
  | None => ret None
  end.

(** The poll of [waitForPageLoad] on a page that stays as it is: the first
    check finds the cards, or every check until the timeout fails. *)
Definition waitForPageLoad : M unit :=
  w <- getWorld ;;
  match reviewCards (page w) with
  | _ :: _ => delay PAGE_LOAD_CHECK_INTERVAL
  | [] => delay PAGE_LOAD_TIMEOUT ;; log MsgPageLoadTimeout LWarn
  end.

(** The needle of strategy 1: the key [filterByStar] and the filter, each
    between double quotes, separated by a colon. *)
Definition stateParamNeedle (starFilter : option StarFilter) : jsstring :=
  quoted (js "filterByStar") ++ js ":" ++ quoted (filterText starFilter).

Definition hrefNeedle (starFilter : option StarFilter) : jsstring :=
  js "filterByStar=" ++ filterText starFilter.

Definition attrOrEmpty (a : option jsstring) : jsstring :=
  match a with Some s => s | None => [] end.

Definition clickStarFilter (env : Env) (starFilter : option StarFilter) : M bool :=
  log (MsgAttemptClick (labelOf starFilter)) LInfo ;;
  w <- getWorld ;;
  if existsb (fun row => includes (attrOrEmpty row) (stateParamNeedle starFilter))
             (histogramRows (page w))
  then
    emit (EClickFilter ViaHistogram starFilter) ;;
    modify (set_page (afterFilter env)) ;;
    log (MsgClickedHistogram (labelOf starFilter)) LSuccess ;;
    ret true
  else if existsb (fun link => includes link (hrefNeedle starFilter))
                  (filterLinks (page w))
  then
    emit (EClickFilter ViaHref starFilter) ;;
    modify (set_page (afterFilter env)) ;;
    log (MsgClickedHref (labelOf starFilter)) LSuccess ;;
    ret true
  else if match starDropdown (page w) with
          | Some options => existsb (str_eqb (filterText starFilter)) options
          | None => false
          end
  then
    emit (EClickFilter ViaDropdown starFilter) ;;
    modify (set_page (afterFilter env)) ;;
    log (MsgUsedDropdown (labelOf starFilter)) LSuccess ;;
    ret true
  else
    log (MsgNoFilterLink (labelOf starFilter)) LError ;;
    ret false.

Definition CAPTCHA_PROMPT : jsstring := js "Enter the characters you see below".

Definition detectCaptcha : M bool :=
  w <- getWorld ;;
  ret (captchaForm (page w) || includes (bodyInnerText (page w)) CAPTCHA_PROMPT).

(** *** Export *)

Definition headers : list jsstring :=
  [js "Star Filter"; js "Page"; js "ID"; js "Author"; js "Rating"; js "Title";
   js "Date"; js "Variant"; js "Verified"; js "Review Body"].

(** The [values] array of one row. *)
Definition rowValues (row : Review) : list jsstring :=
  [ str_or (attrOrEmpty (starFilter row)) (js "N/A");
    match pageNumber row with
    | Some n => str_or (num_toString n) (js "N/A")
    | None => js "N/A"
    end;
    quoted (doubleQuotes (id row));
    quoted (doubleQuotes (author row));
    quoted (starRating row);
    quoted (doubleQuotes (title row));
    quoted (date row);
    quoted (variant row);
    if verified row then js "Yes" else js "No";
    quoted (newlinesToSpaces (doubleQuotes (content row))) ].

Definition csvRows (reviews : list Review) : list jsstring :=
  join [COMMA] headers :: map (fun row => join [COMMA] (rowValues row)) reviews.

Definition csvContent (reviews : list Review) : jsstring :=
  join [NEWLINE] (csvRows reviews).

Definition BOM : jsstring := [65279].

Definition downloadName (now : Z) : jsstring :=
  js "amazon_reviews_all_stars_" ++ Z_toString now ++ js ".csv".

Definition downloadCSV (reviews : list Review) : M unit :=
  match reviews with
  | [] => log MsgNoReviewsToExport LError
  | _ :: _ =>
      w <- getWorld ;;
      emit (EDownload (utf8_encode (BOM ++ csvContent reviews))
                      (downloadName (clock w))) ;;
      log (MsgDownloaded (List.length reviews)) LSuccess
  end.

(** *** Main scraping logic *)

(** [currentFilter === expectedFilter], the first being a filter or [null]
    and the second a filter or [undefined]. *)
Definition sameFilter (currentFilter expectedFilter : option StarFilter) : bool :=
  match currentFilter, expectedFilter with
  | Some a, Some b => filter_eqb a b
  | _, _ => false
  end.

(** [n || fallback] on numbers. *)
Definition num_or (n fallback : Z) : Z := if n =? 0 then fallback else n.

Definition minDelayOf (d : option DelaySettings) : Z :=
  match d with
  | Some d => num_or (ds_min d) DELAY_BETWEEN_PAGES_MIN
  | None => DELAY_BETWEEN_PAGES_MIN
  end.

Definition maxDelayOf (d : option DelaySettings) : Z :=
  match d with
  | Some d => num_or (ds_max d) DELAY_BETWEEN_PAGES_MAX
  | None => DELAY_BETWEEN_PAGES_MAX
  end.

(** [Math.floor(Math.random() * (maxDelay - minDelay)) + minDelay]. *)
Definition waitTimeOf (minDelay maxDelay : Z) (r : Q) : Z :=
  Qfloor (r * inject_Z (maxDelay - minDelay)) + minDelay.

Definition setScanning (b : bool) : M unit :=
  emit (EChromeSetScanning b) ;;
  modify (fun w => set_chromeStore (set_isScanning b (chromeStore w)) w).

Definition switchToNextFilter (env : Env) (session : ScrapeSession)
  : M ScrapeSession :=
  let session := set_currentStarIndex (currentStarIndex session + 1) session in
  let session := set_currentPage (Int 1) session in
  if currentStarIndex session >=? Z.of_nat (List.length STAR_FILTERS) then
    log (MsgComplete (List.length (reviews session))) LSuccess ;;
    downloadCSV (reviews session) ;;
    clearSession ;;
    emit (ESend (SCRAPING_COMPLETE (List.length (reviews session)))) ;;
    setScanning false ;;
    emit (EAlert (AlertComplete (List.length (reviews session)))) ;;
    ret session
  else
    let nextFilter := starFilterAt (currentStarIndex session) in
    log (MsgSwitchingTo (labelOf nextFilter)) LInfo ;;
    session <- saveSession session ;;
    delay DELAY_BETWEEN_STARS ;;
    clicked <- clickStarFilter env nextFilter ;;
    if clicked then
      waitForPageLoad ;;
      delay 2000 ;;
      ret session
    else
      log (MsgSwitchFailed (labelOf nextFilter)) LError ;;
      session <- saveSession (set_isActive false session) ;;
      setScanning false ;;
      emit (EAlert (AlertSwitchFailed (labelOf nextFilter))) ;;
      ret session.

(** The filter validation at the head of [scrapeCurrentPage]: [true] when
    the function returns there. *)
Definition validateFilter (env : Env) (expectedFilter : option StarFilter)
  : M bool :=
  currentFilter <- getCurrentStarFilter ;;
  if sameFilter currentFilter expectedFilter then ret false
  else
    log (MsgFilterMismatch expectedFilter currentFilter) LWarn ;;
    match currentFilter with
    | None =>
        log (MsgSwitchingFromAll (labelOf expectedFilter)) LInfo ;;
        clicked <- clickStarFilter env expectedFilter ;;
        if clicked then
          waitForPageLoad ;;
          delay 2000 ;;
          ret true
        else ret false
    | Some _ => ret false
    end.

(** The extraction and the bookkeeping that follows it. *)
Definition extractAndSave (expectedFilter : option StarFilter)
    (session : ScrapeSession) : M ScrapeSession :=
  pageNum <- getCurrentPageNumber ;;
  found <- extractReviews expectedFilter pageNum ;;
  match found with
  | _ :: _ =>
      let session := set_reviews (reviews session ++ found) session in
      let session := set_currentPage pageNum session in
      session <- saveSession session ;;
      log (MsgSaved (List.length found) (List.length (reviews session))) LSuccess ;;
      emit (ESend (REVIEWS_UPDATE (List.length (reviews session))
                     (labelOf expectedFilter) pageNum)) ;;
      ret session
  | [] =>
      log MsgNoReviewsOnPage LWarn ;;
      ret session
  end.

(** The pagination decision at the end of [scrapeCurrentPage]. *)
Definition paginate (env : Env) (expectedFilter : option StarFilter)
    (session : ScrapeSession) : M ScrapeSession :=
  more <- hasNextPage ;;
  if more then
    w <- getWorld ;;
    let minDelay := minDelayOf (delaySettings (chromeStore w)) in
    let maxDelay := maxDelayOf (delaySettings (chromeStore w)) in
    let waitTime := waitTimeOf minDelay maxDelay (random env) in
    log (MsgNextPageIn waitTime) LInfo ;;
    emit (ESend (WAITING_STATUS waitTime)) ;;
    emit EScroll ;;
    delay 1000 ;;
    emit EScroll ;;
    delay waitTime ;;
    oldPage <- getCurrentPageNumber ;;
    clicked <- clickNextPage env ;;
    if clicked then
      delay 3000 ;;
      newPage <- getCurrentPageNumber ;;
      if num_eqb newPage oldPage then
        log MsgStalled LWarn ;;
        switchToNextFilter env session
      else
        log (MsgNavigated newPage) LInfo ;;
        ret session
    else ret session
  else
    log (MsgEndOfFilter (labelOf expectedFilter)) LSuccess ;;
    switchToNextFilter env session.

(** The session object is mutated in place by the source; here the mutated
    object is the result. *)
Definition scrapeCurrentPage (env : Env) (session : ScrapeSession)
  : M ScrapeSession :=
  let expectedFilter := starFilterAt (currentStarIndex session) in
  returned <- validateFilter env expectedFilter ;;
  if returned then ret session
  else
    session <- extractAndSave expectedFilter session ;;
    paginate env expectedFilter session.

Definition checkProductPageRedirect : M bool :=
  w <- getWorld ;;
  let path := pathname (location (page w)) in
  if includes path (js "/dp/") && negb (includes path (js "/product-reviews/"))
  then
    log MsgOnProductPage LInfo ;;
    match seeAllReviewsLink (page w) with
    | Some target =>
        log MsgRedirecting LSuccess ;;
        emit (ERedirect target) ;;
        ret true
    | None => ret false
    end
  else ret false.

(** One tick.  Nothing in the [try] block raises in this model, so the
    [catch] clause has no counterpart; the [finally] clause is the last
    step of every path that entered the block. *)
Definition mainController (env : Env) : M unit :=
  w <- getWorld ;;
  if isProcessing w then ret tt
  else
    let reviewsExist := 0 <? Z.of_nat (List.length (reviewCards (page w))) in
    let noReviewsMessage := noReviewsSection (page w) in
    if negb reviewsExist && negb noReviewsMessage then ret tt
    else
      captcha <- detectCaptcha ;;
      if captcha then
        log MsgCaptcha LError ;;
        emit (EAlert AlertCaptcha)
      else
        modify (set_isProcessing true) ;;
        (session <- getOrCreateSession ;;
         if negb (isActive session) then modify (set_isProcessing false)
         else
           redirected <- checkProductPageRedirect ;;
           if redirected then modify (set_isProcessing false)
           else
             w <- getWorld ;;
             let currentUrl := href (location (page w)) in
             if str_eqb currentUrl (lastProcessedUrl w)
             then modify (set_isProcessing false)
             else
               modify (set_lastProcessedUrl currentUrl) ;;
               let session := set_lastUrl currentUrl session in
               pageNum <- getCurrentPageNumber ;;
               log (MsgProcessing
                      (labelOf (starFilterAt (currentStarIndex session)))
                      pageNum) LInfo ;;
               scrapeCurrentPage env session ;;
               ret tt) ;;
        modify (set_isProcessing false).

(** ** src/background/index.ts *)

Definition broadcastMessage (m : Message) : M unit := emit (ESend m).

(** [START_SCRAPING]: the flag is set and the active tab reloaded, which
    loads [reloaded] and restarts the content script. *)
Definition handleStartScraping (reloaded : Page) : M unit :=
  setScanning true ;;
  modify (fun w => set_isProcessing false
                     (set_lastProcessedUrl [] (set_page reloaded w))) ;;
  broadcastMessage SCRAPING_STARTED.

Definition handleStopScraping : M unit :=
  setScanning false ;;
  broadcastMessage SCRAPING_STOPPED.

Definition handleScrapingComplete (totalReviews : nat) : M unit :=
  setScanning false ;;
  broadcastMessage (SCRAPING_COMPLETE totalReviews).

Record Status : Type := mkStatus {
  status_isScanning : bool;
  status_total : nat
}.

Definition getScrapingStatus : M Status :=
  w <- getWorld ;;
  ret (mkStatus
         (match isScanning (chromeStore w) with Some b => b | None => false end)
         (match amazon_scraper_session (chromeStore w) with
          | Some session => List.length (reviews session)
          | None => 0%nat
          end)).

(** The answer to [DOWNLOAD_CSV]. *)
Record CsvResponse : Type := mkResponse {
  success : bool;
  csv : option jsstring;
  error : option jsstring
}.

(** The [try] block of [handleDownloadCSV]; [stored] is the outcome of
    awaiting [chrome.storage.local.get], which may reject. *)
Definition handleDownloadCSV_try (stored : Exc ChromeStore) : Exc CsvResponse :=
  exc_bind stored (fun items =>
    match amazon_scraper_session items with
    | None => Ok (mkResponse false None (Some (js "No reviews to export")))
    | Some session =>
        match reviews session with
        | [] => Ok (mkResponse false None (Some (js "No reviews to export")))
        | _ :: _ =>
            let rows := map rowValues (reviews session) in
            let csvContent :=
              join [NEWLINE]
                   (join [COMMA] headers :: map (fun r => join [COMMA] r) rows) in
            Ok (mkResponse true (Some (BOM ++ csvContent)) None)
        end
    end).

Definition handleDownloadCSV (stored : Exc ChromeStore) : CsvResponse :=
  try_catch (handleDownloadCSV_try stored)
            (fun e => mkResponse false None (Some e)).

(** The handler run against the browser, whose storage read succeeds. *)
Definition exportRequest (w : World) : CsvResponse :=
  handleDownloadCSV (Ok (chromeStore w)).

(** The listener of the service worker, for the messages of the content
    script that are not log lines. *)
Definition onMessage (m : Message) : M unit :=
  match m with
  | SCRAPING_COMPLETE total => handleScrapingComplete total
  | _ => ret tt
  end.

(* ================================================================== *)
(** ** The system: ticks and the events around them *)
(* ================================================================== *)

Inductive Input : Type :=
| Tick (env : Env)            (* the one-second timer fires *)
| PageChanged (p : Page)      (* the page is mutated or navigates in place *)
| PageReloaded (p : Page)     (* a full load: the content script restarts *)
| StartSignal (reloaded : Page)
| StopSignal
| SaveSettings (d : DelaySettings).

Fixpoint deliver (evs : list Event) : M unit :=
  match evs with
  | [] => ret tt
  | ESend m :: rest => onMessage m ;; deliver rest
  | _ :: rest => deliver rest
  end.

(** A tick, followed by the service worker handling what the tick sent. *)
Definition tick (env : Env) : M unit :=
  fun w =>
    let '(_, w1, t1) := mainController env w in
    let '(_, w2, t2) := deliver t1 w1 in
    (tt, w2, t1 ++ t2).

Definition step (i : Input) : M unit :=
  match i with
  | Tick env => tick env
  | PageChanged p => modify (set_page p)
  | PageReloaded p =>
      modify (fun w => set_isProcessing false
                         (set_lastProcessedUrl [] (set_page p w)))
  | StartSignal reloaded => handleStartScraping reloaded
  | StopSignal => handleStopScraping
  | SaveSettings d =>
      modify (fun w => set_chromeStore
                         (mkChrome (amazon_scraper_session (chromeStore w))
                                   (isScanning (chromeStore w)) (Some d)) w)
  end.

Fixpoint run (inputs : list Input) : M unit :=
  match inputs with
  | [] => ret tt
  | i :: rest => step i ;; run rest
  end.

(** Effects that navigate. *)
Definition isNavigation (e : Event) : bool :=
  match e with
  | EClickFilter _ _ | EClickNext | ERedirect _ => true
  | _ => false
  end.

(** Effects that write a session to a storage tier or remove it. *)
Definition isSessionWrite (e : Event) : bool :=
  match e with
  | ELocalSet _ | EChromeSet _ | ELocalRemove | EChromeRemove => true
  | _ => false
  end.

(** The two ways [downloadCSV] answers a call. *)
Definition isExportOutcome (e : Event) : bool :=
  match e with
  | EDownload _ _ | ELog LError MsgNoReviewsToExport => true
  | _ => false
  end.

Definition isLocalRemove (e : Event) : bool :=
  match e with ELocalRemove => true | _ => false end.

Definition isChromeRemove (e : Event) : bool :=
  match e with EChromeRemove => true | _ => false end.

Definition isClickNext (e : Event) : bool :=
  match e with EClickNext => true | _ => false end.

Definition count (p : Event -> bool) (evs : list Event) : nat :=
  List.length (filter p evs).

(** Every record of the session has a body. *)
Definition bodyNonEmpty (r : Review) : Prop := (0 < List.length (content r))%nat.

Definition sessionBodiesNonEmpty (s : option ScrapeSession) : Prop :=
  match s with
  | Some s => Forall bodyNonEmpty (reviews s)
  | None => True
  end.

Definition storedBodiesNonEmpty (w : World) : Prop :=
  sessionBodiesNonEmpty (localStore w) /\
  sessionBodiesNonEmpty (amazon_scraper_session (chromeStore w)).

(* ================================================================== *)
(** ** Vocabulary of the properties *)
(* ================================================================== *)

(** [holds I T m Q]: started in a world satisfying [I], the computation
    [m] ends in a world satisfying [I], performs only effects satisfying
    [T], and returns a value satisfying [Q]. *)
Definition holds {A} (I : World -> Prop) (T : Event -> Prop)
    (m : M A) (Q : A -> Prop) : Prop :=
  forall w, I w ->
    I (world (m w)) /\ Forall T (trace (m w)) /\ Q (value (m w)).

Definition sessionOK (s : ScrapeSession) : Prop := Forall bodyNonEmpty (reviews s).

Definition anyEvent (e : Event) : Prop := True.

Abbreviation keeps m Q := (holds storedBodiesNonEmpty anyEvent m Q).

Definition pure {A} (m : M A) : Prop :=
  forall w, m w = (value (m w), w, []).

(** The session object after the extraction step found records. *)
Definition appended (s : ScrapeSession) (found : list Review) (pageNum : jsnum)
    (now : Z) : ScrapeSession :=
  mkSession (isActive s) (reviews s ++ found) (currentStarIndex s) pageNum
            (lastUrl s) (startedAt s) now.

Definition clickedMsg (via : Strategy) (label : option jsstring) : LogMsg :=
  match via with
  | ViaHistogram => MsgClickedHistogram label
  | ViaHref => MsgClickedHref label
  | ViaDropdown => MsgUsedDropdown label
  end.

(** The world after a successful filter click and the waits that follow. *)
Definition afterActivation (env : Env) (w : World) : World :=
  let w1 := world (waitForPageLoad (set_page (afterFilter env) w)) in
  set_clock (clock w1 + 2000) w1.

(** The events by which [downloadCSV] answers a call at time [now]. *)
Definition exportEvents (rs : list Review) (now : Z) : list Event :=
  match rs with
  | [] => [ELog LError MsgNoReviewsToExport]
  | _ :: _ =>
      [EDownload (utf8_encode (BOM ++ csvContent rs)) (downloadName now);
       ELog LSuccess (MsgDownloaded (List.length rs))]
  end.

(** The session object once [switchToNextFilter] has advanced it. *)
Definition advanced (s : ScrapeSession) : ScrapeSession :=
  set_currentPage (Int 1) (set_currentStarIndex (currentStarIndex s + 1) s).

(** The world once the session has been cleared and the scan flag reset. *)
Definition cleared (w : World) : World :=
  set_chromeStore (set_isScanning false (set_session None (chromeStore w)))
                  (set_localStore None w).

(** The wait the pagination decision computes in world [w]. *)
Definition waitTimeIn (env : Env) (w : World) : Z :=
  waitTimeOf (minDelayOf (delaySettings (chromeStore w)))
             (maxDelayOf (delaySettings (chromeStore w))) (random env).

(** The world in which the page number is read again after the click on
    the next-page control. *)
Definition afterAdvance (env : Env) (w : World) : World :=
  set_clock (clock w + 1000 + waitTimeIn env w + 3000)
            (set_page (afterNext env) w).

(** No session in either tier and the scan flag down. *)
Definition idle (w : World) : Prop :=
  localStore w = None /\
  amazon_scraper_session (chromeStore w) = None /\
  isScanning (chromeStore w) <> Some true.

(** Inputs other than the start signal. *)
Definition notStart (i : Input) : bool :=
  match i with
  | StartSignal _ => false
  | _ => true
  end.


(** The effects of the pagination decision up to the second reading of the
    page number, [waitTime] being the wait computed. *)
Definition advanceEvents (waitTime : Z) : list Event :=
  [ELog LInfo (MsgNextPageIn waitTime); ESend (WAITING_STATUS waitTime);
   EScroll; EWait 1000; EScroll; EWait waitTime; EClickNext; EWait 3000].


(** The page shows review cards or the no-reviews marker. *)
Definition pageReady (p : Page) : bool :=
  (0 <? Z.of_nat (List.length (reviewCards p))) || noReviewsSection p.

(** The world in which a tick starts to scrape the page. *)
Definition processing (w : World) : World :=
  set_lastProcessedUrl (href (location (page w))) (set_isProcessing true w).


(* ================================================================== *)
(** ** Example pages, sessions and worlds *)
(* ================================================================== *)

Definition exampleHref (query : jsstring) : jsstring :=
  js "https://www.amazon.com/product-reviews/B000EXAMPLE" ++ query.

(** The listing at [filterByStar=filter&pageNumber=pageNo]. *)
Definition filteredLocation (filter pageNo : jsstring) : Location :=
  mkLocation
    (exampleHref (js "?filterByStar=" ++ filter ++ js "&pageNumber=" ++ pageNo))
    (js "/product-reviews/B000EXAMPLE")
    [(js "filterByStar", filter); (js "pageNumber", pageNo)].

(** The listing with no filter and no page number in its address. *)
Definition unfilteredLocation : Location :=
  mkLocation (exampleHref []) (js "/product-reviews/B000EXAMPLE") [].

Definition cardFull : Card :=
  mkCard false (js "R1TESTCARD") (Some (js " Ann "))
         (Some (js "1.0 out of 5 stars")) (Some (js "Broke"))
         (Some (js "Reviewed on 1 May 2024")) (Some (js "It broke after a week."))
         true (Some (js "Color: Red")).

(** A card with a body and nothing else. *)
Definition cardBare : Card :=
  mkCard false [] None None None None (Some (js "Fine.")) false None.

(** A card whose body is white space. *)
Definition cardBlankBody : Card :=
  mkCard false (js "R2BLANK") (Some (js "Bob")) (Some (js "2.0 out of 5 stars"))
         (Some (js "Meh")) None (Some (js "   ")) false None.

(** A card on which a DOM access raises. *)
Definition cardBroken : Card :=
  mkCard true (js "R3BROKEN") None None None None (Some (js "unreachable")) false None.

(** A state parameter of a histogram row that names [f]. *)
Definition stateParamFor (f : StarFilter) : jsstring :=
  js "{" ++ stateParamNeedle (Some f) ++ js "}".

Definition allHistogramRows : list (option jsstring) :=
  map (fun f => Some (stateParamFor f)) STAR_FILTERS.

(** A listing page: its address, its cards, whether a next page is offered
    and whether the histogram controls are present. *)
Definition listingPage (loc : Location) (cards : list Card) (next : bool)
    (controls : bool) : Page :=
  mkPage loc cards (match cards with [] => true | _ => false end) false
         (js "Customer reviews")
         (if next then [false] else [true])
         (if controls then allHistogramRows else [])
         [] None None.

Definition oneStarPage1 : Page :=
  listingPage (filteredLocation (js "one_star") (js "1")) [cardFull; cardBare] true true.

Definition oneStarPage2 : Page :=
  listingPage (filteredLocation (js "one_star") (js "2")) [cardBare] true true.

Definition oneStarPage3Empty : Page :=
  listingPage (filteredLocation (js "one_star") (js "3")) [] true true.

Definition oneStarPage4 : Page :=
  listingPage (filteredLocation (js "one_star") (js "4")) [cardFull] false true.

Definition fiveStarLastPage : Page :=
  listingPage (filteredLocation (js "five_star") (js "2")) [cardFull] false true.

Definition twoStarPage1 : Page :=
  listingPage (filteredLocation (js "two_star") (js "1")) [cardFull] true true.

(** A listing whose address carries a page number that is not a number. *)
Definition unreadablePage : Page :=
  listingPage (filteredLocation (js "one_star") (js "abc")) [cardFull] true true.

Definition unfilteredPage : Page :=
  listingPage unfilteredLocation [cardFull; cardBlankBody] true true.

(** The unfiltered listing without any control that selects a filter. *)
Definition unfilteredPageNoControls : Page :=
  listingPage unfilteredLocation [cardFull] true false.

Definition emptyChrome : ChromeStore := mkChrome None None None.

(** A browser on page [p] at time [now], with [local] in the fast tier and
    [durable] in the durable tier, the content script freshly loaded. *)
Definition browser (p : Page) (local : option ScrapeSession)
    (durable : ChromeStore) (now : Z) : World :=
  mkWorld p local durable now true true [] false.

Definition exampleReview : Review :=
  mkReview (js "R0OLD") (js "1.0 out of 5 stars") (js "Zed") (js "Old")
           (js "Reviewed on 1 April 2024") (js "An earlier review.") false []
           [] (Some (STAR_LABELS one_star)) (Some (Int 1)).

(** A session in progress on filter [index]. *)
Definition sessionAt (index : Z) (pageNo : Z) : ScrapeSession :=
  mkSession true [exampleReview] index (Int pageNo) [] 1000 1500.

(** Both tiers hold [s] and the scan flag is up. *)
Definition browserWith (p : Page) (s : ScrapeSession) : World :=
  browser p (Some s) (mkChrome (Some s) (Some true) None) 2000.

Definition exampleEnv (next filter : Page) : Env := mkEnv next filter (1 # 2).


(** The string both exporters produce for a non-empty record sequence. *)
Definition serialize (rs : list Review) : jsstring := BOM ++ csvContent rs.

(** The UTF-8 byte-order mark. *)
Definition UTF8_BOM : list Z := [239; 187; 191].

(** A field between double quotes. *)
Definition isQuoted (field : jsstring) : bool :=
  match field with
  | c :: rest => (c =? QUOTE) && match rev rest with
                                 | d :: _ => d =? QUOTE
                                 | [] => false
                                 end
  | [] => false
  end.

(** The reading of a quoted field body: two double quotes stand for one.
    [None] when a double quote stands alone. *)
Fixpoint undouble (s : jsstring) : option jsstring :=
  match s with
  | [] => Some []
  | c :: s' =>
      if c =? QUOTE then
        match s' with
        | d :: s'' =>
            if d =? QUOTE
            then option_map (cons QUOTE) (undouble s'')
            else None
        | [] => None
        end
      else option_map (cons c) (undouble s')
  end.

(** Columns of a row, by position. *)
Definition column (i : nat) (row : Review) : jsstring := nth i (rowValues row) [].

Definition reviewWithQuotes : Review :=
  mkReview (js "R9") (js "5.0 out of 5 stars") (js "Al") (QUOTE :: js "Wow" ++ [QUOTE])
           (js "Reviewed on 2 May 2024")
           (js "Line one" ++ [NEWLINE] ++ js "says " ++ [QUOTE] ++ js "hi" ++ [QUOTE])
           true (js "Size: 6" ++ [QUOTE]) [] (Some (STAR_LABELS five_star))
           (Some (Int 2)).


(* ================================================================== *)
(** ** Vocabulary of the further properties *)
(* ================================================================== *)

(** The card yields a record: its parse does not raise and its body is not
    empty once trimmed. *)
Definition hasBody (card : Card) : bool :=
  negb (cardThrows card) && truthy (textOr (reviewBody card) []).

(** No white space at either end. *)
Definition isTrimmed (s : jsstring) : Prop := trim s = s.

(** The text fields of a record carry no white space at their ends. *)
Definition fieldsTrimmed (r : Review) : Prop :=
  isTrimmed (author r) /\ isTrimmed (starRating r) /\ isTrimmed (title r) /\
  isTrimmed (date r) /\ isTrimmed (content r) /\ isTrimmed (variant r).


(** Both storage tiers hold a session satisfying [Q], or none. *)
Definition storedSatisfy (Q : ScrapeSession -> Prop) (w : World) : Prop :=
  match localStore w with Some s => Q s | None => True end /\
  match amazon_scraper_session (chromeStore w) with Some s => Q s | None => True end.

(** The effect writes no session, or one satisfying [Q]. *)
Definition writesSatisfy (Q : ScrapeSession -> Prop) (e : Event) : Prop :=
  match e with
  | ELocalSet s | EChromeSet s => Q s
  | _ => True
  end.

(** The filter index points into [STAR_FILTERS]. *)
Definition indexInRange (s : ScrapeSession) : Prop :=
  0 <= currentStarIndex s < Z.of_nat (List.length STAR_FILTERS).

(** The record carries the label of one of the five filters and a page
    number. *)
Definition labelled (r : Review) : Prop :=
  (exists f, starFilter r = Some (STAR_LABELS f)) /\
  (exists n, pageNumber r = Some n).

Definition wellFormed (s : ScrapeSession) : Prop :=
  indexInRange s /\ Forall labelled (reviews s).

(** The records of [s] start with those of [s0], in the same order. *)
Definition extends (s0 s : ScrapeSession) : Prop :=
  exists extra, reviews s = reviews s0 ++ extra.

(** The navigating effects of a trace, in order. *)
Definition navigations (t : list Event) : list Event := filter isNavigation t.


(** No navigation, or one click on a filter control. *)
Definition filterClickOrNone (n : list Event) : Prop :=
  n = [] \/ exists via f, n = [EClickFilter via f].

(** The navigations one tick can perform: none, a redirect to the listing,
    a filter click, a next-page click, or a next-page click followed by a
    filter click. *)
Definition tickNavigations (n : list Event) : Prop :=
  n = [] \/
  (exists target, n = [ERedirect target]) \/
  (exists via f, n = [EClickFilter via f]) \/
  n = [EClickNext] \/
  (exists via f, n = [EClickNext; EClickFilter via f]).

(** A product page: the path names a product and not its reviews. *)
Definition onProductPage (p : Page) : bool :=
  includes (pathname (location p)) (js "/dp/")
  && negb (includes (pathname (location p)) (js "/product-reviews/")).


(** An effect that only informs: a log line or an alert. *)
Definition isNotice (e : Event) : bool :=
  match e with
  | ELog _ _ | EAlert _ => true
  | _ => false
  end.

(** A product page showing a card and the link to its listing. *)
Definition productPage : Page :=
  mkPage (mkLocation (js "https://www.amazon.com/Widget/dp/B000EXAMPLE")
                     (js "/Widget/dp/B000EXAMPLE") [])
         [cardFull] false false (js "Widget") [] [] [] None
         (Some (exampleHref [])).

(** A listing that shows a card next to the challenge form. *)
Definition challengePage : Page :=
  mkPage unfilteredLocation [cardFull] false true
         (js "Enter the characters you see below") [] [] [] None None.

(** The last page of the first filter, without any control that selects a
    filter. *)
Definition lastPageNoControls : Page :=
  listingPage (filteredLocation (js "one_star") (js "1")) [cardFull] false false.


(** The positions, counted from 1 and starting after [index] cards, of the
    cards whose reading raises. *)
Fixpoint brokenPositions (index : nat) (cards : list Card) : list nat :=
  match cards with
  | [] => []
  | card :: rest =>
      if cardThrows card
      then (index + 1)%nat :: brokenPositions (S index) rest
      else brokenPositions (S index) rest
  end.


(** The listing of the three-star filter, page 1, with one card. *)
Definition threeStarPage1 : Page :=
  listingPage (filteredLocation (js "three_star") (js "1")) [cardFull] true true.


(* ================================================================== *)
(** * Properties *)
(* ================================================================== *)

(** ** Strings *)

Lemma str_eqb_eq (a b : jsstring) : str_eqb a b = true <-> a = b.
Proof.
  revert b; induction a as [|x a IH]; intros [|y b]; simpl; split;
    try congruence; try reflexivity.
  - intros H. apply andb_true_iff in H as [Hx Hab].
    apply Z.eqb_eq in Hx. apply IH in Hab. congruence.
  - intros H. injection H as -> ->.
    rewrite Z.eqb_refl. apply IH. reflexivity.
Qed.

Lemma str_eqb_refl (a : jsstring) : str_eqb a a = true.
Proof. apply str_eqb_eq. reflexivity. Qed.

Lemma truthy_length (s : jsstring) :
  truthy s = true -> (0 < List.length s)%nat.
Proof. destruct s; simpl; [discriminate | lia]. Qed.

Lemma textOr_missing (fallback : jsstring) : textOr None fallback = fallback.
Proof. reflexivity. Qed.

Lemma textOr_blank (t fallback : jsstring) :
  trim t = [] -> textOr (Some t) fallback = fallback.
Proof. intros H. unfold textOr. rewrite H. reflexivity. Qed.

Lemma textOr_present (t fallback : jsstring) :
  trim t <> [] -> textOr (Some t) fallback = trim t.
Proof.
  intros H. unfold textOr, str_or. destruct (trim t); [congruence | reflexivity].
Qed.

(** ** The extractor *)

Section Extractor.

Variable expected : option StarFilter.
Variable pageNum : jsnum.
Variable now : Z.

Lemma parseCard_throws (index : nat) (card : Card) :
  cardThrows card = true ->
  exists e, parseCard expected pageNum now index card = Throw e.
Proof. intros H. unfold parseCard. rewrite H. eauto. Qed.

Lemma parseCard_total (index : nat) (card : Card) :
  cardThrows card = false ->
  exists r, parseCard expected pageNum now index card = Ok r.
Proof.
  intros H. unfold parseCard. rewrite H.
  destruct (truthy _ && _); eauto.
Qed.

Lemma parseCard_body (index : nat) (card : Card) (r : Review) :
  parseCard expected pageNum now index card = Ok (Some r) ->
  bodyNonEmpty r.
Proof.
  unfold parseCard, bodyNonEmpty.
  destruct (cardThrows card); [discriminate|].
  destruct (truthy (textOr (reviewBody card) [])) eqn:Ht; simpl;
    [|discriminate].
  destruct (0 <? _); [|discriminate].
  intros H. injection H as <-. simpl. apply truthy_length. exact Ht.
Qed.

Lemma parseCard_fields (index : nat) (card : Card) (r : Review) :
  parseCard expected pageNum now index card = Ok (Some r) ->
  id r = str_or (cardId card) (syntheticId now index) /\
  author r = textOr (profileName card) (js "Anonymous") /\
  starRating r = textOr (ratingAlt card) (js "N/A") /\
  title r = textOr (titleSpan card) [] /\
  date r = textOr (reviewDate card) [] /\
  variant r = textOr (formatStrip card) [] /\
  content r = textOr (reviewBody card) [] /\
  verified r = avpBadge card /\
  starFilter r = labelOf expected /\
  pageNumber r = Some pageNum.
Proof.
  unfold parseCard.
  destruct (cardThrows card); [discriminate|].
  destruct (truthy _ && _); [|discriminate].
  intros H. injection H as <-. simpl. repeat split.
Qed.

Lemma forEachCard_acc (cards : list Card) :
  forall index acc,
    fst (forEachCard expected pageNum now index cards acc) =
    acc ++ fst (forEachCard expected pageNum now index cards []).
Proof.
  induction cards as [|card rest IH]; intros index acc; simpl.
  - rewrite app_nil_r. reflexivity.
  - destruct (parseCard expected pageNum now index card) as [[r|]|e].
    + rewrite (IH (S index) (acc ++ [r])), (IH (S index) [r]).
      rewrite <- app_assoc. reflexivity.
    + apply IH.
    + specialize (IH (S index) acc).
      destruct (forEachCard expected pageNum now (S index) rest acc).
      destruct (forEachCard expected pageNum now (S index) rest []).
      exact IH.
Qed.

Lemma forEachCard_app (pre post : list Card) :
  forall index,
    fst (forEachCard expected pageNum now index (pre ++ post) []) =
    fst (forEachCard expected pageNum now index pre []) ++
    fst (forEachCard expected pageNum now (index + List.length pre) post []).
Proof.
  induction pre as [|card rest IH]; intros index; simpl.
  - rewrite Nat.add_0_r. reflexivity.
  - replace (index + S (List.length rest))%nat
      with (S index + List.length rest)%nat by lia.
    destruct (parseCard expected pageNum now index card) as [[r|]|e].
    + rewrite forEachCard_acc, IH.
      rewrite (forEachCard_acc rest (S index) [r]).
      rewrite app_assoc. reflexivity.
    + apply IH.
    + specialize (IH (S index)).
      destruct (forEachCard expected pageNum now (S index) (rest ++ post) []).
      destruct (forEachCard expected pageNum now (S index) rest []).
      exact IH.
Qed.

Lemma forEachCard_Forall (P : Review -> Prop) :
  (forall index card r,
      parseCard expected pageNum now index card = Ok (Some r) -> P r) ->
  forall cards index acc,
    Forall P acc ->
    Forall P (fst (forEachCard expected pageNum now index cards acc)).
Proof.
  intros HP. induction cards as [|card rest IH]; intros index acc Hacc; simpl.
  - exact Hacc.
  - destruct (parseCard expected pageNum now index card) as [[r|]|e] eqn:E.
    + apply IH. apply Forall_app. split; [exact Hacc|].
      constructor; [eapply HP; exact E | constructor].
    + apply IH. exact Hacc.
    + specialize (IH (S index) acc Hacc).
      destruct (forEachCard expected pageNum now (S index) rest acc).
      exact IH.
Qed.

End Extractor.

Lemma extractReviews_value (f : option StarFilter) (pageNum : jsnum) (w : World) :
  value (extractReviews f pageNum w) =
  fst (forEachCard f pageNum (clock w) 0 (reviewCards (page w)) []).
Proof.
  unfold extractReviews, bind, getWorld, log, emit, value; simpl.
  destruct (forEachCard f pageNum (clock w) 0 (reviewCards (page w)) []).
  reflexivity.
Qed.

Lemma extractReviews_world (f : option StarFilter) (pageNum : jsnum) (w : World) :
  world (extractReviews f pageNum w) = w.
Proof.
  unfold extractReviews, bind, getWorld, log, emit, world; simpl.
  destruct (forEachCard f pageNum (clock w) 0 (reviewCards (page w)) []).
  reflexivity.
Qed.

Lemma extractReviews_bodies (f : option StarFilter) (pageNum : jsnum) (w : World) :
  Forall bodyNonEmpty (value (extractReviews f pageNum w)).
Proof.
  rewrite extractReviews_value.
  apply forEachCard_Forall; [|constructor].
  intros index card r. apply parseCard_body.
Qed.

(** ** Reasoning about computations *)

Lemma bind_eq {A B} (m : M A) (k : A -> M B) (w : World) :
  bind m k w =
  (value (k (value (m w)) (world (m w))),
   world (k (value (m w)) (world (m w))),
   trace (m w) ++ trace (k (value (m w)) (world (m w)))).
Proof.
  unfold bind, value, world, trace.
  destruct (m w) as [[a w1] t1]; simpl.
  destruct (k a w1) as [[b w2] t2]; reflexivity.
Qed.

Lemma bind_value {A B} (m : M A) (k : A -> M B) (w : World) :
  value (bind m k w) = value (k (value (m w)) (world (m w))).
Proof. rewrite bind_eq. reflexivity. Qed.

Lemma bind_world {A B} (m : M A) (k : A -> M B) (w : World) :
  world (bind m k w) = world (k (value (m w)) (world (m w))).
Proof. rewrite bind_eq. reflexivity. Qed.

Lemma bind_trace {A B} (m : M A) (k : A -> M B) (w : World) :
  trace (bind m k w) = trace (m w) ++ trace (k (value (m w)) (world (m w))).
Proof. rewrite bind_eq. reflexivity. Qed.

Section Holds.

Variable I : World -> Prop.
Variable T : Event -> Prop.

Lemma holds_ret {A} (a : A) (Q : A -> Prop) : Q a -> holds I T (ret a) Q.
Proof. intros Ha w Hw. repeat split; [exact Hw | constructor | exact Ha]. Qed.

Lemma holds_bind {A B} (m : M A) (k : A -> M B)
    (Q : A -> Prop) (R : B -> Prop) :
  holds I T m Q ->
  (forall a, Q a -> holds I T (k a) R) ->
  holds I T (bind m k) R.
Proof.
  intros Hm Hk w Hw.
  rewrite bind_world, bind_trace, bind_value.
  destruct (Hm w Hw) as (Hw1 & Ht1 & Hq).
  destruct (Hk _ Hq _ Hw1) as (Hw2 & Ht2 & Hr).
  repeat split; [exact Hw2 | apply Forall_app; split; assumption | exact Hr].
Qed.

Lemma holds_weaken {A} (m : M A) (Q R : A -> Prop) :
  holds I T m Q -> (forall a, Q a -> R a) -> holds I T m R.
Proof.
  intros Hm HQR w Hw. destruct (Hm w Hw) as (H1 & H2 & H3).
  repeat split; auto.
Qed.

Lemma holds_emit (e : Event) : T e -> holds I T (emit e) (fun _ => True).
Proof.
  intros He w Hw. repeat split; [exact Hw | repeat constructor; exact He].
Qed.

Lemma holds_getWorld : holds I T getWorld I.
Proof. intros w Hw. repeat split; [exact Hw | constructor | exact Hw]. Qed.

Lemma holds_modify (f : World -> World) :
  (forall w, I w -> I (f w)) -> holds I T (modify f) (fun _ => True).
Proof. intros Hf w Hw. repeat split; [apply Hf; exact Hw | constructor]. Qed.

Lemma holds_seq {A B} (m : M A) (k : M B) (Q : A -> Prop) (R : B -> Prop) :
  holds I T m Q -> holds I T k R -> holds I T (bind m (fun _ => k)) R.
Proof. intros Hm Hk. eapply holds_bind; [exact Hm | intros; exact Hk]. Qed.

Lemma holds_if {A} (b : bool) (m1 m2 : M A) (Q : A -> Prop) :
  (b = true -> holds I T m1 Q) ->
  (b = false -> holds I T m2 Q) ->
  holds I T (if b then m1 else m2) Q.
Proof. destruct b; auto. Qed.

End Holds.

(** ** Every stored record has a body *)

Create HintDb keeps_db.

Lemma keeps_emit (e : Event) : keeps (emit e) (fun _ => True).
Proof. apply holds_emit. exact I. Qed.

Lemma keeps_log (msg : LogMsg) (level : Level) : keeps (log msg level) (fun _ => True).
Proof. apply keeps_emit. Qed.

Lemma keeps_getWorld : keeps getWorld storedBodiesNonEmpty.
Proof. apply holds_getWorld. Qed.

Lemma keeps_set_page (p : Page) : keeps (modify (set_page p)) (fun _ => True).
Proof. apply holds_modify. intros w H. exact H. Qed.

Lemma keeps_set_isProcessing (b : bool) :
  keeps (modify (set_isProcessing b)) (fun _ => True).
Proof. apply holds_modify. intros w H. exact H. Qed.

Lemma keeps_set_lastProcessedUrl (u : jsstring) :
  keeps (modify (set_lastProcessedUrl u)) (fun _ => True).
Proof. apply holds_modify. intros w H. exact H. Qed.

Lemma keeps_delay (ms : Z) : keeps (delay ms) (fun _ => True).
Proof.
  unfold delay. eapply holds_seq; [apply keeps_emit|].
  apply holds_modify. intros w H. exact H.
Qed.

Lemma keeps_setScanning (b : bool) : keeps (setScanning b) (fun _ => True).
Proof.
  unfold setScanning. eapply holds_seq; [apply keeps_emit|].
  apply holds_modify. intros w H. exact H.
Qed.

#[local] Hint Resolve keeps_emit keeps_log keeps_getWorld keeps_set_page
  keeps_set_isProcessing keeps_set_lastProcessedUrl keeps_delay
  keeps_setScanning : keeps_db.

(** One step of a proof by symbolic execution: the head of a sequence is
    discharged from the hint database, a branch is split. *)
Ltac keeps_step :=
  lazymatch goal with
  | |- holds _ _ (bind (bind _ _) (fun _ => _)) _ =>
      eapply holds_seq with (Q := fun _ => True)
  | |- holds _ _ (bind _ _) _ =>
      eapply holds_bind; [solve [eauto with keeps_db] | intros ? ?]
  | |- holds _ _ (ret _) _ => apply holds_ret
  | |- holds _ _ (if ?b then _ else _) _ => destruct b eqn:?
  | |- holds _ _ (match ?x with _ => _ end) _ => destruct x eqn:?
  | |- holds _ _ _ (fun _ => True) => solve [eauto with keeps_db]
  end.

Ltac keeps_auto := repeat keeps_step; try exact I; eauto with keeps_db.

Lemma keeps_saveSession (s : ScrapeSession) :
  sessionOK s -> keeps (saveSession s) sessionOK.
Proof.
  intros Hs. unfold saveSession.
  eapply holds_bind; [apply keeps_getWorld | intros w Hw].
  eapply holds_seq with (Q := fun _ => True).
  { destruct (sessionFitsLocal w); [|apply keeps_log].
    eapply holds_seq; [apply keeps_emit|].
    apply holds_modify. intros w0 [_ H2]. split; [exact Hs | exact H2]. }
  eapply holds_seq with (Q := fun _ => True).
  { destruct (sessionFitsChrome w); [|apply keeps_log].
    eapply holds_seq; [apply keeps_emit|].
    apply holds_modify. intros w0 [H1 _]. split; [exact H1 | exact Hs]. }
  apply holds_ret. exact Hs.
Qed.

Lemma keeps_clearSession : keeps clearSession (fun _ => True).
Proof.
  unfold clearSession.
  eapply holds_seq; [apply keeps_emit|].
  eapply holds_seq with (Q := fun _ => True).
  { apply holds_modify. intros w [_ H2]. split; [exact I | exact H2]. }
  eapply holds_seq; [apply keeps_emit|].
  eapply holds_seq with (Q := fun _ => True); [|apply keeps_log].
  apply holds_modify. intros w [H1 _]. split; [exact H1 | exact I].
Qed.

Lemma keeps_getOrCreateSession : keeps getOrCreateSession sessionOK.
Proof.
  unfold getOrCreateSession.
  eapply holds_bind with
    (Q := fun o => match o with Some s => sessionOK s | None => True end).
  { unfold loadSessionFromLocalStorage.
    eapply holds_bind; [apply keeps_getWorld | intros w [H1 _]].
    destruct (localStore w); keeps_auto. }
  intros fromLocal Hlocal.
  eapply holds_bind with
    (Q := fun o => match o with Some s => sessionOK s | None => True end).
  { destruct fromLocal as [s|]; [apply holds_ret; exact Hlocal|].
    eapply holds_bind; [apply keeps_getWorld | intros w [_ H2]].
    destruct (amazon_scraper_session (chromeStore w)); keeps_auto. }
  intros [s|] Hs; [apply holds_ret; exact Hs|].
  eapply holds_bind; [apply keeps_getWorld | intros w _].
  destruct (isScanning (chromeStore w)) as [[|]|]; keeps_auto; constructor.
Qed.

Lemma keeps_extractReviews (f : option StarFilter) (pageNum : jsnum) :
  keeps (extractReviews f pageNum) (Forall bodyNonEmpty).
Proof.
  intros w Hw. rewrite extractReviews_world. split; [|split].
  - exact Hw.
  - apply Forall_forall. intros; exact I.
  - apply extractReviews_bodies.
Qed.

Lemma keeps_any {A} (m : M A) :
  (forall w, localStore (world (m w)) = localStore w /\
             chromeStore (world (m w)) = chromeStore w) ->
  keeps m (fun _ => True).
Proof.
  intros Hm w [H1 H2]. destruct (Hm w) as [E1 E2]. split; [split|split].
  - rewrite E1. exact H1.
  - rewrite E2. exact H2.
  - apply Forall_forall. intros; exact I.
  - exact I.
Qed.

Lemma keeps_getCurrentStarFilter : keeps getCurrentStarFilter (fun _ => True).
Proof.
  apply keeps_any. intros w. unfold getCurrentStarFilter, bind, getWorld. simpl.
  destruct (searchParam _ _); split; reflexivity.
Qed.

Lemma keeps_getCurrentPageNumber : keeps getCurrentPageNumber (fun _ => True).
Proof.
  apply keeps_any. intros w. unfold getCurrentPageNumber, bind, getWorld. simpl.
  destruct (searchParam _ _); split; reflexivity.
Qed.

Lemma keeps_hasNextPage : keeps hasNextPage (fun _ => True).
Proof. apply keeps_any. intros w. split; reflexivity. Qed.

Lemma keeps_detectCaptcha : keeps detectCaptcha (fun _ => True).
Proof. apply keeps_any. intros w. split; reflexivity. Qed.

Lemma keeps_clickNextPage (env : Env) : keeps (clickNextPage env) (fun _ => True).
Proof.
  apply keeps_any. intros w. unfold clickNextPage, bind, getWorld. simpl.
  destruct (lastItems (page w)); split; reflexivity.
Qed.

Lemma keeps_waitForPageLoad : keeps waitForPageLoad (fun _ => True).
Proof.
  apply keeps_any. intros w. unfold waitForPageLoad, bind, getWorld. simpl.
  destruct (reviewCards (page w)); split; reflexivity.
Qed.

Lemma keeps_clickStarFilter (env : Env) (f : option StarFilter) :
  keeps (clickStarFilter env f) (fun _ => True).
Proof.
  unfold clickStarFilter.
  eapply holds_seq; [apply keeps_log|].
  eapply holds_bind; [apply keeps_getWorld | intros w _].
  keeps_auto.
Qed.

Lemma keeps_checkProductPageRedirect : keeps checkProductPageRedirect (fun _ => True).
Proof.
  unfold checkProductPageRedirect.
  eapply holds_bind; [apply keeps_getWorld | intros w _].
  keeps_auto.
Qed.

Lemma keeps_downloadCSV (rs : list Review) : keeps (downloadCSV rs) (fun _ => True).
Proof. unfold downloadCSV. destruct rs; keeps_auto. Qed.

#[local] Hint Resolve keeps_clearSession keeps_getCurrentStarFilter
  keeps_getCurrentPageNumber keeps_hasNextPage keeps_detectCaptcha
  keeps_clickNextPage keeps_waitForPageLoad keeps_clickStarFilter
  keeps_checkProductPageRedirect keeps_downloadCSV keeps_extractReviews
  keeps_getOrCreateSession : keeps_db.

#[local] Hint Resolve keeps_saveSession : keeps_db.

Lemma sessionOK_set_currentStarIndex (i : Z) (s : ScrapeSession) :
  sessionOK s -> sessionOK (set_currentStarIndex i s).
Proof. intros H; exact H. Qed.

Lemma sessionOK_set_currentPage (p : jsnum) (s : ScrapeSession) :
  sessionOK s -> sessionOK (set_currentPage p s).
Proof. intros H; exact H. Qed.

Lemma sessionOK_set_isActive (b : bool) (s : ScrapeSession) :
  sessionOK s -> sessionOK (set_isActive b s).
Proof. intros H; exact H. Qed.

Lemma sessionOK_set_lastUrl (u : jsstring) (s : ScrapeSession) :
  sessionOK s -> sessionOK (set_lastUrl u s).
Proof. intros H; exact H. Qed.

Lemma sessionOK_append (found : list Review) (s : ScrapeSession) :
  sessionOK s -> Forall bodyNonEmpty found ->
  sessionOK (set_reviews (reviews s ++ found) s).
Proof. intros Hs Hf. apply Forall_app. split; assumption. Qed.

#[local] Hint Resolve sessionOK_set_currentStarIndex sessionOK_set_currentPage
  sessionOK_set_isActive sessionOK_set_lastUrl sessionOK_append : keeps_db.

Lemma keeps_switchToNextFilter (env : Env) (s : ScrapeSession) :
  sessionOK s -> keeps (switchToNextFilter env s) sessionOK.
Proof. intros Hs. unfold switchToNextFilter. keeps_auto. Qed.

Lemma keeps_validateFilter (env : Env) (f : option StarFilter) :
  keeps (validateFilter env f) (fun _ => True).
Proof. unfold validateFilter. keeps_auto. Qed.

Lemma keeps_extractAndSave (f : option StarFilter) (s : ScrapeSession) :
  sessionOK s -> keeps (extractAndSave f s) sessionOK.
Proof. intros Hs. unfold extractAndSave. keeps_auto. Qed.

#[local] Hint Resolve keeps_switchToNextFilter keeps_validateFilter
  keeps_extractAndSave : keeps_db.

Lemma keeps_paginate (env : Env) (f : option StarFilter) (s : ScrapeSession) :
  sessionOK s -> keeps (paginate env f s) sessionOK.
Proof. intros Hs. unfold paginate. keeps_auto. Qed.

#[local] Hint Resolve keeps_paginate : keeps_db.

Lemma keeps_scrapeCurrentPage (env : Env) (s : ScrapeSession) :
  sessionOK s -> keeps (scrapeCurrentPage env s) sessionOK.
Proof. intros Hs. unfold scrapeCurrentPage. keeps_auto. Qed.

#[local] Hint Resolve keeps_scrapeCurrentPage : keeps_db.

Lemma keeps_mainController (env : Env) :
  keeps (mainController env) (fun _ => True).
Proof. unfold mainController. keeps_auto. Qed.

Lemma keeps_deliver (evs : list Event) : keeps (deliver evs) (fun _ => True).
Proof.
  induction evs as [|e evs IH]; simpl; [keeps_auto|].
  destruct e; try exact IH.
  eapply holds_seq with (Q := fun _ => True); [|exact IH].
  unfold onMessage, handleScrapingComplete, broadcastMessage.
  destruct m; keeps_auto.
Qed.

Lemma keeps_tick (env : Env) : keeps (tick env) (fun _ => True).
Proof.
  intros w Hw. unfold tick.
  destruct (keeps_mainController env w Hw) as (H1 & _ & _).
  destruct (mainController env w) as [[u w1] t1]. simpl in H1.
  destruct (keeps_deliver t1 w1 H1) as (H2 & _ & _).
  destruct (deliver t1 w1) as [[u2 w2] t2]. simpl in *.
  split; [exact H2 | split; [|exact I]].
  apply Forall_forall. intros; exact I.
Qed.

Lemma keeps_step_input (i : Input) : keeps (step i) (fun _ => True).
Proof.
  destruct i; simpl.
  - apply keeps_tick.
  - apply keeps_set_page.
  - apply holds_modify. intros w H. exact H.
  - unfold handleStartScraping, broadcastMessage.
    eapply holds_seq; [apply keeps_setScanning|].
    eapply holds_seq with (Q := fun _ => True); [|apply keeps_emit].
    apply holds_modify. intros w H. exact H.
  - unfold handleStopScraping, broadcastMessage. keeps_auto.
  - apply holds_modify. intros w H. exact H.
Qed.

Lemma keeps_run (inputs : list Input) : keeps (run inputs) (fun _ => True).
Proof.
  induction inputs as [|i rest IH]; simpl.
  - apply holds_ret. exact I.
  - eapply holds_seq; [apply keeps_step_input | exact IH].
Qed.

(** ** Observations do not change the world *)

Lemma pure_world {A} (m : M A) (w : World) : pure m -> world (m w) = w.
Proof. intros H. rewrite H. reflexivity. Qed.

Lemma pure_trace {A} (m : M A) (w : World) : pure m -> trace (m w) = [].
Proof. intros H. rewrite H. reflexivity. Qed.

Lemma pure_getCurrentPageNumber : pure getCurrentPageNumber.
Proof.
  intros w. unfold getCurrentPageNumber, bind, getWorld, value. simpl.
  destruct (searchParam _ _); reflexivity.
Qed.

Lemma pure_getCurrentStarFilter : pure getCurrentStarFilter.
Proof.
  intros w. unfold getCurrentStarFilter, bind, getWorld, value. simpl.
  destruct (searchParam _ _); reflexivity.
Qed.

Lemma pure_hasNextPage : pure hasNextPage.
Proof. intros w. reflexivity. Qed.

Lemma pure_detectCaptcha : pure detectCaptcha.
Proof. intros w. reflexivity. Qed.

(** The page number depends on the page only. *)
Lemma getCurrentPageNumber_page (w w' : World) :
  page w = page w' ->
  value (getCurrentPageNumber w) = value (getCurrentPageNumber w').
Proof.
  intros H. unfold getCurrentPageNumber, bind, getWorld, value. simpl.
  rewrite H. destruct (searchParam _ _); reflexivity.
Qed.

Lemma extractReviews_trace_logs (f : option StarFilter) (pageNum : jsnum) (w : World) :
  Forall (fun e => exists level msg, e = ELog level msg)
         (trace (extractReviews f pageNum w)).
Proof.
  unfold extractReviews, bind, getWorld, log, emit, trace; simpl.
  assert (H : forall cards index acc,
             Forall (fun e => exists level msg, e = ELog level msg)
                    (snd (forEachCard f pageNum (clock w) index cards acc))).
  { induction cards as [|card rest IH]; intros index acc; simpl.
    - constructor.
    - destruct (parseCard f pageNum (clock w) index card) as [[r|]|e].
      + apply IH.
      + apply IH.
      + specialize (IH (S index) acc).
        destruct (forEachCard f pageNum (clock w) (S index) rest acc).
        constructor; [eauto | exact IH]. }
  specialize (H (reviewCards (page w)) 0%nat []).
  destruct (forEachCard f pageNum (clock w) 0 (reviewCards (page w)) []).
  simpl. constructor; [eauto | exact H].
Qed.

Lemma count_app (p : Event -> bool) (a b : list Event) :
  count p (a ++ b) = (count p a + count p b)%nat.
Proof. unfold count. rewrite filter_app, length_app. reflexivity. Qed.

Lemma count_cons (p : Event -> bool) (e : Event) (evs : list Event) :
  count p (e :: evs) = ((if p e then 1 else 0) + count p evs)%nat.
Proof. unfold count. simpl. destruct (p e); reflexivity. Qed.

Lemma trace_tuple {A} (a : A) (w : World) (t : list Event) : trace (a, w, t) = t.
Proof. reflexivity. Qed.

Lemma count_logs (p : Event -> bool) (evs : list Event) :
  (forall level msg, p (ELog level msg) = false) ->
  Forall (fun e => exists level msg, e = ELog level msg) evs ->
  count p evs = 0%nat.
Proof.
  intros Hp H. induction H as [|e evs (level & msg & ->) _ IH].
  - reflexivity.
  - unfold count in *. simpl. rewrite Hp. exact IH.
Qed.

(** ** The extraction step (claim C3) *)

Lemma saveSession_value (s : ScrapeSession) (w : World) :
  value (saveSession s w) = set_lastUpdated (clock w) s.
Proof.
  unfold saveSession, bind, getWorld, value. simpl.
  destruct (sessionFitsLocal w), (sessionFitsChrome w); reflexivity.
Qed.

Lemma saveSession_local (s : ScrapeSession) (w : World) :
  sessionFitsLocal w = true ->
  localStore (world (saveSession s w)) = Some (set_lastUpdated (clock w) s) /\
  In (ELocalSet (set_lastUpdated (clock w) s)) (trace (saveSession s w)).
Proof.
  intros H. unfold saveSession, bind, getWorld, world, trace. simpl.
  rewrite H. destruct (sessionFitsChrome w); simpl; auto.
Qed.

Lemma saveSession_chrome (s : ScrapeSession) (w : World) :
  sessionFitsChrome w = true ->
  amazon_scraper_session (chromeStore (world (saveSession s w))) =
    Some (set_lastUpdated (clock w) s) /\
  In (EChromeSet (set_lastUpdated (clock w) s)) (trace (saveSession s w)).
Proof.
  intros H. unfold saveSession, bind, getWorld, world, trace. simpl.
  rewrite H. destruct (sessionFitsLocal w); simpl; auto.
Qed.

Lemma extractAndSave_found (f : option StarFilter) (s : ScrapeSession) (w : World) :
  let pageNum := value (getCurrentPageNumber w) in
  let found := value (extractReviews f pageNum w) in
  let r := extractAndSave f s w in
  found <> [] ->
  value r = appended s found pageNum (clock w) /\
  (sessionFitsLocal w = true ->
   localStore (world r) = Some (appended s found pageNum (clock w)) /\
   In (ELocalSet (appended s found pageNum (clock w))) (trace r)) /\
  (sessionFitsChrome w = true ->
   amazon_scraper_session (chromeStore (world r)) =
     Some (appended s found pageNum (clock w)) /\
   In (EChromeSet (appended s found pageNum (clock w))) (trace r)).
Proof.
  intros pageNum found r Hfound. subst r. unfold extractAndSave.
  rewrite bind_eq.
  rewrite (pure_world _ w pure_getCurrentPageNumber),
          (pure_trace _ w pure_getCurrentPageNumber).
  fold pageNum. rewrite bind_eq, extractReviews_world. fold found.
  destruct found as [|r0 rest] eqn:E; [congruence|].
  rewrite <- E. clear Hfound.
  set (s1 := set_currentPage pageNum (set_reviews (reviews s ++ found) s)).
  assert (Hs1 : set_lastUpdated (clock w) s1 = appended s found pageNum (clock w))
    by reflexivity.
  unfold value, world, trace; simpl.
  rewrite bind_eq. simpl.
  pose proof (saveSession_value s1 w) as Hv.
  pose proof (saveSession_local s1 w) as Hl.
  pose proof (saveSession_chrome s1 w) as Hc.
  rewrite Hs1 in Hv, Hl, Hc.
  destruct (saveSession s1 w) as [[s2 w2] t2].
  unfold value, world, trace in *; simpl in *. subst s2.
  split; [reflexivity|]. split.
  - intros H. destruct (Hl H) as [H1 H2]. split; [exact H1|].
    apply in_or_app. right. apply in_or_app. left. exact H2.
  - intros H. destruct (Hc H) as [H1 H2]. split; [exact H1|].
    apply in_or_app. right. apply in_or_app. left. exact H2.
Qed.

Lemma extractAndSave_none (f : option StarFilter) (s : ScrapeSession) (w : World) :
  let pageNum := value (getCurrentPageNumber w) in
  let r := extractAndSave f s w in
  value (extractReviews f pageNum w) = [] ->
  value r = s /\ world r = w /\
  count isSessionWrite (trace r) = 0%nat /\
  In (ELog LWarn MsgNoReviewsOnPage) (trace r).
Proof.
  intros pageNum r Hnone. subst r. unfold extractAndSave.
  rewrite bind_eq.
  rewrite (pure_world _ w pure_getCurrentPageNumber),
          (pure_trace _ w pure_getCurrentPageNumber).
  fold pageNum. rewrite bind_eq, extractReviews_world, Hnone.
  unfold value, world, trace; simpl.
  repeat split.
  - rewrite count_app. rewrite (count_logs isSessionWrite).
    + reflexivity.
    + reflexivity.
    + apply extractReviews_trace_logs.
  - apply in_or_app. right. left. reflexivity.
Qed.

(** ** Filter activation *)

Lemma clickStarFilter_true (env : Env) (f : option StarFilter) (w : World) :
  value (clickStarFilter env f w) = true ->
  exists via,
    clickStarFilter env f w =
    (true, set_page (afterFilter env) w,
     [ELog LInfo (MsgAttemptClick (labelOf f)); EClickFilter via f;
      ELog LSuccess (clickedMsg via (labelOf f))]).
Proof.
  unfold clickStarFilter, bind, getWorld, log, emit, modify, ret, value. simpl.
  destruct (existsb _ (histogramRows (page w))); simpl.
  { intros _. exists ViaHistogram. reflexivity. }
  destruct (existsb _ (filterLinks (page w))); simpl.
  { intros _. exists ViaHref. reflexivity. }
  destruct (match starDropdown (page w) with Some _ => _ | None => _ end); simpl.
  { intros _. exists ViaDropdown. reflexivity. }
  discriminate.
Qed.

Lemma clickStarFilter_false (env : Env) (f : option StarFilter) (w : World) :
  value (clickStarFilter env f w) = false ->
  clickStarFilter env f w =
  (false, w,
   [ELog LInfo (MsgAttemptClick (labelOf f));
    ELog LError (MsgNoFilterLink (labelOf f))]).
Proof.
  unfold clickStarFilter, bind, getWorld, log, emit, modify, ret, value. simpl.
  destruct (existsb _ (histogramRows (page w))); simpl; [discriminate|].
  destruct (existsb _ (filterLinks (page w))); simpl; [discriminate|].
  destruct (match starDropdown (page w) with Some _ => _ | None => _ end); simpl;
    [discriminate|].
  reflexivity.
Qed.

(** The three strategies, in order: the controls that make the click succeed. *)
Lemma clickStarFilter_succeeds_iff (env : Env) (f : option StarFilter) (w : World) :
  value (clickStarFilter env f w) = true <->
  existsb (fun row => includes (attrOrEmpty row) (stateParamNeedle f))
          (histogramRows (page w)) = true \/
  existsb (fun link => includes link (hrefNeedle f)) (filterLinks (page w)) = true \/
  (exists options, starDropdown (page w) = Some options /\
                   existsb (str_eqb (filterText f)) options = true).
Proof.
  unfold clickStarFilter, bind, getWorld, log, emit, modify, ret, value. simpl.
  destruct (existsb _ (histogramRows (page w))); simpl; [tauto|].
  destruct (existsb _ (filterLinks (page w))); simpl; [tauto|].
  destruct (starDropdown (page w)) as [options|]; simpl.
  - destruct (existsb (str_eqb (filterText f)) options) eqn:E; simpl.
    + split; [|reflexivity]. intros _. right. right. exists options. auto.
    + split; [discriminate|].
      intros [H|[H|(o & Ho & H)]]; try discriminate.
      injection Ho as <-. congruence.
  - split; [discriminate|].
    intros [H|[H|(o & Ho & H)]]; discriminate.
Qed.

Lemma waitForPageLoad_eq (w : World) :
  waitForPageLoad w =
  match reviewCards (page w) with
  | _ :: _ => (tt, set_clock (clock w + PAGE_LOAD_CHECK_INTERVAL) w,
               [EWait PAGE_LOAD_CHECK_INTERVAL])
  | [] => (tt, set_clock (clock w + PAGE_LOAD_TIMEOUT) w,
           [EWait PAGE_LOAD_TIMEOUT; ELog LWarn MsgPageLoadTimeout])
  end.
Proof.
  unfold waitForPageLoad, bind, getWorld. simpl.
  destruct (reviewCards (page w)); reflexivity.
Qed.

Lemma afterActivation_stores (env : Env) (w : World) :
  localStore (afterActivation env w) = localStore w /\
  chromeStore (afterActivation env w) = chromeStore w /\
  page (afterActivation env w) = afterFilter env.
Proof.
  unfold afterActivation. rewrite waitForPageLoad_eq. simpl.
  destruct (reviewCards (afterFilter env)); simpl; auto.
Qed.

Lemma validateFilter_same (env : Env) (f : option StarFilter) (w : World) :
  sameFilter (value (getCurrentStarFilter w)) f = true ->
  validateFilter env f w = (false, w, []).
Proof.
  intros H. unfold validateFilter. rewrite bind_eq.
  rewrite (pure_world _ w pure_getCurrentStarFilter),
          (pure_trace _ w pure_getCurrentStarFilter), H.
  reflexivity.
Qed.

Lemma validateFilter_other (env : Env) (f : option StarFilter) (w : World)
    (shown : StarFilter) :
  value (getCurrentStarFilter w) = Some shown ->
  sameFilter (Some shown) f = false ->
  validateFilter env f w =
  (false, w, [ELog LWarn (MsgFilterMismatch f (Some shown))]).
Proof.
  intros Hc H. unfold validateFilter. rewrite bind_eq.
  rewrite (pure_world _ w pure_getCurrentStarFilter),
          (pure_trace _ w pure_getCurrentStarFilter), Hc, H.
  reflexivity.
Qed.

Lemma validateFilter_unfiltered_clicked (env : Env) (f : option StarFilter)
    (w : World) :
  value (getCurrentStarFilter w) = None ->
  value (clickStarFilter env f w) = true ->
  exists via,
    validateFilter env f w =
    (true, afterActivation env w,
     [ELog LWarn (MsgFilterMismatch f None);
      ELog LInfo (MsgSwitchingFromAll (labelOf f));
      ELog LInfo (MsgAttemptClick (labelOf f));
      EClickFilter via f;
      ELog LSuccess (clickedMsg via (labelOf f))]
     ++ trace (waitForPageLoad (set_page (afterFilter env) w))
     ++ [EWait 2000]).
Proof.
  intros Hc Hclick.
  destruct (clickStarFilter_true env f w Hclick) as [via Hvia].
  exists via. unfold validateFilter, afterActivation, bind.
  rewrite (pure_getCurrentStarFilter w), Hc. cbn [sameFilter].
  unfold log, emit. rewrite Hvia.
  destruct (waitForPageLoad (set_page (afterFilter env) w)) as [[u w1] t1].
  reflexivity.
Qed.

Lemma validateFilter_unfiltered_failed (env : Env) (f : option StarFilter)
    (w : World) :
  value (getCurrentStarFilter w) = None ->
  value (clickStarFilter env f w) = false ->
  validateFilter env f w =
  (false, w,
   [ELog LWarn (MsgFilterMismatch f None);
    ELog LInfo (MsgSwitchingFromAll (labelOf f));
    ELog LInfo (MsgAttemptClick (labelOf f));
    ELog LError (MsgNoFilterLink (labelOf f))]).
Proof.
  intros Hc Hclick.
  pose proof (clickStarFilter_false env f w Hclick) as Hfail.
  unfold validateFilter, bind.
  rewrite (pure_getCurrentStarFilter w), Hc. cbn [sameFilter].
  unfold log, emit. rewrite Hfail. reflexivity.
Qed.

(** When the validation does not return, it has changed nothing. *)
Lemma validateFilter_false (env : Env) (f : option StarFilter) (w : World) :
  value (validateFilter env f w) = false ->
  world (validateFilter env f w) = w /\
  Forall (fun e => exists level msg, e = ELog level msg)
         (trace (validateFilter env f w)).
Proof.
  destruct (sameFilter (value (getCurrentStarFilter w)) f) eqn:Hs.
  { rewrite (validateFilter_same env f w Hs). split; [reflexivity|constructor]. }
  destruct (value (getCurrentStarFilter w)) as [shown|] eqn:Hc.
  { rewrite (validateFilter_other env f w shown Hc Hs).
    split; [reflexivity|]. repeat constructor; eauto. }
  destruct (value (clickStarFilter env f w)) eqn:Hclick.
  - destruct (validateFilter_unfiltered_clicked env f w Hc Hclick) as [via ->].
    discriminate.
  - rewrite (validateFilter_unfiltered_failed env f w Hc Hclick).
    split; [reflexivity|]. repeat constructor; eauto.
Qed.

(** When the validation does not return, [scrapeCurrentPage] is the
    extraction step followed by the pagination decision. *)
Lemma scrapeCurrentPage_continues (env : Env) (s : ScrapeSession) (w : World) :
  let f := starFilterAt (currentStarIndex s) in
  let v := validateFilter env f w in
  let e := extractAndSave f s w in
  let p := paginate env f (value e) (world e) in
  value v = false ->
  scrapeCurrentPage env s w = (value p, world p, trace v ++ trace e ++ trace p).
Proof.
  intros f v e p Hv. subst p e v f.
  destruct (validateFilter_false env _ w Hv) as [Hw _].
  unfold scrapeCurrentPage. rewrite bind_eq, Hv, Hw.
  rewrite bind_eq. reflexivity.
Qed.

Lemma scrapeCurrentPage_returns (env : Env) (s : ScrapeSession) (w : World) :
  let v := validateFilter env (starFilterAt (currentStarIndex s)) w in
  value v = true ->
  scrapeCurrentPage env s w = (s, world v, trace v).
Proof.
  intros v Hv. subst v. unfold scrapeCurrentPage. rewrite bind_eq, Hv.
  simpl. rewrite app_nil_r. reflexivity.
Qed.

(** ** The filter switch *)

(** Symbolic execution of a computation: the primitive steps are reduced;
    [mstep] opens the sequence at a step that has its own equation. *)
Ltac msimpl :=
  cbn [bind ret emit modify getWorld log delay setScanning clearSession
       value world trace fst snd app].

Ltac mstep := unfold bind at 1; msimpl.

(** Full unfolding of the primitive steps, for computations whose branches
    are then split by hand. *)
Ltac mcompute :=
  cbv beta iota zeta delta
    [bind ret emit modify getWorld log delay setScanning clearSession];
  cbn [value world trace fst snd app
       page localStore chromeStore clock sessionFitsLocal sessionFitsChrome
       lastProcessedUrl isProcessing set_page set_localStore set_chromeStore
       set_clock set_lastProcessedUrl set_isProcessing].

Lemma downloadCSV_eq (rs : list Review) (w : World) :
  downloadCSV rs w = (tt, w, exportEvents rs (clock w)).
Proof. destruct rs; reflexivity. Qed.

Lemma exportEvents_once (rs : list Review) (now : Z) :
  count isExportOutcome (exportEvents rs now) = 1%nat.
Proof. destruct rs; reflexivity. Qed.

Lemma saveSession_eq (s : ScrapeSession) (w : World) :
  saveSession s w =
  (set_lastUpdated (clock w) s, world (saveSession s w), trace (saveSession s w)).
Proof.
  unfold saveSession. msimpl.
  destruct (sessionFitsLocal w), (sessionFitsChrome w); reflexivity.
Qed.

Lemma saveSession_frame (s : ScrapeSession) (w : World) :
  let w' := world (saveSession s w) in
  page w' = page w /\ clock w' = clock w /\
  sessionFitsLocal w' = sessionFitsLocal w /\
  sessionFitsChrome w' = sessionFitsChrome w /\
  lastProcessedUrl w' = lastProcessedUrl w /\
  isProcessing w' = isProcessing w /\
  isScanning (chromeStore w') = isScanning (chromeStore w) /\
  delaySettings (chromeStore w') = delaySettings (chromeStore w).
Proof.
  unfold saveSession. msimpl.
  destruct (sessionFitsLocal w) eqn:E1, (sessionFitsChrome w) eqn:E2;
    cbn; rewrite ?E1, ?E2; repeat split.
Qed.

Lemma saveSession_no_next_click (s : ScrapeSession) (w : World) :
  count isClickNext (trace (saveSession s w)) = 0%nat.
Proof.
  unfold saveSession. msimpl.
  destruct (sessionFitsLocal w), (sessionFitsChrome w); reflexivity.
Qed.

Lemma switchToNextFilter_complete (env : Env) (s : ScrapeSession) (w : World) :
  Z.of_nat (List.length STAR_FILTERS) <= currentStarIndex s + 1 ->
  switchToNextFilter env s w =
  (advanced s, cleared w,
   [ELog LSuccess (MsgComplete (List.length (reviews s)))]
   ++ exportEvents (reviews s) (clock w)
   ++ [ELocalRemove; EChromeRemove; ELog LInfo MsgSessionCleared;
       ESend (SCRAPING_COMPLETE (List.length (reviews s)));
       EChromeSetScanning false;
       EAlert (AlertComplete (List.length (reviews s)))]).
Proof.
  intros H. unfold switchToNextFilter.
  replace (currentStarIndex _ >=? _) with true
    by (symmetry; apply Z.geb_le; simpl; simpl in H; lia).
  msimpl. mstep. rewrite downloadCSV_eq. msimpl. reflexivity.
Qed.

(** The filter switch when a filter is left: the session is advanced and
    saved, then the next filter is activated. *)
Lemma switchToNextFilter_next (env : Env) (s : ScrapeSession) (w : World) :
  currentStarIndex s + 1 < Z.of_nat (List.length STAR_FILTERS) ->
  let f := starFilterAt (currentStarIndex s + 1) in
  let s1 := set_lastUpdated (clock w) (advanced s) in
  let w1 := world (saveSession (advanced s) w) in
  let w2 := set_clock (clock w1 + DELAY_BETWEEN_STARS) w1 in
  let head :=
    ELog LInfo (MsgSwitchingTo (labelOf f))
    :: trace (saveSession (advanced s) w) ++ [EWait DELAY_BETWEEN_STARS] in
  switchToNextFilter env s w =
  if value (clickStarFilter env f w2)
  then (s1, afterActivation env w2,
        head ++ trace (clickStarFilter env f w2)
             ++ trace (waitForPageLoad (set_page (afterFilter env) w2))
             ++ [EWait 2000])
  else (set_lastUpdated (clock w2) (set_isActive false s1),
        set_chromeStore
          (set_isScanning false
             (chromeStore (world (saveSession (set_isActive false s1) w2))))
          (world (saveSession (set_isActive false s1) w2)),
        head ++ trace (clickStarFilter env f w2)
             ++ [ELog LError (MsgSwitchFailed (labelOf f))]
             ++ trace (saveSession (set_isActive false s1) w2)
             ++ [EChromeSetScanning false;
                 EAlert (AlertSwitchFailed (labelOf f))]).
Proof.
  intros H f s1 w1 w2 head. unfold switchToNextFilter.
  replace (currentStarIndex _ >=? _) with false
    by (symmetry; rewrite Z.geb_leb; apply Z.leb_gt; simpl; simpl in H; lia).
  fold (advanced s). change (currentStarIndex (advanced s)) with (currentStarIndex s + 1).
  fold f. msimpl. mstep. rewrite saveSession_eq. fold s1 w1. msimpl.
  fold w2. mstep.
  destruct (value (clickStarFilter env f w2)) eqn:Eclick.
  - destruct (clickStarFilter_true _ _ _ Eclick) as [via Hvia].
    rewrite Hvia. msimpl. mstep. unfold afterActivation.
    destruct (waitForPageLoad (set_page (afterFilter env) w2)) as [[u w3] t3].
    msimpl. subst head. cbn [app]. rewrite <- ?app_assoc. reflexivity.
  - rewrite (clickStarFilter_false _ _ _ Eclick). msimpl. mstep.
    rewrite saveSession_eq. msimpl.
    subst head. cbn [app]. rewrite <- ?app_assoc. reflexivity.
Qed.

Lemma clickStarFilter_no_next_click (env : Env) (f : option StarFilter) (w : World) :
  count isClickNext (trace (clickStarFilter env f w)) = 0%nat.
Proof.
  destruct (value (clickStarFilter env f w)) eqn:E.
  - destruct (clickStarFilter_true _ _ _ E) as [via ->]. destruct via; reflexivity.
  - rewrite (clickStarFilter_false _ _ _ E). reflexivity.
Qed.

Lemma waitForPageLoad_no_next_click (w : World) :
  count isClickNext (trace (waitForPageLoad w)) = 0%nat.
Proof. rewrite waitForPageLoad_eq. destruct (reviewCards (page w)); reflexivity. Qed.

Lemma switchToNextFilter_no_next_click (env : Env) (s : ScrapeSession) (w : World) :
  count isClickNext (trace (switchToNextFilter env s w)) = 0%nat.
Proof.
  destruct (Z_lt_le_dec (currentStarIndex s + 1) (Z.of_nat (List.length STAR_FILTERS)))
    as [H|H].
  - rewrite (switchToNextFilter_next env s w H).
    destruct (value (clickStarFilter _ _ _)); rewrite trace_tuple;
      rewrite ?count_app, ?count_cons, ?count_app, ?saveSession_no_next_click,
        ?clickStarFilter_no_next_click, ?waitForPageLoad_no_next_click;
      reflexivity.
  - rewrite (switchToNextFilter_complete env s w H), trace_tuple.
    rewrite !count_app. destruct (reviews s); reflexivity.
Qed.

Lemma switchToNextFilter_value (env : Env) (s : ScrapeSession) (w : World) :
  let r := value (switchToNextFilter env s w) in
  currentStarIndex r = currentStarIndex s + 1 /\
  currentPage r = Int 1 /\
  reviews r = reviews s.
Proof.
  destruct (Z_lt_le_dec (currentStarIndex s + 1) (Z.of_nat (List.length STAR_FILTERS)))
    as [H|H].
  - rewrite (switchToNextFilter_next env s w H).
    destruct (value (clickStarFilter _ _ _)); simpl; auto.
  - rewrite (switchToNextFilter_complete env s w H). simpl. auto.
Qed.

(** ** The pagination decision *)

Lemma pure_eq {A} (m : M A) (w : World) :
  pure m -> m w = (value (m w), w, []).
Proof. intros H. apply H. Qed.

Lemma hasNextPage_clickable (w : World) :
  value (hasNextPage w) = true -> lastItems (page w) <> [].
Proof.
  unfold hasNextPage. msimpl. destruct (lastItems (page w)); simpl;
    [discriminate | congruence].
Qed.

Lemma clickNextPage_eq (env : Env) (w : World) :
  lastItems (page w) <> [] ->
  clickNextPage env w = (true, set_page (afterNext env) w, [EClickNext]).
Proof.
  intros H. unfold clickNextPage. msimpl.
  destruct (lastItems (page w)); [congruence | reflexivity].
Qed.

Lemma paginate_end (env : Env) (f : option StarFilter) (s : ScrapeSession)
    (w : World) :
  value (hasNextPage w) = false ->
  paginate env f s w =
  (value (switchToNextFilter env s w), world (switchToNextFilter env s w),
   ELog LSuccess (MsgEndOfFilter (labelOf f))
   :: trace (switchToNextFilter env s w)).
Proof.
  intros H. unfold paginate. mstep.
  rewrite (pure_eq _ w pure_hasNextPage), H. msimpl.
  destruct (switchToNextFilter env s w) as [[s' w'] t']. reflexivity.
Qed.

Lemma paginate_advance (env : Env) (f : option StarFilter) (s : ScrapeSession)
    (w : World) :
  value (hasNextPage w) = true ->
  let oldPage := value (getCurrentPageNumber w) in
  let w' := afterAdvance env w in
  let newPage := value (getCurrentPageNumber w') in
  paginate env f s w =
  if num_eqb newPage oldPage
  then (value (switchToNextFilter env s w'), world (switchToNextFilter env s w'),
        advanceEvents (waitTimeIn env w) ++ ELog LWarn MsgStalled
        :: trace (switchToNextFilter env s w'))
  else (s, w', advanceEvents (waitTimeIn env w) ++ [ELog LInfo (MsgNavigated newPage)]).
Proof.
  intros H oldPage w' newPage.
  pose proof (hasNextPage_clickable w H) as Hclick.
  unfold paginate. mstep.
  rewrite (pure_eq _ w pure_hasNextPage), H. msimpl.
  fold (waitTimeIn env w).
  match goal with
  | |- context [bind getCurrentPageNumber _ ?x] => set (w2 := x)
  end.
  mstep. rewrite (pure_eq _ w2 pure_getCurrentPageNumber).
  rewrite (getCurrentPageNumber_page w2 w) by reflexivity. fold oldPage.
  msimpl. mstep. rewrite (clickNextPage_eq env w2) by exact Hclick.
  msimpl.
  match goal with
  | |- context [bind getCurrentPageNumber _ ?x] => change x with w'
  end.
  mstep. rewrite (pure_eq _ w' pure_getCurrentPageNumber). fold newPage. msimpl.
  destruct (num_eqb newPage oldPage).
  - msimpl. destruct (switchToNextFilter env s w') as [[s' w''] t']. reflexivity.
  - reflexivity.
Qed.

(** ** Loading the session *)

Lemma getOrCreateSession_world (w : World) : world (getOrCreateSession w) = w.
Proof.
  unfold getOrCreateSession, loadSessionFromLocalStorage. mcompute.
  destruct (localStore w); mcompute; [reflexivity|].
  destruct (amazon_scraper_session (chromeStore w)); mcompute; [reflexivity|].
  destruct (isScanning (chromeStore w)) as [[|]|]; reflexivity.
Qed.

Lemma getOrCreateSession_eq (w : World) :
  getOrCreateSession w =
  (value (getOrCreateSession w), w, trace (getOrCreateSession w)).
Proof.
  pose proof (getOrCreateSession_world w) as H.
  destruct (getOrCreateSession w) as [[s w'] t].
  unfold world in H. simpl in H. subst w'. reflexivity.
Qed.

Lemma getOrCreateSession_idle (w : World) :
  idle w ->
  getOrCreateSession w =
  (mkSession false [] 0 (Int 1) (href (location (page w))) (clock w) (clock w),
   w, []).
Proof.
  intros (Hl & Hc & Hs).
  unfold getOrCreateSession, loadSessionFromLocalStorage. mcompute.
  rewrite Hl. mcompute. rewrite Hc. mcompute.
  destruct (isScanning (chromeStore w)) as [[|]|]; [congruence | |]; reflexivity.
Qed.

Lemma getOrCreateSession_local (w : World) (s : ScrapeSession) :
  localStore w = Some s ->
  getOrCreateSession w =
  (s, w, [ELog LInfo (MsgRestoredSession (List.length (reviews s))
                        (labelOf (starFilterAt (currentStarIndex s))))]).
Proof.
  intros Hl. unfold getOrCreateSession, loadSessionFromLocalStorage. mcompute.
  rewrite Hl. reflexivity.
Qed.

Lemma getOrCreateSession_durable (w : World) (s : ScrapeSession) :
  localStore w = None ->
  amazon_scraper_session (chromeStore w) = Some s ->
  getOrCreateSession w =
  (s, w, [ELog LInfo (MsgRestoredFromChrome (List.length (reviews s)))]).
Proof.
  intros Hl Hc. unfold getOrCreateSession, loadSessionFromLocalStorage. mcompute.
  rewrite Hl. mcompute. rewrite Hc. reflexivity.
Qed.

Lemma getOrCreateSession_fresh (w : World) :
  localStore w = None ->
  amazon_scraper_session (chromeStore w) = None ->
  isScanning (chromeStore w) = Some true ->
  getOrCreateSession w =
  (mkSession true [] 0 (Int 1) [] (clock w) (clock w), w,
   [ELog LSuccess MsgCreatedSession]).
Proof.
  intros Hl Hc Hs. unfold getOrCreateSession, loadSessionFromLocalStorage. mcompute.
  rewrite Hl. mcompute. rewrite Hc. mcompute. rewrite Hs. reflexivity.
Qed.

(** ** One tick *)

Lemma pageReady_guard (w : World) :
  negb (0 <? Z.of_nat (List.length (reviewCards (page w))))
  && negb (noReviewsSection (page w)) = negb (pageReady (page w)).
Proof. unfold pageReady. rewrite negb_orb. reflexivity. Qed.

Lemma checkProductPageRedirect_false (w : World) :
  value (checkProductPageRedirect w) = false ->
  checkProductPageRedirect w = (false, w, trace (checkProductPageRedirect w)).
Proof.
  unfold checkProductPageRedirect. mcompute.
  destruct (_ && _); mcompute; [|reflexivity].
  destruct (seeAllReviewsLink (page w)); mcompute; [discriminate|reflexivity].
Qed.

Lemma checkProductPageRedirect_logs (w : World) :
  value (checkProductPageRedirect w) = false ->
  Forall (fun e => exists level msg, e = ELog level msg)
         (trace (checkProductPageRedirect w)).
Proof.
  unfold checkProductPageRedirect. mcompute.
  destruct (_ && _); mcompute; [|constructor].
  destruct (seeAllReviewsLink (page w)); mcompute; [discriminate|].
  repeat constructor. eauto.
Qed.

(** A tick on an idle world does nothing, a challenge notice apart. *)
Lemma mainController_idle (env : Env) (w : World) :
  idle w ->
  (world (mainController env w) = w \/
   world (mainController env w) = set_isProcessing false w) /\
  (trace (mainController env w) = [] \/
   trace (mainController env w) = [ELog LError MsgCaptcha; EAlert AlertCaptcha]).
Proof.
  intros Hidle. unfold mainController. mcompute.
  destruct (isProcessing w); [auto|].
  rewrite pageReady_guard.
  destruct (pageReady (page w)); [|auto]. cbn [negb].
  unfold detectCaptcha. mcompute.
  destruct (captchaForm (page w) || _); [auto|].
  rewrite (getOrCreateSession_idle (set_isProcessing true w)) by exact Hidle.
  cbn. auto.
Qed.

(** A tick that reaches [scrapeCurrentPage]. *)
Lemma mainController_scrapes (env : Env) (w : World) :
  isProcessing w = false ->
  pageReady (page w) = true ->
  value (detectCaptcha w) = false ->
  let s := value (getOrCreateSession w) in
  isActive s = true ->
  value (checkProductPageRedirect w) = false ->
  str_eqb (href (location (page w))) (lastProcessedUrl w) = false ->
  let w1 := processing w in
  let s1 := set_lastUrl (href (location (page w))) s in
  let r := scrapeCurrentPage env s1 w1 in
  mainController env w =
  (tt, set_isProcessing false (world r),
   trace (getOrCreateSession w) ++ trace (checkProductPageRedirect w)
   ++ ELog LInfo (MsgProcessing (labelOf (starFilterAt (currentStarIndex s)))
                                (value (getCurrentPageNumber w)))
   :: trace r).
Proof.
  intros Hp Hready Hcaptcha s Hactive Hredirect Hurl w1 s1 r.
  set (w0 := set_isProcessing true w).
  assert (Hs : getOrCreateSession w0 = (s, w0, trace (getOrCreateSession w))).
  { subst s w0. unfold getOrCreateSession, loadSessionFromLocalStorage. mcompute.
    destruct (localStore w); mcompute; [reflexivity|].
    destruct (amazon_scraper_session (chromeStore w)); mcompute; [reflexivity|].
    destruct (isScanning (chromeStore w)) as [[|]|]; reflexivity. }
  assert (Hr : checkProductPageRedirect w0 =
               (false, w0, trace (checkProductPageRedirect w))).
  { subst w0. revert Hredirect. unfold checkProductPageRedirect. mcompute.
    destruct (_ && _); mcompute; [|reflexivity].
    destruct (seeAllReviewsLink (page w)); mcompute; [discriminate|reflexivity]. }
  unfold mainController. mstep. rewrite Hp, pageReady_guard, Hready. cbn [negb].
  mstep. rewrite (pure_eq _ w pure_detectCaptcha), Hcaptcha. msimpl.
  fold w0. mstep. mstep. rewrite Hs. msimpl. rewrite Hactive. cbn [negb].
  mstep. rewrite Hr. msimpl.
  change (lastProcessedUrl w0) with (lastProcessedUrl w).
  change (page w0) with (page w).
  rewrite Hurl. msimpl.
  change (set_lastProcessedUrl (href (location (page w))) w0) with w1.
  mstep. rewrite (pure_eq _ w1 pure_getCurrentPageNumber).
  rewrite (getCurrentPageNumber_page w1 w) by reflexivity.
  msimpl. fold s1. mstep. fold r.
  destruct r as [[s' w'] t']. msimpl.
  rewrite !app_nil_r. reflexivity.
Qed.

(* ================================================================== *)
(** * The claims *)
(* ================================================================== *)

(** C2.  Every record [extractReviews] returns has a non-empty body, on every
    page; a card whose body is empty after trimming yields no record at
    all; and the records held in the two storage tiers keep non-empty
    bodies through every sequence of ticks, page changes and signals. *)
Theorem C2_bodies_non_empty :
  (forall f pageNum w,
      Forall bodyNonEmpty (value (extractReviews f pageNum w))) /\
  (forall f pageNum now index card,
      textOr (reviewBody card) [] = [] ->
      parseCard f pageNum now index card = Ok None \/
      exists e, parseCard f pageNum now index card = Throw e) /\
  (forall inputs w,
      storedBodiesNonEmpty w ->
      storedBodiesNonEmpty (world (run inputs w))).
Proof.
  split; [|split].
  - intros f pageNum w. apply extractReviews_bodies.
  - intros f pageNum now index card H. unfold parseCard.
    destruct (cardThrows card); [right; eauto|].
    rewrite H. left. reflexivity.
  - intros inputs w H. apply (keeps_run inputs w H).
Qed.

Lemma C2_bodies_non_empty_witness :
  storedBodiesNonEmpty (browser unfilteredPage None emptyChrome 0) /\
  storedBodiesNonEmpty
    (world (run [StartSignal unfilteredPage;
                 Tick (exampleEnv oneStarPage2 oneStarPage1);
                 Tick (exampleEnv oneStarPage2 oneStarPage1);
                 StopSignal]
                (browser unfilteredPage None emptyChrome 0))).
Proof.
  assert (H : storedBodiesNonEmpty (browser unfilteredPage None emptyChrome 0))
    by (split; exact I).
  split; [exact H|].
  exact (proj2 (proj2 C2_bodies_non_empty) _ _ H).
Defined.

(** C3, as amended.  On a tick that reaches the extraction step and finds
    at least one record, the records are appended to the session in page
    order, [currentPage] becomes the page number read from the address,
    and the session so updated is what [saveSession] writes to each tier
    that accepts the write.  When the extraction finds no record the step
    leaves the session and both tiers as they were and only logs. *)
Theorem C3_extraction_step :
  forall env s w,
    let f := starFilterAt (currentStarIndex s) in
    let pageNum := value (getCurrentPageNumber w) in
    let found := value (extractReviews f pageNum w) in
    let s' := appended s found pageNum (clock w) in
    let e := extractAndSave f s w in
    value (validateFilter env f w) = false ->
    (found <> [] ->
     value e = s' /\
     (sessionFitsLocal w = true ->
      localStore (world e) = Some s' /\
      In (ELocalSet s') (trace (scrapeCurrentPage env s w))) /\
     (sessionFitsChrome w = true ->
      amazon_scraper_session (chromeStore (world e)) = Some s' /\
      In (EChromeSet s') (trace (scrapeCurrentPage env s w)))) /\
    (found = [] ->
     value e = s /\ world e = w /\
     count isSessionWrite (trace e) = 0%nat /\
     In (ELog LWarn MsgNoReviewsOnPage) (trace (scrapeCurrentPage env s w))).
Proof.
  intros env s w f pageNum found s' e Hv.
  pose proof (scrapeCurrentPage_continues env s w Hv) as Hscrape.
  cbv zeta in Hscrape. fold f in Hscrape. fold e in Hscrape.
  rewrite Hscrape, trace_tuple.
  split.
  - intros Hfound.
    destruct (extractAndSave_found f s w Hfound) as (H1 & H2 & H3).
    fold pageNum found e s' in H1, H2, H3.
    split; [exact H1|]. split.
    + intros H. destruct (H2 H) as [Ha Hb]. split; [exact Ha|].
      apply in_or_app. right. apply in_or_app. left. exact Hb.
    + intros H. destruct (H3 H) as [Ha Hb]. split; [exact Ha|].
      apply in_or_app. right. apply in_or_app. left. exact Hb.
  - intros Hnone.
    destruct (extractAndSave_none f s w Hnone) as (H1 & H2 & H3 & H4).
    fold e in H1, H2, H3, H4.
    repeat split; try assumption.
    apply in_or_app. right. apply in_or_app. left. exact H4.
Qed.

Lemma C3_extraction_step_witness :
  value (validateFilter (exampleEnv oneStarPage2 oneStarPage1) (starFilterAt 0)
           (browserWith oneStarPage1 (sessionAt 0 1))) = false /\
  value (extractReviews (starFilterAt 0) (Int 1)
           (browserWith oneStarPage1 (sessionAt 0 1))) <> [] /\
  In (ELocalSet
        (appended (sessionAt 0 1)
           (value (extractReviews (starFilterAt 0) (Int 1)
                     (browserWith oneStarPage1 (sessionAt 0 1))))
           (Int 1) 2000))
     (trace (scrapeCurrentPage (exampleEnv oneStarPage2 oneStarPage1)
               (sessionAt 0 1) (browserWith oneStarPage1 (sessionAt 0 1)))).
Proof.
  assert (Hv : value (validateFilter (exampleEnv oneStarPage2 oneStarPage1)
                        (starFilterAt (currentStarIndex (sessionAt 0 1)))
                        (browserWith oneStarPage1 (sessionAt 0 1))) = false)
    by (vm_compute; reflexivity).
  assert (Hf : value (extractReviews (starFilterAt (currentStarIndex (sessionAt 0 1)))
                        (value (getCurrentPageNumber
                                  (browserWith oneStarPage1 (sessionAt 0 1))))
                        (browserWith oneStarPage1 (sessionAt 0 1))) <> [])
    by (vm_compute; discriminate).
  destruct (C3_extraction_step _ _ _ Hv) as [Hfound _].
  destruct (Hfound Hf) as (_ & H2 & _).
  destruct (H2 eq_refl) as [_ H3].
  split; [exact Hv|]. split; [exact Hf|]. exact H3.
Defined.

(** C3, as first stated, fails on a page without records: the page number
    read from the address is 3, yet the session keeps [currentPage] 1 and
    nothing is written to the fast tier. *)
Lemma C3_counterexample :
  ~ (forall f s w,
        sessionFitsLocal w = true ->
        let e := extractAndSave f s w in
        currentPage (value e) = value (getCurrentPageNumber w) /\
        exists s', In (ELocalSet s') (trace e)).
Proof.
  intros H.
  specialize (H (starFilterAt 0) (sessionAt 0 1)
                (browserWith oneStarPage3Empty (sessionAt 0 1)) eq_refl).
  destruct H as [H _]. vm_compute in H. discriminate.
Qed.

(** ** After completion *)

Lemma deliver_quiet (w : World) (t : list Event) :
  t = [] \/ t = [ELog LError MsgCaptcha; EAlert AlertCaptcha] ->
  deliver t w = (tt, w, []).
Proof. intros [->| ->]; reflexivity. Qed.

Lemma idle_set_isProcessing (b : bool) (w : World) :
  idle w -> idle (set_isProcessing b w).
Proof. intros H. exact H. Qed.

(** A tick on an idle world leaves it idle and neither navigates nor writes
    a session. *)
Lemma tick_idle (env : Env) (w : World) :
  idle w ->
  idle (world (tick env w)) /\
  count isNavigation (trace (tick env w)) = 0%nat /\
  count isSessionWrite (trace (tick env w)) = 0%nat.
Proof.
  intros Hidle.
  destruct (mainController_idle env w Hidle) as [Hw Ht].
  unfold tick.
  destruct (mainController env w) as [[u w1] t1].
  unfold world, trace in Hw, Ht; simpl in Hw, Ht.
  rewrite (deliver_quiet w1 t1 Ht). unfold world, trace; simpl.
  rewrite app_nil_r. split.
  - destruct Hw as [->| ->]; exact Hidle.
  - destruct Ht as [->| ->]; split; reflexivity.
Qed.

Lemma step_idle (i : Input) (w : World) :
  notStart i = true ->
  idle w ->
  idle (world (step i w)) /\
  count isNavigation (trace (step i w)) = 0%nat /\
  count isSessionWrite (trace (step i w)) = 0%nat.
Proof.
  intros Hi Hidle. destruct i; simpl in Hi; try discriminate; simpl.
  - apply tick_idle. exact Hidle.
  - repeat split; apply Hidle.
  - repeat split; apply Hidle.
  - destruct Hidle as (H1 & H2 & H3).
    unfold handleStopScraping, broadcastMessage. mcompute.
    repeat split; try assumption. simpl. discriminate.
  - repeat split; apply Hidle.
Qed.

Lemma run_idle (inputs : list Input) :
  forall w,
    forallb notStart inputs = true ->
    idle w ->
    idle (world (run inputs w)) /\
    count isNavigation (trace (run inputs w)) = 0%nat /\
    count isSessionWrite (trace (run inputs w)) = 0%nat.
Proof.
  induction inputs as [|i rest IH]; intros w Hall Hidle; simpl.
  - repeat split; apply Hidle.
  - simpl in Hall. apply andb_true_iff in Hall as [Hi Hrest].
    destruct (step_idle i w Hi Hidle) as (H1 & H2 & H3).
    destruct (IH _ Hrest H1) as (H4 & H5 & H6).
    rewrite bind_world, bind_trace, !count_app. rewrite H2, H3, H5, H6.
    repeat split; try reflexivity; apply H4.
Qed.

Lemma cleared_idle (w : World) : idle (cleared w).
Proof. repeat split. simpl. discriminate. Qed.

(** C4.  When the filter index moves from 4 to 5, [switchToNextFilter]
    calls the exporter once, with all the records of the session (a
    download of their CSV when there are any); it removes the session once
    from each tier; and from the world the tick leaves when it ends, no
    sequence of ticks, page changes, reloads, stop signals or setting
    changes brings a session back, writes one or navigates. *)
Theorem C4_completion :
  forall env s w,
    currentStarIndex s = 4 ->
    let r := switchToNextFilter env s w in
    count isExportOutcome (trace r) = 1%nat /\
    (reviews s <> [] ->
     In (EDownload (utf8_encode (BOM ++ csvContent (reviews s)))
                   (downloadName (clock w))) (trace r)) /\
    count isLocalRemove (trace r) = 1%nat /\
    count isChromeRemove (trace r) = 1%nat /\
    localStore (world r) = None /\
    amazon_scraper_session (chromeStore (world r)) = None /\
    (forall inputs,
        forallb notStart inputs = true ->
        let after := run inputs (set_isProcessing false (world r)) in
        localStore (world after) = None /\
        amazon_scraper_session (chromeStore (world after)) = None /\
        count isSessionWrite (trace after) = 0%nat /\
        count isNavigation (trace after) = 0%nat).
Proof.
  intros env s w Hidx r. subst r.
  rewrite (switchToNextFilter_complete env s w) by (rewrite Hidx; simpl; lia).
  rewrite trace_tuple. unfold world at 1 2 3; cbn [fst snd].
  assert (Hidle : idle (set_isProcessing false (cleared w)))
    by (apply idle_set_isProcessing, cleared_idle).
  repeat split.
  - rewrite !count_app, exportEvents_once. reflexivity.
  - intros Hrs. apply in_or_app. right. apply in_or_app. left.
    destruct (reviews s); [congruence|]. left. reflexivity.
  - rewrite !count_app. destruct (reviews s); reflexivity.
  - rewrite !count_app. destruct (reviews s); reflexivity.
  - destruct (run_idle inputs _ H Hidle) as ((H1 & _) & _). exact H1.
  - destruct (run_idle inputs _ H Hidle) as ((_ & H1 & _) & _). exact H1.
  - destruct (run_idle inputs _ H Hidle) as (_ & _ & H1). exact H1.
  - destruct (run_idle inputs _ H Hidle) as (_ & H1 & _). exact H1.
Qed.

Lemma C4_completion_witness :
  currentStarIndex (sessionAt 4 2) = 4 /\
  count isExportOutcome
    (trace (switchToNextFilter (exampleEnv oneStarPage2 oneStarPage1)
              (sessionAt 4 2) (browserWith fiveStarLastPage (sessionAt 4 2))))
  = 1%nat /\
  localStore
    (world (run [Tick (exampleEnv oneStarPage2 oneStarPage1);
                 PageChanged oneStarPage1;
                 Tick (exampleEnv oneStarPage2 oneStarPage1)]
                (set_isProcessing false
                   (world (switchToNextFilter (exampleEnv oneStarPage2 oneStarPage1)
                             (sessionAt 4 2)
                             (browserWith fiveStarLastPage (sessionAt 4 2)))))))
  = None.
Proof.
  destruct (C4_completion (exampleEnv oneStarPage2 oneStarPage1) (sessionAt 4 2)
              (browserWith fiveStarLastPage (sessionAt 4 2)) eq_refl)
    as (H1 & _ & _ & _ & _ & _ & H7).
  split; [reflexivity|]. split; [exact H1|].
  destruct (H7 [Tick (exampleEnv oneStarPage2 oneStarPage1);
                PageChanged oneStarPage1;
                Tick (exampleEnv oneStarPage2 oneStarPage1)] eq_refl) as [H _].
  exact H.
Defined.

(** Scenario D on whole ticks: a session on the last filter, on the last
    page of that filter.  The tick appends the record of the page, exports
    the two records in one download, removes the session from both tiers
    and lowers the scan flag; the ticks that follow do nothing. *)
Example scenario_D_ticks :
  let w := browserWith fiveStarLastPage (sessionAt 4 1) in
  let first := tick (exampleEnv oneStarPage2 oneStarPage1) w in
  let later := run [Tick (exampleEnv oneStarPage2 oneStarPage1);
                    PageChanged oneStarPage1;
                    Tick (exampleEnv oneStarPage2 oneStarPage1)] (world first) in
  (exists r bytes name,
      parseCard (Some five_star) (Int 2) 2000 0 cardFull = Ok (Some r) /\
      bytes = utf8_encode (serialize [exampleReview; r]) /\
      filter isExportOutcome (trace first) = [EDownload bytes name]) /\
  count isLocalRemove (trace first) = 1%nat /\
  count isChromeRemove (trace first) = 1%nat /\
  localStore (world first) = None /\
  chromeStore (world first) = mkChrome None (Some false) None /\
  isProcessing (world first) = false /\
  trace later = [] /\
  localStore (world later) = None /\
  chromeStore (world later) = mkChrome None (Some false) None.
Proof.
  cbv zeta. split.
  - eexists. eexists. eexists. split; [reflexivity|]. split; [reflexivity|].
    vm_compute. reflexivity.
  - vm_compute. repeat split.
Qed.

(** C7, as amended.  On a tick whose page shows no filter at all,
    [scrapeCurrentPage] always attempts to activate the expected filter.
    When the activation finds a control, the tick clicks it once, waits for
    the page and stops: the session object and both storage tiers are as
    before, nothing is extracted and nothing else is clicked.  When it
    finds none, the tick goes on to the extraction step and the pagination
    decision on the page as it is. *)
Theorem C7_unfiltered_page :
  forall env s w,
    let f := starFilterAt (currentStarIndex s) in
    let r := scrapeCurrentPage env s w in
    value (getCurrentStarFilter w) = None ->
    In (ELog LInfo (MsgAttemptClick (labelOf f))) (trace r) /\
    (value (clickStarFilter env f w) = true ->
     value r = s /\
     localStore (world r) = localStore w /\
     chromeStore (world r) = chromeStore w /\
     exists via,
       trace r =
       [ELog LWarn (MsgFilterMismatch f None);
        ELog LInfo (MsgSwitchingFromAll (labelOf f));
        ELog LInfo (MsgAttemptClick (labelOf f));
        EClickFilter via f;
        ELog LSuccess (clickedMsg via (labelOf f))]
       ++ trace (waitForPageLoad (set_page (afterFilter env) w))
       ++ [EWait 2000]) /\
    (value (clickStarFilter env f w) = false ->
     let e := extractAndSave f s w in
     let p := paginate env f (value e) (world e) in
     r = (value p, world p,
          [ELog LWarn (MsgFilterMismatch f None);
           ELog LInfo (MsgSwitchingFromAll (labelOf f));
           ELog LInfo (MsgAttemptClick (labelOf f));
           ELog LError (MsgNoFilterLink (labelOf f))]
          ++ trace e ++ trace p)).
Proof.
  intros env s w f r Hnone. subst r.
  destruct (value (clickStarFilter env f w)) eqn:Hclick.
  - destruct (validateFilter_unfiltered_clicked env f w Hnone Hclick) as [via Hv].
    assert (Hret : value (validateFilter env f w) = true) by (rewrite Hv; reflexivity).
    rewrite (scrapeCurrentPage_returns env s w Hret). fold f. rewrite Hv.
    rewrite trace_tuple. unfold value, world; cbn [fst snd].
    destruct (afterActivation_stores env w) as (H1 & H2 & _).
    split; [simpl; auto|]. split; [|discriminate].
    intros _. repeat split; try assumption. exists via. reflexivity.
  - pose proof (validateFilter_unfiltered_failed env f w Hnone Hclick) as Hv.
    assert (Hret : value (validateFilter env f w) = false) by (rewrite Hv; reflexivity).
    rewrite (scrapeCurrentPage_continues env s w Hret). fold f. rewrite Hv.
    rewrite !trace_tuple.
    split; [simpl; auto|]. split; [discriminate|]. intros _. reflexivity.
Qed.

Lemma C7_unfiltered_page_witness :
  value (getCurrentStarFilter
           (browser unfilteredPage None (mkChrome None (Some true) None) 100))
  = None /\
  value (clickStarFilter (exampleEnv oneStarPage2 oneStarPage1) (Some one_star)
           (browser unfilteredPage None (mkChrome None (Some true) None) 100))
  = true /\
  value (scrapeCurrentPage (exampleEnv oneStarPage2 oneStarPage1)
           (mkSession true [] 0 (Int 1) [] 100 100)
           (browser unfilteredPage None (mkChrome None (Some true) None) 100))
  = mkSession true [] 0 (Int 1) [] 100 100 /\
  localStore
    (world (scrapeCurrentPage (exampleEnv oneStarPage2 oneStarPage1)
              (mkSession true [] 0 (Int 1) [] 100 100)
              (browser unfilteredPage None (mkChrome None (Some true) None) 100)))
  = None.
Proof.
  assert (Hnone : value (getCurrentStarFilter
                    (browser unfilteredPage None (mkChrome None (Some true) None) 100))
                  = None) by (vm_compute; reflexivity).
  assert (Hclick : value (clickStarFilter (exampleEnv oneStarPage2 oneStarPage1)
                     (starFilterAt (currentStarIndex (mkSession true [] 0 (Int 1) [] 100 100)))
                     (browser unfilteredPage None (mkChrome None (Some true) None) 100))
                   = true) by (vm_compute; reflexivity).
  destruct (C7_unfiltered_page (exampleEnv oneStarPage2 oneStarPage1)
              (mkSession true [] 0 (Int 1) [] 100 100) _ Hnone) as [_ H].
  destruct (proj1 H Hclick) as (H1 & H2 & _).
  split; [exact Hnone|]. split; [exact Hclick|]. split; [exact H1 | exact H2].
Defined.

(** C7, as first stated, fails when the page offers no control for the
    filter: a fresh session on the unfiltered listing then extracts the
    cards of that listing and saves them in the same tick. *)
Lemma C7_counterexample :
  ~ (forall env s w,
        value (getCurrentStarFilter w) = None ->
        let r := scrapeCurrentPage env s w in
        reviews (value r) = reviews s /\ localStore (world r) = localStore w).
Proof.
  intros H.
  specialize (H (exampleEnv oneStarPage2 oneStarPage1)
                (mkSession true [] 0 (Int 1) [] 100 100)
                (browser unfilteredPageNoControls None
                         (mkChrome None (Some true) None) 100)
                eq_refl).
  destruct H as [H _]. vm_compute in H. discriminate.
Qed.

(** Scenario A on a whole tick: started on the unfiltered listing with the
    scan flag up and no session stored, the tick creates the session,
    clicks the control of the first filter and writes no session. *)
Example scenario_A_tick :
  let r := mainController (exampleEnv oneStarPage2 oneStarPage1)
             (browser unfilteredPage None (mkChrome None (Some true) None) 100) in
  filter isNavigation (trace r) = [EClickFilter ViaHistogram (Some one_star)] /\
  count isSessionWrite (trace r) = 0%nat /\
  localStore (world r) = None /\
  amazon_scraper_session (chromeStore (world r)) = None.
Proof. vm_compute. repeat split. Qed.

(** C8.  When a next page is offered and, after the click on it and the
    wait, the page number read from the address is the one read before the
    click, the tick goes on to the filter switch: the filter index is
    incremented, [currentPage] is reset to 1, and the next-page control has
    been clicked once and is not clicked again. *)
Theorem C8_stalled_pager :
  forall env f s w,
    let r := paginate env f s w in
    value (hasNextPage w) = true ->
    num_eqb (value (getCurrentPageNumber (afterAdvance env w)))
            (value (getCurrentPageNumber w)) = true ->
    value (clickNextPage env w) = true /\
    r = (value (switchToNextFilter env s (afterAdvance env w)),
         world (switchToNextFilter env s (afterAdvance env w)),
         advanceEvents (waitTimeIn env w) ++ ELog LWarn MsgStalled
         :: trace (switchToNextFilter env s (afterAdvance env w))) /\
    currentStarIndex (value r) = currentStarIndex s + 1 /\
    currentPage (value r) = Int 1 /\
    count isClickNext (trace r) = 1%nat.
Proof.
  intros env f s w r Hnext Hsame. subst r.
  pose proof (paginate_advance env f s w Hnext) as Hp. cbv zeta in Hp.
  rewrite Hsame in Hp.
  split.
  { rewrite (clickNextPage_eq env w (hasNextPage_clickable w Hnext)). reflexivity. }
  split; [exact Hp|].
  rewrite Hp. rewrite trace_tuple. unfold value at 1 2; cbn [fst snd].
  destruct (switchToNextFilter_value env s (afterAdvance env w)) as (H1 & H2 & _).
  split; [exact H1|]. split; [exact H2|].
  rewrite count_app, count_cons, switchToNextFilter_no_next_click. reflexivity.
Qed.

Lemma C8_stalled_pager_witness :
  value (hasNextPage (browserWith oneStarPage2 (sessionAt 0 2))) = true /\
  num_eqb
    (value (getCurrentPageNumber
              (afterAdvance (exampleEnv oneStarPage2 twoStarPage1)
                            (browserWith oneStarPage2 (sessionAt 0 2)))))
    (value (getCurrentPageNumber (browserWith oneStarPage2 (sessionAt 0 2))))
  = true /\
  currentStarIndex
    (value (paginate (exampleEnv oneStarPage2 twoStarPage1) (Some one_star)
              (sessionAt 0 2) (browserWith oneStarPage2 (sessionAt 0 2))))
  = 1 /\
  count isClickNext
    (trace (paginate (exampleEnv oneStarPage2 twoStarPage1) (Some one_star)
              (sessionAt 0 2) (browserWith oneStarPage2 (sessionAt 0 2))))
  = 1%nat.
Proof.
  assert (H1 : value (hasNextPage (browserWith oneStarPage2 (sessionAt 0 2))) = true)
    by (vm_compute; reflexivity).
  assert (H2 : num_eqb
    (value (getCurrentPageNumber
              (afterAdvance (exampleEnv oneStarPage2 twoStarPage1)
                            (browserWith oneStarPage2 (sessionAt 0 2)))))
    (value (getCurrentPageNumber (browserWith oneStarPage2 (sessionAt 0 2))))
    = true) by (vm_compute; reflexivity).
  destruct (C8_stalled_pager (exampleEnv oneStarPage2 twoStarPage1) (Some one_star)
              (sessionAt 0 2) _ H1 H2) as (_ & _ & H3 & _ & H5).
  split; [exact H1|]. split; [exact H2|]. split; [exact H3 | exact H5].
Defined.

(** Equality of page numbers is strict equality: when the address carries
    a page number that is not a number, the two readings are NaN, which is
    not equal to itself, and the tick ends after the click without a filter
    switch. *)
Example unreadable_page_number_is_not_a_stall :
  value (getCurrentPageNumber (browserWith unreadablePage (sessionAt 0 1))) = NaN /\
  value (paginate (exampleEnv unreadablePage twoStarPage1) (Some one_star)
           (sessionAt 0 1) (browserWith unreadablePage (sessionAt 0 1)))
  = sessionAt 0 1 /\
  filter isNavigation
    (trace (paginate (exampleEnv unreadablePage twoStarPage1) (Some one_star)
              (sessionAt 0 1) (browserWith unreadablePage (sessionAt 0 1))))
  = [EClickNext].
Proof. vm_compute. repeat split. Qed.

(** ** The CSV *)

Lemma Z_toString_truthy (z : Z) : truthy (Z_toString z) = true.
Proof.
  unfold Z_toString. destruct z as [|p|p]; simpl.
  - reflexivity.
  - pose proof (DecimalPos.Unsigned.to_uint_nonnil p) as H.
    destruct (Pos.to_uint p); [congruence| reflexivity ..].
  - reflexivity.
Qed.

Lemma num_toString_truthy (n : jsnum) : truthy (num_toString n) = true.
Proof. destruct n; [reflexivity | apply Z_toString_truthy]. Qed.

Lemma doubleQuotes_cons (c : Z) (s : jsstring) :
  doubleQuotes (c :: s) =
  (if c =? QUOTE then [QUOTE; QUOTE] else [c]) ++ doubleQuotes s.
Proof. reflexivity. Qed.

Lemma undouble_quote (s : jsstring) :
  undouble (QUOTE :: QUOTE :: s) = option_map (cons QUOTE) (undouble s).
Proof. reflexivity. Qed.

Lemma undouble_other (c : Z) (s : jsstring) :
  (c =? QUOTE) = false ->
  undouble (c :: s) = option_map (cons c) (undouble s).
Proof. intros H. cbn [undouble]. rewrite H. reflexivity. Qed.

Lemma undouble_doubleQuotes (s : jsstring) : undouble (doubleQuotes s) = Some s.
Proof.
  induction s as [|c s IH]; [reflexivity|].
  rewrite doubleQuotes_cons.
  destruct (c =? QUOTE) eqn:E.
  - apply Z.eqb_eq in E. subst c. cbn [app].
    rewrite undouble_quote, IH. reflexivity.
  - cbn [app]. rewrite (undouble_other c _ E), IH. reflexivity.
Qed.

Lemma newlinesToSpaces_no_newline (s : jsstring) :
  ~ In NEWLINE (newlinesToSpaces s).
Proof.
  induction s as [|c s IH]; simpl; [tauto|].
  intros [H|H]; [|exact (IH H)].
  destruct (c =? NEWLINE) eqn:E.
  - discriminate.
  - apply Z.eqb_neq in E. congruence.
Qed.

Lemma newlinesToSpaces_length (s : jsstring) :
  List.length (newlinesToSpaces s) = List.length s.
Proof. apply length_map. Qed.

Lemma newlinesToSpaces_nth (s : jsstring) (i : nat) :
  nth i (newlinesToSpaces s) 0 =
  if nth i s 0 =? NEWLINE then SPACE else nth i s 0.
Proof.
  revert i. induction s as [|c s IH]; intros [|i]; simpl; try reflexivity.
  apply IH.
Qed.

(** Collapsing line feeds commutes with the reading of doubled quotes. *)
Lemma newlinesToSpaces_cons (c : Z) (s : jsstring) :
  newlinesToSpaces (c :: s) =
  (if c =? NEWLINE then SPACE else c) :: newlinesToSpaces s.
Proof. reflexivity. Qed.

Lemma undouble_newlinesToSpaces (s : jsstring) :
  undouble (newlinesToSpaces (doubleQuotes s)) = Some (newlinesToSpaces s).
Proof.
  induction s as [|c s IH]; [reflexivity|].
  rewrite doubleQuotes_cons, newlinesToSpaces_cons.
  destruct (c =? QUOTE) eqn:E.
  - apply Z.eqb_eq in E. subst c. cbn [app].
    rewrite !newlinesToSpaces_cons.
    change (QUOTE =? NEWLINE) with false. cbv iota.
    rewrite undouble_quote, IH. reflexivity.
  - cbn [app]. rewrite newlinesToSpaces_cons.
    destruct (c =? NEWLINE) eqn:En.
    + rewrite (undouble_other SPACE _ eq_refl), IH. reflexivity.
    + rewrite (undouble_other c _ E), IH. reflexivity.
Qed.

Lemma isQuoted_quoted (s : jsstring) : isQuoted (quoted s) = true.
Proof.
  unfold isQuoted, quoted. rewrite Z.eqb_refl. simpl.
  rewrite rev_app_distr. simpl. reflexivity.
Qed.

Lemma utf8_encode_BOM (s : jsstring) :
  utf8_encode (BOM ++ s) = UTF8_BOM ++ utf8_encode s.
Proof. reflexivity. Qed.

Lemma header_row :
  join [COMMA] headers =
  js "Star Filter,Page,ID,Author,Rating,Title,Date,Variant,Verified,Review Body".
Proof. reflexivity. Qed.

Lemma handleDownloadCSV_serialize (items : ChromeStore) (s : ScrapeSession) :
  amazon_scraper_session items = Some s ->
  reviews s <> [] ->
  handleDownloadCSV (Ok items) = mkResponse true (Some (serialize (reviews s))) None.
Proof.
  intros Hs Hrs. unfold handleDownloadCSV, handleDownloadCSV_try. simpl.
  rewrite Hs. destruct (reviews s) as [|r rs] eqn:E; [congruence|].
  unfold serialize, csvContent, csvRows. simpl. rewrite map_map. reflexivity.
Qed.

Lemma downloadCSV_serialize (rs : list Review) (w : World) :
  rs <> [] ->
  trace (downloadCSV rs w) =
  [EDownload (utf8_encode (serialize rs)) (downloadName (clock w));
   ELog LSuccess (MsgDownloaded (List.length rs))].
Proof.
  intros H. rewrite downloadCSV_eq. destruct rs; [congruence|]. reflexivity.
Qed.

(** C5, as amended.  For every non-empty record sequence both exporters
    produce the same text: the byte-order mark (the three bytes EF BB BF
    once encoded), the header row, then one row per record in the order of
    the sequence, the rows separated by line feeds.  In a row the columns
    ID, Author, Rating, Title, Date, Variant and Review Body are between
    double quotes; Star Filter, Page and Verified are bare (the filter label
    or N/A, the number or N/A, Yes or No).  In ID, Author, Title and Review
    Body every double quote of the field is doubled, and every line feed of
    the body is replaced by a space.  For the empty sequence neither
    exporter produces a CSV. *)
Theorem C5_csv_format :
  (forall w, trace (downloadCSV [] w) = [ELog LError MsgNoReviewsToExport]) /\
  (forall items s,
      amazon_scraper_session items = Some s -> reviews s = [] ->
      csv (handleDownloadCSV (Ok items)) = None) /\
  forall rs : list Review,
    rs <> [] ->
    (forall items s,
        amazon_scraper_session items = Some s -> reviews s = rs ->
        csv (handleDownloadCSV (Ok items)) = Some (serialize rs)) /\
    (forall w,
        In (EDownload (utf8_encode (serialize rs)) (downloadName (clock w)))
           (trace (downloadCSV rs w))) /\
    utf8_encode (serialize rs) = UTF8_BOM ++ utf8_encode (csvContent rs) /\
    serialize rs =
      BOM ++ join [NEWLINE]
               (js "Star Filter,Page,ID,Author,Rating,Title,Date,Variant,Verified,Review Body"
                :: map (fun row => join [COMMA] (rowValues row)) rs) /\
    (forall row, In row rs ->
        List.length (rowValues row) = 10%nat /\
        column 0 row = str_or (attrOrEmpty (starFilter row)) (js "N/A") /\
        (column 1 row = js "N/A" \/
         exists n, pageNumber row = Some n /\ column 1 row = num_toString n) /\
        column 2 row = quoted (doubleQuotes (id row)) /\
        column 3 row = quoted (doubleQuotes (author row)) /\
        column 4 row = quoted (starRating row) /\
        column 5 row = quoted (doubleQuotes (title row)) /\
        column 6 row = quoted (date row) /\
        column 7 row = quoted (variant row) /\
        column 8 row = (if verified row then js "Yes" else js "No") /\
        column 9 row = quoted (newlinesToSpaces (doubleQuotes (content row))) /\
        (forall i, In i [2; 3; 4; 5; 6; 7; 9]%nat -> isQuoted (column i row) = true) /\
        undouble (doubleQuotes (id row)) = Some (id row) /\
        undouble (doubleQuotes (author row)) = Some (author row) /\
        undouble (doubleQuotes (title row)) = Some (title row) /\
        undouble (newlinesToSpaces (doubleQuotes (content row))) =
          Some (newlinesToSpaces (content row)) /\
        ~ In NEWLINE (newlinesToSpaces (doubleQuotes (content row)))).
Proof.
  split; [reflexivity|]. split.
  { intros items s Hs Hr. unfold handleDownloadCSV, handleDownloadCSV_try.
    simpl. rewrite Hs, Hr. reflexivity. }
  intros rs Hrs. repeat split.
  - intros items s Hs Hr. subst rs.
    rewrite (handleDownloadCSV_serialize items s Hs Hrs). reflexivity.
  - intros w. rewrite (downloadCSV_serialize rs w Hrs). left. reflexivity.
  - destruct (pageNumber row) as [n|] eqn:E.
    + right. exists n. split; [reflexivity|].
      unfold column, rowValues. cbn [nth]. rewrite E.
      unfold str_or. rewrite num_toString_truthy. reflexivity.
    + left. unfold column, rowValues. simpl. rewrite E. reflexivity.
  - intros i Hi. simpl in Hi.
    destruct Hi as [<-|[<-|[<-|[<-|[<-|[<-|[<-|[]]]]]]]];
      apply isQuoted_quoted.
  - apply undouble_doubleQuotes.
  - apply undouble_doubleQuotes.
  - apply undouble_doubleQuotes.
  - apply undouble_newlinesToSpaces.
  - apply newlinesToSpaces_no_newline.
Qed.

Lemma C5_csv_format_witness :
  [reviewWithQuotes] <> [] /\
  utf8_encode (serialize [reviewWithQuotes]) =
    UTF8_BOM ++ utf8_encode (csvContent [reviewWithQuotes]) /\
  isQuoted (column 9 reviewWithQuotes) = true.
Proof.
  assert (H : [reviewWithQuotes] <> []) by discriminate.
  destruct (proj2 (proj2 C5_csv_format) [reviewWithQuotes] H)
    as (_ & _ & H3 & _ & H5).
  destruct (H5 reviewWithQuotes (or_introl eq_refl))
    as (_ & _ & _ & _ & _ & _ & _ & _ & _ & _ & _ & Hq & _).
  split; [exact H|]. split; [exact H3|].
  apply Hq. simpl. tauto.
Defined.

(** C5, as first stated, fails on the first column: the Star Filter field
    is written bare, although it is neither Page nor Verified. *)
Lemma C5_counterexample :
  ~ (forall row i,
        (i < 10)%nat -> i <> 1%nat -> i <> 8%nat ->
        isQuoted (column i row) = true).
Proof.
  intros H.
  specialize (H reviewWithQuotes 0%nat).
  assert (H0 : isQuoted (column 0 reviewWithQuotes) = false)
    by (vm_compute; reflexivity).
  rewrite H in H0; [discriminate | lia | lia | lia].
Qed.

(** The Rating, Date and Variant columns are quoted as they are: a double
    quote inside them is not doubled. *)
Example variant_quote_not_doubled :
  column 7 reviewWithQuotes = quoted (js "Size: 6" ++ [QUOTE]) /\
  undouble (js "Size: 6" ++ [QUOTE]) = None.
Proof. split; reflexivity. Qed.

(** ** The fallbacks of a card *)

Lemma forEachCard_logs_error (f : option StarFilter) (pageNum : jsnum) (now : Z)
    (bad : Card) (post : list Card) (pre : list Card) :
  cardThrows bad = true ->
  forall index acc,
    In (ELog LWarn (MsgCardParseError (index + List.length pre + 1)))
       (snd (forEachCard f pageNum now index (pre ++ bad :: post) acc)).
Proof.
  intros Hbad. induction pre as [|card rest IH]; intros index acc; simpl.
  - unfold parseCard. rewrite Hbad.
    destruct (forEachCard f pageNum now (S index) post acc).
    left. rewrite Nat.add_0_r. reflexivity.
  - replace (index + S (List.length rest) + 1)%nat
      with (S index + List.length rest + 1)%nat by lia.
    destruct (parseCard f pageNum now index card) as [[r|]|e].
    + apply IH.
    + apply IH.
    + specialize (IH (S index) acc).
      destruct (forEachCard f pageNum now (S index) (rest ++ bad :: post) acc).
      right. exact IH.
Qed.

Lemma forEachCard_skips (f : option StarFilter) (pageNum : jsnum) (now : Z)
    (bad : Card) (pre post : list Card) :
  cardThrows bad = true ->
  fst (forEachCard f pageNum now 0 (pre ++ bad :: post) []) =
  fst (forEachCard f pageNum now 0 pre []) ++
  fst (forEachCard f pageNum now (S (List.length pre)) post []).
Proof.
  intros Hbad. rewrite forEachCard_app. f_equal. simpl.
  unfold parseCard. rewrite Hbad.
  destruct (forEachCard f pageNum now (S (List.length pre)) post []).
  reflexivity.
Qed.

Lemma extractReviews_trace (f : option StarFilter) (pageNum : jsnum) (w : World) :
  trace (extractReviews f pageNum w) =
  ELog LInfo (MsgFoundCards pageNum (labelOf f) (List.length (reviewCards (page w))))
  :: snd (forEachCard f pageNum (clock w) 0 (reviewCards (page w)) []).
Proof.
  unfold extractReviews. mcompute.
  destruct (forEachCard f pageNum (clock w) 0 (reviewCards (page w)) []).
  reflexivity.
Qed.

(** C6, as amended.  A card that yields a record has each field taken from
    its own element, independently of the others: a missing author becomes
    Anonymous, a missing rating becomes N/A, a missing title, date or variant
    becomes the empty string, a missing id becomes a synthetic id.  A card
    with a body yields a record whatever else is missing.  A card on which
    the parse raises is logged and skipped, and the cards before and after
    it are extracted as they would be without it. *)
Theorem C6_card_fallbacks :
  forall f pageNum now,
    (forall index card r,
        parseCard f pageNum now index card = Ok (Some r) ->
        author r = textOr (profileName card) (js "Anonymous") /\
        starRating r = textOr (ratingAlt card) (js "N/A") /\
        title r = textOr (titleSpan card) [] /\
        date r = textOr (reviewDate card) [] /\
        variant r = textOr (formatStrip card) [] /\
        (profileName card = None -> author r = js "Anonymous") /\
        (ratingAlt card = None -> starRating r = js "N/A") /\
        (titleSpan card = None -> title r = []) /\
        (reviewDate card = None -> date r = []) /\
        (formatStrip card = None -> variant r = []) /\
        (cardId card = [] -> id r = syntheticId now index)) /\
    (forall index card,
        cardThrows card = false ->
        textOr (reviewBody card) [] <> [] ->
        exists r, parseCard f pageNum now index card = Ok (Some r)) /\
    (forall w pre bad post,
        clock w = now ->
        reviewCards (page w) = pre ++ bad :: post ->
        cardThrows bad = true ->
        value (extractReviews f pageNum w) =
          fst (forEachCard f pageNum now 0 pre []) ++
          fst (forEachCard f pageNum now (S (List.length pre)) post []) /\
        In (ELog LWarn (MsgCardParseError (List.length pre + 1)))
           (trace (extractReviews f pageNum w))).
Proof.
  intros f pageNum now. split; [|split].
  - intros index card r H.
    destruct (parseCard_fields f pageNum now index card r H)
      as (Hid & Ha & Hr & Ht & Hd & Hv & _).
    repeat split; try assumption.
    + intros E. rewrite Ha, E. reflexivity.
    + intros E. rewrite Hr, E. reflexivity.
    + intros E. rewrite Ht, E. reflexivity.
    + intros E. rewrite Hd, E. reflexivity.
    + intros E. rewrite Hv, E. reflexivity.
    + intros E. rewrite Hid, E. reflexivity.
  - intros index card Hok Hbody. unfold parseCard. rewrite Hok.
    destruct (textOr (reviewBody card) []) as [|c body]; [congruence|].
    simpl. eauto.
  - intros w pre bad post Hclock Hcards Hbad. split.
    + rewrite extractReviews_value, Hclock, Hcards.
      apply forEachCard_skips. exact Hbad.
    + rewrite extractReviews_trace, Hclock, Hcards. right.
      apply (forEachCard_logs_error f pageNum now bad post pre Hbad 0%nat []).
Qed.

Lemma C6_card_fallbacks_witness :
  parseCard (Some one_star) (Int 1) 2000 1 cardBare =
    Ok (Some (mkReview (syntheticId 2000 1) (js "N/A") (js "Anonymous") [] []
                       (js "Fine.") false [] [] (Some (STAR_LABELS one_star))
                       (Some (Int 1)))) /\
  author (mkReview (syntheticId 2000 1) (js "N/A") (js "Anonymous") [] []
                   (js "Fine.") false [] [] (Some (STAR_LABELS one_star))
                   (Some (Int 1))) = js "Anonymous" /\
  List.length
    (value (extractReviews (Some one_star) (Int 1)
              (browser (listingPage (filteredLocation (js "one_star") (js "1"))
                                    ([cardFull] ++ cardBroken :: [cardBare])
                                    true true)
                       None emptyChrome 2000)))
  = 2%nat.
Proof.
  assert (H : parseCard (Some one_star) (Int 1) 2000 1 cardBare =
    Ok (Some (mkReview (syntheticId 2000 1) (js "N/A") (js "Anonymous") [] []
                       (js "Fine.") false [] [] (Some (STAR_LABELS one_star))
                       (Some (Int 1))))) by (vm_compute; reflexivity).
  destruct (C6_card_fallbacks (Some one_star) (Int 1) 2000) as (H1 & _ & H3).
  destruct (H1 _ _ _ H) as (_ & _ & _ & _ & _ & Ha & _).
  split; [exact H|]. split; [exact (Ha eq_refl)|].
  destruct (H3 (browser (listingPage (filteredLocation (js "one_star") (js "1"))
                                     ([cardFull] ++ cardBroken :: [cardBare])
                                     true true)
                        None emptyChrome 2000)
               [cardFull] cardBroken [cardBare] eq_refl eq_refl eq_refl) as [Hv _].
  rewrite Hv. vm_compute. reflexivity.
Defined.

(** C6, as first stated, fails on the rating: a card without a rating
    element yields a record whose rating is N/A, not the empty string. *)
Lemma C6_counterexample :
  ~ (forall f pageNum now index card r,
        parseCard f pageNum now index card = Ok (Some r) ->
        ratingAlt card = None ->
        starRating r = []).
Proof.
  intros H.
  specialize (H (Some one_star) (Int 1) 2000 1%nat cardBare _ eq_refl eq_refl).
  vm_compute in H. discriminate.
Qed.

(** ** The delay before a page advance *)

Lemma Qfloor_below (x : Q) (n : Z) : (x < inject_Z n)%Q -> Qfloor x < n.
Proof.
  intros H. rewrite Zlt_Qlt.
  eapply Qle_lt_trans; [apply Qfloor_le | exact H].
Qed.

Lemma Qfloor_nonneg (x : Q) : (0 <= x)%Q -> 0 <= Qfloor x.
Proof.
  intros H. rewrite <- (Qfloor_Z 0).
  apply Qfloor_resp_le. exact H.
Qed.

Lemma waitTimeOf_bounds (minDelay maxDelay : Z) (r : Q) :
  (0 <= r)%Q -> (r < 1)%Q -> minDelay < maxDelay ->
  minDelay <= waitTimeOf minDelay maxDelay r < maxDelay.
Proof.
  intros H0 H1 Hlt. unfold waitTimeOf.
  assert (Hpos : (0 < inject_Z (maxDelay - minDelay))%Q).
  { change 0%Q with (inject_Z 0). rewrite <- Zlt_Qlt. lia. }
  assert (Hlo : 0 <= Qfloor (r * inject_Z (maxDelay - minDelay))).
  { apply Qfloor_nonneg. apply Qmult_le_0_compat; [exact H0|].
    apply Qlt_le_weak. exact Hpos. }
  assert (Hhi : Qfloor (r * inject_Z (maxDelay - minDelay)) < maxDelay - minDelay).
  { apply Qfloor_below.
    apply Qlt_le_trans with (1 * inject_Z (maxDelay - minDelay))%Q.
    - apply Qmult_lt_compat_r; assumption.
    - rewrite Qmult_1_l. apply Qle_refl. }
  lia.
Qed.

Lemma randomDelay_reaches_max (minDelay maxDelay : Z) :
  minDelay <= maxDelay ->
  exists r : Q,
    (0 <= r)%Q /\ (r < 1)%Q /\ randomDelay minDelay maxDelay r = maxDelay.
Proof.
  intros Hle.
  exists (Qmake (maxDelay - minDelay) (Z.to_pos (maxDelay - minDelay + 1))).
  assert (Hpos : 0 < maxDelay - minDelay + 1) by lia.
  split; [|split].
  - unfold Qle. simpl. lia.
  - unfold Qlt. simpl. rewrite Z2Pos.id by lia. lia.
  - unfold randomDelay.
    assert (E : ((maxDelay - minDelay # Z.to_pos (maxDelay - minDelay + 1))
                 * inject_Z (maxDelay - minDelay + 1) + inject_Z minDelay
                 == inject_Z maxDelay)%Q).
    { unfold Qeq, Qmult, Qplus, inject_Z. simpl.
      rewrite !Pos.mul_1_r. rewrite Z2Pos.id by lia. nia. }
    rewrite E. apply Qfloor_Z.
Qed.

(** C9: the code against the claim.  With [min < max] the wait computed
    before a page advance lies in [min, max - 1] for every value of
    [Math.random()]: [max] is never drawn, although [randomDelay], the
    helper of the same file, does draw it.  Without stored settings the
    range is that of 2000 and 5000; a stored bound of 0 is replaced by the
    default. *)
Theorem C9_wait_never_reaches_max :
  forall env w,
    (0 <= random env)%Q -> (random env < 1)%Q ->
    minDelayOf (delaySettings (chromeStore w)) <
    maxDelayOf (delaySettings (chromeStore w)) ->
    (minDelayOf (delaySettings (chromeStore w)) <= waitTimeIn env w <
     maxDelayOf (delaySettings (chromeStore w))) /\
    (exists r : Q,
        (0 <= r)%Q /\ (r < 1)%Q /\
        randomDelay (minDelayOf (delaySettings (chromeStore w)))
                    (maxDelayOf (delaySettings (chromeStore w))) r =
        maxDelayOf (delaySettings (chromeStore w))) /\
    minDelayOf None = 2000 /\ maxDelayOf None = 5000 /\
    (forall m, minDelayOf (Some (mkDelay 0 m)) = 2000) /\
    (forall m, maxDelayOf (Some (mkDelay m 0)) = 5000) /\
    (forall a b, a <> 0 -> b <> 0 ->
                 minDelayOf (Some (mkDelay a b)) = a /\
                 maxDelayOf (Some (mkDelay a b)) = b).
Proof.
  intros env w H0 H1 Hlt. split; [|split].
  - apply waitTimeOf_bounds; assumption.
  - apply randomDelay_reaches_max. lia.
  - repeat split; try reflexivity.
    + unfold minDelayOf, num_or. simpl.
      destruct (a =? 0) eqn:E; [apply Z.eqb_eq in E; congruence | reflexivity].
    + unfold maxDelayOf, num_or. simpl.
      destruct (b =? 0) eqn:E; [apply Z.eqb_eq in E; congruence | reflexivity].
Qed.

Lemma C9_wait_never_reaches_max_witness :
  (0 <= 999 # 1000)%Q /\ (999 # 1000 < 1)%Q /\
  waitTimeIn (mkEnv oneStarPage2 oneStarPage1 (999 # 1000))
             (browser oneStarPage1 None
                      (mkChrome None (Some true) (Some (mkDelay 2000 2001))) 0)
  < 2001.
Proof.
  assert (H0 : (0 <= 999 # 1000)%Q) by (unfold Qle; simpl; lia).
  assert (H1 : (999 # 1000 < 1)%Q) by (unfold Qlt; simpl; lia).
  destruct (C9_wait_never_reaches_max
              (mkEnv oneStarPage2 oneStarPage1 (999 # 1000))
              (browser oneStarPage1 None
                       (mkChrome None (Some true) (Some (mkDelay 2000 2001))) 0)
              H0 H1) as [[_ H] _].
  - vm_compute. reflexivity.
  - split; [exact H0|]. split; [exact H1 | exact H].
Defined.

(** ** The export request *)

(** C10.  When the durable tier holds no session, or a session without
    records, the export handler answers [success = false] with the error
    No reviews to export and no csv.  Whatever the storage read does, the
    handler returns an answer: an exception of the read becomes a failed
    answer carrying it.  The answer does not depend on the fast tier. *)
Theorem C10_nothing_to_export :
  (forall items,
      amazon_scraper_session items = None \/
      (exists s, amazon_scraper_session items = Some s /\ reviews s = []) ->
      handleDownloadCSV (Ok items) =
      mkResponse false None (Some (js "No reviews to export"))) /\
  (forall stored,
      exists answer, handleDownloadCSV stored = answer /\
        (forall e, stored = Throw e -> answer = mkResponse false None (Some e))) /\
  (forall w local,
      exportRequest (set_localStore local w) = exportRequest w).
Proof.
  split; [|split].
  - intros items [H|(s & H & Hr)];
      unfold handleDownloadCSV, handleDownloadCSV_try; simpl; rewrite H.
    + reflexivity.
    + rewrite Hr. reflexivity.
  - intros stored. eexists. split; [reflexivity|].
    intros e ->. reflexivity.
  - intros w local. reflexivity.
Qed.

Lemma C10_nothing_to_export_witness :
  handleDownloadCSV (Ok (mkChrome (Some (mkSession true [] 2 (Int 1) [] 0 0))
                                  (Some true) None)) =
  mkResponse false None (Some (js "No reviews to export")).
Proof.
  apply (proj1 C10_nothing_to_export).
  right. eexists. split; reflexivity.
Defined.

(** ** The stop signal *)

Lemma handleStopScraping_keeps_sessions (w : World) :
  localStore (world (handleStopScraping w)) = localStore w /\
  amazon_scraper_session (chromeStore (world (handleStopScraping w))) =
    amazon_scraper_session (chromeStore w) /\
  isScanning (chromeStore (world (handleStopScraping w))) = Some false.
Proof. repeat split. Qed.

(** When no session is stored yet, a stop signal does keep the next ticks
    from navigating or writing a session. *)
Lemma stop_before_any_session (env : Env) (w : World) :
  localStore w = None ->
  amazon_scraper_session (chromeStore w) = None ->
  count isNavigation (trace (tick env (world (step StopSignal w)))) = 0%nat /\
  count isSessionWrite (trace (tick env (world (step StopSignal w)))) = 0%nat.
Proof.
  intros Hl Hc. apply tick_idle. repeat split; try assumption.
  simpl. discriminate.
Qed.

(** C1: the code against the claim.  The stop signal only lowers the scan
    flag; a stored session stays active.  On the tick after the signal the
    controller restores that session, extracts the page, saves the session
    to both tiers and clicks the next-page control. *)
Theorem C1_stop_ignored_by_stored_session :
  isScanning
    (chromeStore (world (step StopSignal (browserWith oneStarPage2 (sessionAt 0 1)))))
  = Some false /\
  option_map isActive
    (localStore (world (step StopSignal (browserWith oneStarPage2 (sessionAt 0 1)))))
  = Some true /\
  filter isNavigation
    (trace (tick (exampleEnv oneStarPage3Empty oneStarPage1)
              (world (step StopSignal (browserWith oneStarPage2 (sessionAt 0 1))))))
  = [EClickNext] /\
  count isSessionWrite
    (trace (tick (exampleEnv oneStarPage3Empty oneStarPage1)
              (world (step StopSignal (browserWith oneStarPage2 (sessionAt 0 1))))))
  = 2%nat /\
  option_map (fun s => List.length (reviews s))
    (localStore
       (world (tick (exampleEnv oneStarPage3Empty oneStarPage1)
                 (world (step StopSignal (browserWith oneStarPage2 (sessionAt 0 1)))))))
  = Some 2%nat.
Proof. vm_compute. repeat split. Qed.

(* ================================================================== *)
(** * Further properties of the scripts *)
(* ================================================================== *)

(** ** What the extractor returns *)

Lemma forEachCard_contents (f : option StarFilter) (pageNum : jsnum) (now : Z)
    (cards : list Card) :
  forall index,
    map content (fst (forEachCard f pageNum now index cards [])) =
    map (fun card => textOr (reviewBody card) []) (filter hasBody cards).
Proof.
  induction cards as [|card rest IH]; intros index; simpl; [reflexivity|].
  unfold hasBody at 1. unfold parseCard.
  destruct (cardThrows card); simpl.
  - specialize (IH (S index)).
    destruct (forEachCard f pageNum now (S index) rest []). exact IH.
  - destruct (truthy (textOr (reviewBody card) [])) eqn:Ht; simpl.
    + replace (0 <? Z.of_nat (List.length (textOr (reviewBody card) []))) with true
        by (symmetry; apply Z.ltb_lt; apply truthy_length in Ht; lia).
      rewrite forEachCard_acc, map_app, IH. reflexivity.
    + apply IH.
Qed.

Lemma trimStart_suffix (s : jsstring) : exists pre, s = pre ++ trimStart s.
Proof.
  induction s as [|c s [pre IH]]; simpl.
  - exists []. reflexivity.
  - destruct (isWhiteSpace c).
    + exists (c :: pre). simpl. rewrite <- IH. reflexivity.
    + exists []. reflexivity.
Qed.

Lemma trimStart_head (s : jsstring) (c : Z) (rest : jsstring) :
  trimStart s = c :: rest -> isWhiteSpace c = false.
Proof.
  induction s as [|d s IH]; simpl; [discriminate|].
  destruct (isWhiteSpace d) eqn:E; [exact IH|].
  intros H. injection H as <- _. exact E.
Qed.

Lemma trimStart_fixed (s : jsstring) :
  match s with [] => True | c :: _ => isWhiteSpace c = false end ->
  trimStart s = s.
Proof. destruct s as [|c s]; simpl; [reflexivity|]. intros ->. reflexivity. Qed.

Lemma trimStart_idempotent (s : jsstring) : trimStart (trimStart s) = trimStart s.
Proof.
  apply trimStart_fixed. destruct (trimStart s) as [|c rest] eqn:E; [exact I|].
  exact (trimStart_head s c rest E).
Qed.

Lemma trimEnd_prefix (s : jsstring) : exists suf, s = trimEnd s ++ suf.
Proof.
  unfold trimEnd. destruct (trimStart_suffix (rev s)) as [pre H].
  exists (rev pre). rewrite <- rev_app_distr, <- H, rev_involutive. reflexivity.
Qed.

Lemma trim_idempotent (s : jsstring) : trim (trim s) = trim s.
Proof.
  unfold trim.
  assert (Hlead : trimStart (trimEnd (trimStart s)) = trimEnd (trimStart s)).
  { apply trimStart_fixed.
    destruct (trimEnd (trimStart s)) as [|c rest] eqn:E; [exact I|].
    destruct (trimEnd_prefix (trimStart s)) as [suf H]. rewrite E in H.
    simpl in H. exact (trimStart_head s c (rest ++ suf) H). }
  rewrite Hlead. unfold trimEnd at 1. unfold trimEnd at 1.
  rewrite rev_involutive, trimStart_idempotent. reflexivity.
Qed.

Lemma textOr_trimmed (field : option jsstring) (fallback : jsstring) :
  isTrimmed fallback -> isTrimmed (textOr field fallback).
Proof.
  intros Hf. unfold textOr, str_or. destruct field as [t|]; [|exact Hf].
  destruct (truthy (trim t)); [apply trim_idempotent | exact Hf].
Qed.

(** The records of a page are those of its cards that parse and have a
    body, in the order of the cards, each with the trimmed body of its card
    and with the filter label and the page number of the call; their text
    fields have no white space at either end. *)
Theorem extractReviews_in_card_order :
  forall f pageNum w,
    let found := value (extractReviews f pageNum w) in
    map content found =
      map (fun card => textOr (reviewBody card) [])
          (filter hasBody (reviewCards (page w))) /\
    List.length found = List.length (filter hasBody (reviewCards (page w))) /\
    Forall (fun r => starFilter r = labelOf f /\ pageNumber r = Some pageNum /\
                     images r = [] /\ fieldsTrimmed r) found.
Proof.
  intros f pageNum w found. subst found. rewrite extractReviews_value.
  pose proof (forEachCard_contents f pageNum (clock w) (reviewCards (page w)) 0%nat)
    as Hc.
  split; [exact Hc|]. split.
  - rewrite <- (length_map content), Hc, length_map. reflexivity.
  - apply forEachCard_Forall; [|constructor].
    intros index card r H.
    destruct (parseCard_fields f pageNum (clock w) index card r H)
      as (_ & Ha & Hr & Ht & Hd & Hv & Hb & _ & Hf & Hp).
    assert (Hi : images r = []).
    { revert H. unfold parseCard. destruct (cardThrows card); [discriminate|].
      destruct (_ && _); [|discriminate]. intros E. injection E as <-. reflexivity. }
    repeat split; try assumption; unfold isTrimmed;
      [rewrite Ha | rewrite Hr | rewrite Ht | rewrite Hd | rewrite Hb | rewrite Hv];
      apply textOr_trimmed; reflexivity.
Qed.

(** ** Synthetic ids *)

Lemma js_injective (a b : string) : js a = js b -> a = b.
Proof.
  revert b. induction a as [|x a IH]; intros [|y b]; simpl; try discriminate.
  - reflexivity.
  - unfold js. simpl. intros H. injection H as Hxy Hab.
    apply N2Z.inj in Hxy.
    assert (x = y) as ->.
    { rewrite <- (ascii_N_embedding x), <- (ascii_N_embedding y), Hxy. reflexivity. }
    f_equal. apply IH. exact Hab.
Qed.

Lemma Z_toString_injective (a b : Z) : Z_toString a = Z_toString b -> a = b.
Proof.
  unfold Z_toString. intros H. apply js_injective in H.
  apply DecimalZ.to_int_inj.
  assert (E : Some (Z.to_int a) = Some (Z.to_int b)).
  { rewrite <- !NilEmpty.isi, H. reflexivity. }
  injection E as E. exact E.
Qed.

Lemma syntheticId_injective (now : Z) (i j : nat) :
  syntheticId now i = syntheticId now j -> i = j.
Proof.
  unfold syntheticId. intros H.
  apply app_inv_head in H. apply app_inv_head in H. apply app_inv_head in H.
  apply Z_toString_injective in H. lia.
Qed.



(** ** Reading the filter from the address *)

Lemma filterOfString_name (f : StarFilter) : filterOfString (filterName f) = Some f.
Proof. destruct f; reflexivity. Qed.

Lemma filterOfString_exact (s : jsstring) (f : StarFilter) :
  filterOfString s = Some f -> s = filterName f.
Proof.
  unfold filterOfString. intros H. apply find_some in H as [_ H].
  apply str_eqb_eq. exact H.
Qed.

(** The page shows filter [f] exactly when the first [filterByStar]
    parameter of its address is the identifier of [f], character for
    character; any other value, an empty value or no parameter is read as
    no filter. *)
Theorem getCurrentStarFilter_exact :
  forall w f,
    value (getCurrentStarFilter w) = Some f <->
    searchParam (js "filterByStar") (searchParams (location (page w)))
    = Some (filterName f).
Proof.
  intros w f. unfold getCurrentStarFilter. mcompute.
  destruct (searchParam (js "filterByStar") (searchParams (location (page w))))
    as [v|]; mcompute.
  - split.
    + destruct (truthy v); [|discriminate].
      intros H. apply filterOfString_exact in H. rewrite H. reflexivity.
    + intros H. injection H as ->.
      replace (truthy (filterName f)) with true by (destruct f; reflexivity).
      apply filterOfString_name.
  - split; discriminate.
Qed.

(** ** A program logic for the controller *)

(** The lemmas of this section follow a world invariant [Inv], a predicate
    [T] on the effects performed and a predicate [P] on the session objects
    through every function of the content script.  The assumptions say how
    [Inv], [T] and [P] behave under the primitive steps; each lemma depends
    on the assumptions its function needs. *)
Section Logic.

Variable Inv : World -> Prop.
Variable T : Event -> Prop.
Variable P : ScrapeSession -> Prop.

Hypothesis Inv_page : forall p w, Inv w -> Inv (set_page p w).
Hypothesis Inv_clock : forall t w, Inv w -> Inv (set_clock t w).
Hypothesis Inv_url : forall u w, Inv w -> Inv (set_lastProcessedUrl u w).
Hypothesis Inv_flag : forall b w, Inv w -> Inv (set_isProcessing b w).
Hypothesis Inv_scanning :
  forall b w, Inv w -> Inv (set_chromeStore (set_isScanning b (chromeStore w)) w).
Hypothesis Inv_settings :
  forall d w, Inv w ->
    Inv (set_chromeStore (mkChrome (amazon_scraper_session (chromeStore w))
                                   (isScanning (chromeStore w)) d) w).
Hypothesis Inv_local :
  forall s w, P s -> Inv w -> Inv (set_localStore (Some s) w).
Hypothesis Inv_durable :
  forall s w, P s -> Inv w ->
    Inv (set_chromeStore (set_session (Some s) (chromeStore w)) w).
Hypothesis Inv_local_removed : forall w, Inv w -> Inv (set_localStore None w).
Hypothesis Inv_durable_removed :
  forall w, Inv w -> Inv (set_chromeStore (set_session None (chromeStore w)) w).
Hypothesis Inv_loaded_local : forall w s, Inv w -> localStore w = Some s -> P s.
Hypothesis Inv_loaded_durable :
  forall w s, Inv w -> amazon_scraper_session (chromeStore w) = Some s -> P s.

Hypothesis T_harmless :
  forall e, isNavigation e = false -> isSessionWrite e = false -> T e.
Hypothesis T_navigation : forall e, isNavigation e = true -> T e.
Hypothesis T_local : forall s, P s -> T (ELocalSet s).
Hypothesis T_durable : forall s, P s -> T (EChromeSet s).
Hypothesis T_local_removed : T ELocalRemove.
Hypothesis T_durable_removed : T EChromeRemove.

Hypothesis P_stamp : forall t s, P s -> P (set_lastUpdated t s).
Hypothesis P_page : forall p s, P s -> P (set_currentPage p s).
Hypothesis P_url : forall u s, P s -> P (set_lastUrl u s).
Hypothesis P_inactive : forall s, P s -> P (set_isActive false s).
Hypothesis P_append :
  forall s pageNum w, P s ->
    P (set_reviews
         (reviews s ++ value (extractReviews (starFilterAt (currentStarIndex s))
                                             pageNum w)) s).
Hypothesis P_advance :
  forall s, P s ->
    currentStarIndex s + 1 < Z.of_nat (List.length STAR_FILTERS) ->
    P (set_currentStarIndex (currentStarIndex s + 1) s).
Hypothesis P_fresh : forall b u t, P (mkSession b [] 0 (Int 1) u t t).

Create HintDb logic_db.

Lemma logic_pure {A} (m : M A) : pure m -> holds Inv T m (fun _ => True).
Proof.
  intros Hm w Hw. rewrite (Hm w). repeat split; [exact Hw | constructor].
Qed.

Lemma logic_emit (e : Event) :
  isNavigation e = false -> isSessionWrite e = false ->
  holds Inv T (emit e) (fun _ => True).
Proof. intros H1 H2. apply holds_emit. apply T_harmless; assumption. Qed.

Lemma logic_log (msg : LogMsg) (level : Level) :
  holds Inv T (log msg level) (fun _ => True).
Proof. apply logic_emit; reflexivity. Qed.

Lemma logic_getWorld : holds Inv T getWorld Inv.
Proof. apply holds_getWorld. Qed.

Lemma logic_delay (ms : Z) : holds Inv T (delay ms) (fun _ => True).
Proof.
  unfold delay. eapply holds_seq; [apply logic_emit; reflexivity|].
  apply holds_modify. intros w H. apply Inv_clock. exact H.
Qed.

Lemma logic_setScanning (b : bool) : holds Inv T (setScanning b) (fun _ => True).
Proof.
  unfold setScanning. eapply holds_seq; [apply logic_emit; reflexivity|].
  apply holds_modify. intros w H. apply Inv_scanning. exact H.
Qed.

Lemma logic_set_isProcessing (b : bool) :
  holds Inv T (modify (set_isProcessing b)) (fun _ => True).
Proof. apply holds_modify. intros w H. apply Inv_flag. exact H. Qed.

Lemma logic_set_lastProcessedUrl (u : jsstring) :
  holds Inv T (modify (set_lastProcessedUrl u)) (fun _ => True).
Proof. apply holds_modify. intros w H. apply Inv_url. exact H. Qed.

Lemma logic_set_page (p : Page) : holds Inv T (modify (set_page p)) (fun _ => True).
Proof. apply holds_modify. intros w H. apply Inv_page. exact H. Qed.

Lemma logic_getCurrentPageNumber : holds Inv T getCurrentPageNumber (fun _ => True).
Proof. apply logic_pure, pure_getCurrentPageNumber. Qed.

Lemma logic_getCurrentStarFilter : holds Inv T getCurrentStarFilter (fun _ => True).
Proof. apply logic_pure, pure_getCurrentStarFilter. Qed.

Lemma logic_hasNextPage : holds Inv T hasNextPage (fun _ => True).
Proof. apply logic_pure, pure_hasNextPage. Qed.

Lemma logic_detectCaptcha : holds Inv T detectCaptcha (fun _ => True).
Proof. apply logic_pure, pure_detectCaptcha. Qed.

#[local] Hint Resolve logic_log logic_getWorld logic_delay logic_setScanning
  logic_set_isProcessing logic_set_lastProcessedUrl logic_set_page
  logic_getCurrentPageNumber logic_getCurrentStarFilter logic_hasNextPage
  logic_detectCaptcha : logic_db.

Ltac logic_step :=
  lazymatch goal with
  | |- holds _ _ (bind (bind _ _) (fun _ => _)) _ =>
      eapply holds_seq with (Q := fun _ => True)
  | |- holds _ _ (bind (emit _) _) _ =>
      eapply holds_seq;
      [first [apply logic_emit; reflexivity
             | apply holds_emit; apply T_navigation; reflexivity] |]
  | |- holds _ _ (bind _ _) _ =>
      eapply holds_bind; [solve [eauto with logic_db] | intros ? ?]
  | |- holds _ _ (ret _) _ => apply holds_ret
  | |- holds _ _ (emit _) _ =>
      first [apply logic_emit; reflexivity
            | apply holds_emit; apply T_navigation; reflexivity]
  | |- holds _ _ (if ?b then _ else _) _ => destruct b eqn:?
  | |- holds _ _ (match ?x with _ => _ end) _ => destruct x eqn:?
  | |- holds _ _ _ (fun _ => True) => solve [eauto with logic_db]
  end.

Ltac logic_auto := repeat logic_step; try exact Logic.I; eauto with logic_db.

Lemma logic_waitForPageLoad : holds Inv T waitForPageLoad (fun _ => True).
Proof. unfold waitForPageLoad. logic_auto. Qed.

Lemma logic_extractReviews (f : option StarFilter) (pageNum : jsnum) :
  holds Inv T (extractReviews f pageNum)
        (fun found => exists w, found = value (extractReviews f pageNum w)).
Proof.
  intros w Hw. rewrite extractReviews_world. split; [exact Hw|]. split.
  - eapply Forall_impl; [|apply extractReviews_trace_logs].
    intros e (level & msg & ->). apply T_harmless; reflexivity.
  - exists w. reflexivity.
Qed.

Lemma logic_saveSession (s : ScrapeSession) :
  P s -> holds Inv T (saveSession s) P.
Proof.
  intros Hs. unfold saveSession.
  eapply holds_bind; [apply logic_getWorld | intros w Hw].
  assert (Hs' : P (set_lastUpdated (clock w) s)) by (apply P_stamp; exact Hs).
  eapply holds_seq with (Q := fun _ => True).
  { destruct (sessionFitsLocal w); [|apply logic_log].
    eapply holds_seq; [apply holds_emit, T_local; exact Hs'|].
    apply holds_modify. intros w0 H. apply Inv_local; assumption. }
  eapply holds_seq with (Q := fun _ => True).
  { destruct (sessionFitsChrome w); [|apply logic_log].
    eapply holds_seq; [apply holds_emit, T_durable; exact Hs'|].
    apply holds_modify. intros w0 H. apply Inv_durable; assumption. }
  apply holds_ret. exact Hs'.
Qed.

Lemma logic_clearSession : holds Inv T clearSession (fun _ => True).
Proof.
  unfold clearSession.
  eapply holds_seq; [apply holds_emit, T_local_removed|].
  eapply holds_seq with (Q := fun _ => True);
    [apply holds_modify; intros w H; apply Inv_local_removed; exact H|].
  eapply holds_seq; [apply holds_emit, T_durable_removed|].
  eapply holds_seq with (Q := fun _ => True); [|apply logic_log].
  apply holds_modify. intros w H. apply Inv_durable_removed. exact H.
Qed.

Lemma logic_downloadCSV (rs : list Review) :
  holds Inv T (downloadCSV rs) (fun _ => True).
Proof. unfold downloadCSV. destruct rs; logic_auto. Qed.

Lemma logic_getOrCreateSession : holds Inv T getOrCreateSession P.
Proof.
  unfold getOrCreateSession.
  eapply holds_bind with
    (Q := fun o => match o with Some s => P s | None => True end).
  { unfold loadSessionFromLocalStorage.
    eapply holds_bind; [apply logic_getWorld | intros w Hw].
    destruct (localStore w) as [s|] eqn:E; [|apply holds_ret; exact Logic.I].
    eapply holds_seq; [apply logic_log|]. apply holds_ret.
    exact (Inv_loaded_local w s Hw E). }
  intros fromLocal Hlocal.
  eapply holds_bind with
    (Q := fun o => match o with Some s => P s | None => True end).
  { destruct fromLocal as [s|]; [apply holds_ret; exact Hlocal|].
    eapply holds_bind; [apply logic_getWorld | intros w Hw].
    destruct (amazon_scraper_session (chromeStore w)) as [s|] eqn:E;
      [|apply holds_ret; exact Logic.I].
    eapply holds_seq; [apply logic_log|]. apply holds_ret.
    exact (Inv_loaded_durable w s Hw E). }
  intros [s|] Hs; [apply holds_ret; exact Hs|].
  eapply holds_bind; [apply logic_getWorld | intros w _].
  destruct (isScanning (chromeStore w)) as [[|]|];
    [eapply holds_seq; [apply logic_log|] | |]; apply holds_ret; apply P_fresh.
Qed.

Lemma logic_clickStarFilter (env : Env) (f : option StarFilter) :
  holds Inv T (clickStarFilter env f) (fun _ => True).
Proof. unfold clickStarFilter. logic_auto. Qed.

Lemma logic_clickNextPage (env : Env) :
  holds Inv T (clickNextPage env) (fun _ => True).
Proof. unfold clickNextPage. logic_auto. Qed.

Lemma logic_checkProductPageRedirect :
  holds Inv T checkProductPageRedirect (fun _ => True).
Proof. unfold checkProductPageRedirect. logic_auto. Qed.

#[local] Hint Resolve logic_waitForPageLoad logic_saveSession logic_clearSession
  logic_downloadCSV logic_getOrCreateSession logic_clickStarFilter
  logic_clickNextPage logic_checkProductPageRedirect : logic_db.

Lemma logic_validateFilter (env : Env) (f : option StarFilter) :
  holds Inv T (validateFilter env f) (fun _ => True).
Proof. unfold validateFilter. logic_auto. Qed.

Lemma logic_extractAndSave (s : ScrapeSession) :
  P s ->
  holds Inv T (extractAndSave (starFilterAt (currentStarIndex s)) s) P.
Proof.
  intros Hs. unfold extractAndSave.
  eapply holds_bind; [apply logic_getCurrentPageNumber | intros pageNum _].
  eapply holds_bind; [apply logic_extractReviews | intros found [w0 ->]].
  destruct (value (extractReviews (starFilterAt (currentStarIndex s)) pageNum w0))
    as [|r rest] eqn:E.
  - logic_auto.
  - rewrite <- E.
    eapply holds_bind;
      [apply logic_saveSession; apply P_page, P_append; exact Hs|].
    intros s' Hs'. logic_auto.
Qed.

Lemma logic_switchToNextFilter (env : Env) (s : ScrapeSession) :
  P s -> holds Inv T (switchToNextFilter env s) (fun _ => True).
Proof.
  intros Hs. unfold switchToNextFilter.
  destruct (_ >=? _) eqn:E.
  - logic_auto.
  - assert (Hadv : P (set_currentPage (Int 1)
                        (set_currentStarIndex (currentStarIndex s + 1) s))).
    { apply P_page, P_advance; [exact Hs|].
      rewrite Z.geb_leb in E. apply Z.leb_gt in E. exact E. }
    eapply holds_seq; [apply logic_log|].
    eapply holds_bind; [apply logic_saveSession; exact Hadv | intros s1 Hs1].
    logic_step. logic_step. destruct a0.
    + logic_auto.
    + eapply holds_seq; [apply logic_log|].
      eapply holds_bind;
        [apply logic_saveSession; apply P_inactive; exact Hs1 | intros s2 Hs2].
      logic_auto.
Qed.

#[local] Hint Resolve logic_validateFilter logic_switchToNextFilter : logic_db.

Lemma logic_paginate (env : Env) (f : option StarFilter) (s : ScrapeSession) :
  P s -> holds Inv T (paginate env f s) (fun _ => True).
Proof. intros Hs. unfold paginate. logic_auto. Qed.

Lemma logic_scrapeCurrentPage (env : Env) (s : ScrapeSession) :
  P s -> holds Inv T (scrapeCurrentPage env s) (fun _ => True).
Proof.
  intros Hs. unfold scrapeCurrentPage.
  eapply holds_bind; [apply logic_validateFilter | intros returned _].
  destruct returned; [apply holds_ret; exact Logic.I|].
  eapply holds_bind; [apply logic_extractAndSave; exact Hs | intros s1 Hs1].
  apply logic_paginate. exact Hs1.
Qed.

Lemma logic_mainController (env : Env) :
  holds Inv T (mainController env) (fun _ => True).
Proof.
  unfold mainController.
  eapply holds_bind; [apply logic_getWorld | intros w _].
  destruct (isProcessing w); [logic_auto|].
  destruct (_ && _); [logic_auto|].
  eapply holds_bind; [apply logic_detectCaptcha | intros captcha _].
  destruct captcha; [logic_auto|].
  eapply holds_seq; [apply logic_set_isProcessing|].
  eapply holds_seq with (Q := fun _ => True); [|apply logic_set_isProcessing].
  eapply holds_bind; [apply logic_getOrCreateSession | intros s Hs].
  destruct (negb (isActive s)); [logic_auto|].
  eapply holds_bind; [apply logic_checkProductPageRedirect | intros r _].
  destruct r; [logic_auto|].
  eapply holds_bind; [apply logic_getWorld | intros w1 _].
  destruct (str_eqb _ _); [logic_auto|].
  eapply holds_seq; [apply logic_set_lastProcessedUrl|].
  eapply holds_bind; [apply logic_getCurrentPageNumber | intros pageNum _].
  eapply holds_seq; [apply logic_log|].
  eapply holds_seq with (Q := fun _ => True); [|apply holds_ret; exact Logic.I].
  apply logic_scrapeCurrentPage. apply P_url. exact Hs.
Qed.

Lemma logic_deliver (evs : list Event) : holds Inv T (deliver evs) (fun _ => True).
Proof.
  induction evs as [|e evs IH]; simpl; [apply holds_ret; exact Logic.I|].
  destruct e; try exact IH.
  eapply holds_seq with (Q := fun _ => True); [|exact IH].
  unfold onMessage, handleScrapingComplete, broadcastMessage.
  destruct m; logic_auto.
Qed.

Lemma logic_tick (env : Env) : holds Inv T (tick env) (fun _ => True).
Proof.
  intros w Hw. unfold tick.
  destruct (logic_mainController env w Hw) as (H1 & Ht1 & _).
  destruct (mainController env w) as [[u w1] t1].
  unfold world, trace in H1, Ht1; simpl in H1, Ht1.
  destruct (logic_deliver t1 w1 H1) as (H2 & Ht2 & _).
  destruct (deliver t1 w1) as [[u2 w2] t2].
  unfold world, trace in *; simpl in *.
  split; [exact H2 | split; [|exact Logic.I]].
  apply Forall_app. split; assumption.
Qed.

Lemma logic_step_input (i : Input) : holds Inv T (step i) (fun _ => True).
Proof.
  destruct i; simpl.
  - apply logic_tick.
  - apply logic_set_page.
  - apply holds_modify. intros w H. apply Inv_flag, Inv_url, Inv_page. exact H.
  - unfold handleStartScraping, broadcastMessage.
    eapply holds_seq; [apply logic_setScanning|].
    eapply holds_seq with (Q := fun _ => True);
      [|apply logic_emit; reflexivity].
    apply holds_modify. intros w H. apply Inv_flag, Inv_url, Inv_page. exact H.
  - unfold handleStopScraping, broadcastMessage. logic_auto.
  - apply holds_modify. intros w H. apply Inv_settings. exact H.
Qed.

Lemma logic_run (inputs : list Input) : holds Inv T (run inputs) (fun _ => True).
Proof.
  induction inputs as [|i rest IH]; simpl.
  - apply holds_ret. exact Logic.I.
  - eapply holds_seq; [apply logic_step_input | exact IH].
Qed.

End Logic.

(** ** Stored sessions stay well formed *)

Lemma starFilterAt_in_range (i : Z) :
  0 <= i < Z.of_nat (List.length STAR_FILTERS) ->
  exists f, starFilterAt i = Some f.
Proof.
  intros H. simpl in H.
  assert (i = 0 \/ i = 1 \/ i = 2 \/ i = 3 \/ i = 4) as [->|[->|[->|[->| ->]]]]
    by lia; eexists; reflexivity.
Qed.

Lemma starFilterAt_some (i : Z) (f : StarFilter) :
  starFilterAt i = Some f -> 0 <= i < Z.of_nat (List.length STAR_FILTERS).
Proof.
  unfold starFilterAt.
  destruct ((0 <=? i) && (i <? Z.of_nat (List.length STAR_FILTERS))) eqn:E;
    [|discriminate].
  intros _. apply andb_true_iff in E as [H1 H2].
  apply Z.leb_le in H1. apply Z.ltb_lt in H2. lia.
Qed.

Lemma wellFormed_append (s : ScrapeSession) (pageNum : jsnum) (w : World) :
  wellFormed s ->
  wellFormed
    (set_reviews
       (reviews s ++ value (extractReviews (starFilterAt (currentStarIndex s))
                                           pageNum w)) s).
Proof.
  intros [Hidx Hrs]. split; [exact Hidx|]. simpl.
  apply Forall_app. split; [exact Hrs|].
  destruct (starFilterAt_in_range _ Hidx) as [f Hf].
  destruct (extractReviews_in_card_order (starFilterAt (currentStarIndex s)) pageNum w)
    as (_ & _ & H).
  eapply Forall_impl; [|exact H].
  intros r (Hl & Hp & _). split.
  - exists f. rewrite Hl, Hf. reflexivity.
  - exists pageNum. exact Hp.
Qed.





(** ** A tick never drops a record *)

Lemma value_tuple {A} (a : A) (w : World) (t : list Event) : value (a, w, t) = a.
Proof. reflexivity. Qed.

Lemma world_tuple {A} (a : A) (w : World) (t : list Event) : world (a, w, t) = w.
Proof. reflexivity. Qed.

Lemma extends_refl (s : ScrapeSession) : extends s s.
Proof. exists []. rewrite app_nil_r. reflexivity. Qed.

Lemma extractAndSave_value_shape (f : option StarFilter) (s : ScrapeSession)
    (w : World) :
  extends s (value (extractAndSave f s w)) /\
  currentStarIndex (value (extractAndSave f s w)) = currentStarIndex s.
Proof.
  destruct (value (extractReviews f (value (getCurrentPageNumber w)) w))
    as [|r rest] eqn:E.
  - destruct (extractAndSave_none f s w E) as (-> & _).
    split; [apply extends_refl | reflexivity].
  - assert (Hne : value (extractReviews f (value (getCurrentPageNumber w)) w) <> [])
      by (rewrite E; discriminate).
    destruct (extractAndSave_found f s w Hne) as (-> & _).
    split; [eexists; reflexivity | reflexivity].
Qed.

Lemma paginate_value_shape (env : Env) (f : option StarFilter) (s : ScrapeSession)
    (w : World) :
  reviews (value (paginate env f s w)) = reviews s /\
  (currentStarIndex (value (paginate env f s w)) = currentStarIndex s \/
   currentStarIndex (value (paginate env f s w)) = currentStarIndex s + 1).
Proof.
  destruct (value (hasNextPage w)) eqn:Hn.
  - rewrite (paginate_advance env f s w Hn).
    destruct (num_eqb _ _).
    + destruct (switchToNextFilter_value env s (afterAdvance env w)) as (H1 & _ & H3).
      rewrite value_tuple. auto.
    + rewrite value_tuple. auto.
  - rewrite (paginate_end env f s w Hn).
    destruct (switchToNextFilter_value env s w) as (H1 & _ & H3).
    rewrite value_tuple. auto.
Qed.

(** Every session [scrapeCurrentPage] writes to a storage tier, and the
    session object it ends with, starts with the records of the session it
    was given, in the same order: records are only ever appended.  The
    filter index of the session it ends with is the one it was given or the
    next one. *)
Theorem scrape_only_appends_records :
  forall env s w,
    let r := scrapeCurrentPage env s w in
    Forall (writesSatisfy (extends s)) (trace r) /\
    extends s (value r) /\
    (currentStarIndex (value r) = currentStarIndex s \/
     currentStarIndex (value r) = currentStarIndex s + 1).
Proof.
  intros env s w r. subst r. split.
  - assert (H : holds (fun _ => True) (writesSatisfy (extends s))
                      (scrapeCurrentPage env s) (fun _ => True)).
    { apply (logic_scrapeCurrentPage (fun _ => True) (writesSatisfy (extends s))
               (extends s)); try (intros; exact Logic.I); try (intros; assumption).
      - intros e H1 H2. destruct e; try exact Logic.I; discriminate.
      - intros e H1. destruct e; try exact Logic.I; discriminate.
      - intros s0 pageNum w0 [extra H]. eexists. simpl. rewrite H, <- app_assoc.
        reflexivity.
      - apply extends_refl. }
    destruct (H w Logic.I) as (_ & Ht & _). exact Ht.
  - destruct (value (validateFilter env (starFilterAt (currentStarIndex s)) w))
      eqn:Hv.
    + rewrite (scrapeCurrentPage_returns env s w Hv), value_tuple.
      split; [apply extends_refl | auto].
    + rewrite (scrapeCurrentPage_continues env s w Hv), value_tuple.
      destruct (extractAndSave_value_shape (starFilterAt (currentStarIndex s)) s w)
        as ([extra He] & Hi).
      destruct (paginate_value_shape env (starFilterAt (currentStarIndex s))
                  (value (extractAndSave (starFilterAt (currentStarIndex s)) s w))
                  (world (extractAndSave (starFilterAt (currentStarIndex s)) s w)))
        as (Hr & Hidx).
      split.
      * exists extra. rewrite Hr. exact He.
      * rewrite Hi in Hidx. exact Hidx.
Qed.

(** ** The paths of a tick *)

Lemma set_isProcessing_same (b : bool) (w : World) :
  isProcessing w = b -> set_isProcessing b w = w.
Proof. destruct w. simpl. intros ->. reflexivity. Qed.

Lemma getOrCreateSession_flag (b : bool) (w : World) :
  getOrCreateSession (set_isProcessing b w) =
  (value (getOrCreateSession w), set_isProcessing b w, trace (getOrCreateSession w)).
Proof.
  unfold getOrCreateSession, loadSessionFromLocalStorage. mcompute.
  destruct (localStore w); mcompute; [reflexivity|].
  destruct (amazon_scraper_session (chromeStore w)); mcompute; [reflexivity|].
  destruct (isScanning (chromeStore w)) as [[|]|]; reflexivity.
Qed.

Lemma checkProductPageRedirect_flag (b : bool) (w : World) :
  checkProductPageRedirect (set_isProcessing b w) =
  (value (checkProductPageRedirect w), set_isProcessing b w,
   trace (checkProductPageRedirect w)).
Proof.
  unfold checkProductPageRedirect. mcompute.
  destruct (_ && _); mcompute; [|reflexivity].
  destruct (seeAllReviewsLink (page w)); reflexivity.
Qed.

Lemma mainController_busy (env : Env) (w : World) :
  isProcessing w = true -> mainController env w = (tt, w, []).
Proof. intros H. unfold mainController. mstep. rewrite H. reflexivity. Qed.

Lemma mainController_not_ready (env : Env) (w : World) :
  isProcessing w = false -> pageReady (page w) = false ->
  mainController env w = (tt, w, []).
Proof.
  intros Hp Hr. unfold mainController. mstep.
  rewrite Hp, pageReady_guard, Hr. reflexivity.
Qed.

Lemma mainController_challenge (env : Env) (w : World) :
  isProcessing w = false -> pageReady (page w) = true ->
  value (detectCaptcha w) = true ->
  mainController env w = (tt, w, [ELog LError MsgCaptcha; EAlert AlertCaptcha]).
Proof.
  intros Hp Hr Hc. unfold mainController. mstep.
  rewrite Hp, pageReady_guard, Hr. cbn [negb].
  mstep. rewrite (pure_eq _ w pure_detectCaptcha), Hc. reflexivity.
Qed.

(** The steps of a tick up to the loading of the session. *)
Ltac enter_tick w Hp Hr Hc :=
  unfold mainController; mstep;
  rewrite Hp, pageReady_guard, Hr; cbn [negb];
  mstep; rewrite (pure_eq _ w pure_detectCaptcha), Hc; msimpl;
  mstep; mstep; rewrite getOrCreateSession_flag; msimpl.

Lemma mainController_inactive (env : Env) (w : World) :
  isProcessing w = false -> pageReady (page w) = true ->
  value (detectCaptcha w) = false ->
  isActive (value (getOrCreateSession w)) = false ->
  mainController env w = (tt, w, trace (getOrCreateSession w)).
Proof.
  intros Hp Hr Hc Ha. enter_tick w Hp Hr Hc. rewrite Ha.
  cbn [negb]. msimpl.
  rewrite !app_nil_r. f_equal. f_equal.
  destruct w; simpl in *; subst; reflexivity.
Qed.

Lemma mainController_redirects (env : Env) (w : World) :
  isProcessing w = false -> pageReady (page w) = true ->
  value (detectCaptcha w) = false ->
  isActive (value (getOrCreateSession w)) = true ->
  value (checkProductPageRedirect w) = true ->
  mainController env w =
  (tt, w, trace (getOrCreateSession w) ++ trace (checkProductPageRedirect w)).
Proof.
  intros Hp Hr Hc Ha Hd. enter_tick w Hp Hr Hc. rewrite Ha.
  cbn [negb]. mstep. rewrite checkProductPageRedirect_flag. msimpl. rewrite Hd.
  msimpl. rewrite !app_nil_r. f_equal. f_equal.
  destruct w; simpl in *; subst; reflexivity.
Qed.

Lemma mainController_same_url (env : Env) (w : World) :
  isProcessing w = false -> pageReady (page w) = true ->
  value (detectCaptcha w) = false ->
  isActive (value (getOrCreateSession w)) = true ->
  value (checkProductPageRedirect w) = false ->
  str_eqb (href (location (page w))) (lastProcessedUrl w) = true ->
  mainController env w =
  (tt, w, trace (getOrCreateSession w) ++ trace (checkProductPageRedirect w)).
Proof.
  intros Hp Hr Hc Ha Hd Hu. enter_tick w Hp Hr Hc. rewrite Ha.
  cbn [negb]. mstep. rewrite checkProductPageRedirect_flag. msimpl. rewrite Hd.
  msimpl.
  change (page (set_isProcessing true w)) with (page w).
  change (lastProcessedUrl (set_isProcessing true w)) with (lastProcessedUrl w).
  rewrite Hu. msimpl. rewrite !app_nil_r. f_equal. f_equal.
  destruct w; simpl in *; subst; reflexivity.
Qed.

Lemma getOrCreateSession_logs (w : World) :
  Forall (fun e => exists level msg, e = ELog level msg)
         (trace (getOrCreateSession w)).
Proof.
  unfold getOrCreateSession, loadSessionFromLocalStorage. mcompute.
  destruct (localStore w); mcompute; [repeat constructor; eauto|].
  destruct (amazon_scraper_session (chromeStore w)); mcompute;
    [repeat constructor; eauto|].
  destruct (isScanning (chromeStore w)) as [[|]|]; repeat constructor; eauto.
Qed.

(** ** What a tick navigates *)

Lemma navigations_app (a b : list Event) :
  navigations (a ++ b) = navigations a ++ navigations b.
Proof. apply filter_app. Qed.

Lemma navigations_none (t : list Event) :
  Forall (fun e => isNavigation e = false) t -> navigations t = [].
Proof.
  induction 1 as [|e t He _ IH]; [reflexivity|].
  unfold navigations in *. simpl. rewrite He. exact IH.
Qed.

Lemma navigations_logs (t : list Event) :
  Forall (fun e => exists level msg, e = ELog level msg) t -> navigations t = [].
Proof.
  intros H. apply navigations_none. eapply Forall_impl; [|exact H].
  intros e (level & msg & ->). reflexivity.
Qed.

Lemma navigations_saveSession (s : ScrapeSession) (w : World) :
  navigations (trace (saveSession s w)) = [].
Proof.
  unfold saveSession. mcompute.
  destruct (sessionFitsLocal w), (sessionFitsChrome w); reflexivity.
Qed.

Lemma navigations_waitForPageLoad (w : World) :
  navigations (trace (waitForPageLoad w)) = [].
Proof. rewrite waitForPageLoad_eq. destruct (reviewCards (page w)); reflexivity. Qed.

Lemma navigations_clickStarFilter (env : Env) (f : option StarFilter) (w : World) :
  (value (clickStarFilter env f w) = true /\
   exists via, navigations (trace (clickStarFilter env f w)) = [EClickFilter via f]) \/
  (value (clickStarFilter env f w) = false /\
   navigations (trace (clickStarFilter env f w)) = []).
Proof.
  destruct (value (clickStarFilter env f w)) eqn:E.
  - left. split; [reflexivity|].
    destruct (clickStarFilter_true env f w E) as [via ->]. exists via.
    destruct via; reflexivity.
  - right. split; [reflexivity|].
    rewrite (clickStarFilter_false env f w E). reflexivity.
Qed.

Lemma navigations_extractAndSave (s : ScrapeSession) (w : World) :
  navigations (trace (extractAndSave (starFilterAt (currentStarIndex s)) s w)) = [].
Proof.
  apply navigations_none.
  assert (H : holds (fun _ => True) (fun e => isNavigation e = false)
                    (extractAndSave (starFilterAt (currentStarIndex s)) s)
                    (fun _ => True)).
  { apply (logic_extractAndSave (fun _ => True) (fun e => isNavigation e = false)
             (fun _ => True)); try (intros; exact Logic.I); try reflexivity.
    intros e H _. exact H. }
  destruct (H w Logic.I) as (_ & Ht & _). exact Ht.
Qed.

Lemma navigations_validateFilter (env : Env) (f : option StarFilter) (w : World) :
  (value (validateFilter env f w) = true /\
   exists via, navigations (trace (validateFilter env f w)) = [EClickFilter via f]) \/
  (value (validateFilter env f w) = false /\
   navigations (trace (validateFilter env f w)) = []).
Proof.
  destruct (value (validateFilter env f w)) eqn:E.
  - left. split; [reflexivity|].
    destruct (sameFilter (value (getCurrentStarFilter w)) f) eqn:Hs.
    { rewrite (validateFilter_same env f w Hs) in E. discriminate. }
    destruct (value (getCurrentStarFilter w)) as [shown|] eqn:Hc.
    { rewrite (validateFilter_other env f w shown Hc Hs) in E. discriminate. }
    destruct (value (clickStarFilter env f w)) eqn:Hclick.
    + destruct (validateFilter_unfiltered_clicked env f w Hc Hclick) as [via ->].
      exists via. rewrite trace_tuple, !navigations_app, navigations_waitForPageLoad.
      destruct via; reflexivity.
    + rewrite (validateFilter_unfiltered_failed env f w Hc Hclick) in E.
      discriminate.
  - right. split; [reflexivity|].
    apply navigations_logs. apply (validateFilter_false env f w E).
Qed.

Lemma navigations_switchToNextFilter (env : Env) (s : ScrapeSession) (w : World) :
  filterClickOrNone (navigations (trace (switchToNextFilter env s w))).
Proof.
  destruct (Z_lt_le_dec (currentStarIndex s + 1) (Z.of_nat (List.length STAR_FILTERS)))
    as [H|H].
  - rewrite (switchToNextFilter_next env s w H).
    match goal with
    | |- context [clickStarFilter env ?f ?w2] =>
        destruct (navigations_clickStarFilter env f w2) as [[Hv [via Hn]]|[Hv Hn]];
        rewrite Hv, trace_tuple
    end.
    + right. exists via. eexists.
      change (ELog LInfo ?m :: ?a ++ ?b) with ([ELog LInfo m] ++ a ++ b).
      rewrite !navigations_app, navigations_saveSession, Hn,
        navigations_waitForPageLoad. reflexivity.
    + left.
      change (ELog LInfo ?m :: ?a ++ ?b) with ([ELog LInfo m] ++ a ++ b).
      rewrite !navigations_app, !navigations_saveSession, Hn. reflexivity.
  - left. rewrite (switchToNextFilter_complete env s w H), trace_tuple.
    rewrite !navigations_app. destruct (reviews s); reflexivity.
Qed.

Lemma navigations_paginate (env : Env) (f : option StarFilter) (s : ScrapeSession)
    (w : World) :
  let n := navigations (trace (paginate env f s w)) in
  filterClickOrNone n \/ n = [EClickNext] \/
  exists via f', n = [EClickNext; EClickFilter via f'].
Proof.
  intros n. subst n. destruct (value (hasNextPage w)) eqn:Hn.
  - rewrite (paginate_advance env f s w Hn). right.
    destruct (num_eqb _ _); rewrite trace_tuple.
    + change (advanceEvents ?t ++ ?e :: ?r) with (advanceEvents t ++ [e] ++ r).
      rewrite !navigations_app.
      destruct (navigations_switchToNextFilter env s (afterAdvance env w))
        as [->|(via & f' & ->)].
      * left. reflexivity.
      * right. exists via, f'. reflexivity.
    + left. rewrite navigations_app. reflexivity.
  - rewrite (paginate_end env f s w Hn), trace_tuple. left.
    change (ELog LSuccess ?m :: ?r) with ([ELog LSuccess m] ++ r).
    rewrite navigations_app. apply navigations_switchToNextFilter.
Qed.

Lemma navigations_scrapeCurrentPage (env : Env) (s : ScrapeSession) (w : World) :
  tickNavigations (navigations (trace (scrapeCurrentPage env s w))).
Proof.
  destruct (navigations_validateFilter env (starFilterAt (currentStarIndex s)) w)
    as [[Hv [via Hn]]|[Hv Hn]].
  - rewrite (scrapeCurrentPage_returns env s w Hv), trace_tuple, Hn.
    right. right. left. eauto.
  - rewrite (scrapeCurrentPage_continues env s w Hv), trace_tuple.
    rewrite !navigations_app, Hn, navigations_extractAndSave. simpl.
    destruct (navigations_paginate env (starFilterAt (currentStarIndex s))
                (value (extractAndSave (starFilterAt (currentStarIndex s)) s w))
                (world (extractAndSave (starFilterAt (currentStarIndex s)) s w)))
      as [[H|H]|[H|H]]; unfold tickNavigations; auto.
Qed.

Lemma checkProductPageRedirect_cases (w : World) :
  (value (checkProductPageRedirect w) = true /\
   onProductPage (page w) = true /\
   exists target, seeAllReviewsLink (page w) = Some target /\
     navigations (trace (checkProductPageRedirect w)) = [ERedirect target]) \/
  (value (checkProductPageRedirect w) = false /\
   (onProductPage (page w) = false \/ seeAllReviewsLink (page w) = None) /\
   navigations (trace (checkProductPageRedirect w)) = []).
Proof.
  unfold checkProductPageRedirect, onProductPage. mcompute.
  destruct (_ && _); mcompute.
  - destruct (seeAllReviewsLink (page w)) as [target|]; mcompute.
    + left. repeat split. exists target. split; reflexivity.
    + right. repeat split. right. reflexivity.
  - right. repeat split. left. reflexivity.
Qed.

(** In one tick the controller navigates in one of five ways: not at all;
    by one redirect from a product page to its listing; by one click on a
    filter control; by one click on the next-page control; or by one click
    on the next-page control followed by one click on a filter control (a
    stalled pager).  It never clicks the same kind of control twice and
    never clicks after a redirect. *)
Theorem tick_navigations :
  forall env w, tickNavigations (navigations (trace (mainController env w))).
Proof.
  intros env w.
  destruct (isProcessing w) eqn:Hp.
  { rewrite (mainController_busy env w Hp). left. reflexivity. }
  destruct (pageReady (page w)) eqn:Hr.
  2:{ rewrite (mainController_not_ready env w Hp Hr). left. reflexivity. }
  destruct (value (detectCaptcha w)) eqn:Hc.
  { rewrite (mainController_challenge env w Hp Hr Hc). left. reflexivity. }
  pose proof (navigations_logs _ (getOrCreateSession_logs w)) as Hg.
  destruct (isActive (value (getOrCreateSession w))) eqn:Ha.
  2:{ rewrite (mainController_inactive env w Hp Hr Hc Ha), trace_tuple, Hg.
      left. reflexivity. }
  destruct (checkProductPageRedirect_cases w)
    as [(Hd & _ & target & _ & Hn)|(Hd & _ & Hn)].
  { rewrite (mainController_redirects env w Hp Hr Hc Ha Hd), trace_tuple.
    rewrite navigations_app, Hg, Hn. right. left. exists target. reflexivity. }
  destruct (str_eqb (href (location (page w))) (lastProcessedUrl w)) eqn:Hu.
  { rewrite (mainController_same_url env w Hp Hr Hc Ha Hd Hu), trace_tuple.
    rewrite navigations_app, Hg, Hn. left. reflexivity. }
  rewrite (mainController_scrapes env w Hp Hr Hc Ha Hd Hu), trace_tuple.
  change (?a ++ ?b ++ ?e :: ?r) with (a ++ b ++ [e] ++ r).
  rewrite !navigations_app, Hg, Hn. simpl.
  apply navigations_scrapeCurrentPage.
Qed.

(** ** The guards of a tick *)

Lemma scrapeCurrentPage_keeps_url (env : Env) (s : ScrapeSession) (w : World) :
  lastProcessedUrl (world (scrapeCurrentPage env s w)) = lastProcessedUrl w.
Proof.
  assert (H : holds (fun w' => lastProcessedUrl w' = lastProcessedUrl w)
                    (fun _ => True) (scrapeCurrentPage env s) (fun _ => True)).
  { apply (logic_scrapeCurrentPage
             (fun w' => lastProcessedUrl w' = lastProcessedUrl w)
             (fun _ => True) (fun _ => True));
      try (intros; exact Logic.I); intros; assumption. }
  destruct (H w eq_refl) as (Hw & _). exact Hw.
Qed.

Lemma forallb_notice_logs (t : list Event) :
  Forall (fun e => exists level msg, e = ELog level msg) t ->
  forallb isNotice t = true.
Proof.
  induction 1 as [|e t (level & msg & ->) _ IH]; [reflexivity|exact IH].
Qed.

(** The re-entrancy flag after a tick is what it was before: a tick that
    finds it up returns at once, and a tick that raises it lowers it again on
    every path, the early returns included. *)
Theorem tick_restores_the_flag :
  forall env w, isProcessing (world (mainController env w)) = isProcessing w.
Proof.
  intros env w.
  destruct (isProcessing w) eqn:Hp.
  { rewrite (mainController_busy env w Hp). exact Hp. }
  destruct (pageReady (page w)) eqn:Hr.
  2:{ rewrite (mainController_not_ready env w Hp Hr). exact Hp. }
  destruct (value (detectCaptcha w)) eqn:Hc.
  { rewrite (mainController_challenge env w Hp Hr Hc). exact Hp. }
  destruct (isActive (value (getOrCreateSession w))) eqn:Ha.
  2:{ rewrite (mainController_inactive env w Hp Hr Hc Ha). exact Hp. }
  destruct (value (checkProductPageRedirect w)) eqn:Hd.
  { rewrite (mainController_redirects env w Hp Hr Hc Ha Hd). exact Hp. }
  destruct (str_eqb (href (location (page w))) (lastProcessedUrl w)) eqn:Hu.
  { rewrite (mainController_same_url env w Hp Hr Hc Ha Hd Hu). exact Hp. }
  rewrite (mainController_scrapes env w Hp Hr Hc Ha Hd Hu). reflexivity.
Qed.

Lemma checkProductPageRedirect_false_logs (w : World) :
  value (checkProductPageRedirect w) = false ->
  Forall (fun e => exists level msg, e = ELog level msg)
         (trace (checkProductPageRedirect w)).
Proof.
  unfold checkProductPageRedirect. mcompute.
  destruct (_ && _); mcompute; [|constructor].
  destruct (seeAllReviewsLink (page w)); mcompute; [discriminate|].
  intros _. repeat constructor. eauto.
Qed.

(** A tick that would reach the comparison of addresses only to find them
    equal changes nothing. *)
Lemma mainController_skips (env : Env) (w : World) :
  value (checkProductPageRedirect w) = false ->
  (isProcessing w = false ->
   pageReady (page w) = true ->
   value (detectCaptcha w) = false ->
   isActive (value (getOrCreateSession w)) = true ->
   str_eqb (href (location (page w))) (lastProcessedUrl w) = true) ->
  world (mainController env w) = w /\
  forallb isNotice (trace (mainController env w)) = true.
Proof.
  intros Hd Hurl.
  pose proof (forallb_notice_logs _ (getOrCreateSession_logs w)) as Hg.
  destruct (isProcessing w) eqn:Hp.
  { rewrite (mainController_busy env w Hp). split; reflexivity. }
  destruct (pageReady (page w)) eqn:Hr.
  2:{ rewrite (mainController_not_ready env w Hp Hr). split; reflexivity. }
  destruct (value (detectCaptcha w)) eqn:Hc.
  { rewrite (mainController_challenge env w Hp Hr Hc). split; reflexivity. }
  destruct (isActive (value (getOrCreateSession w))) eqn:Ha.
  2:{ rewrite (mainController_inactive env w Hp Hr Hc Ha).
      split; [reflexivity|exact Hg]. }
  rewrite (mainController_same_url env w Hp Hr Hc Ha Hd
             (Hurl eq_refl eq_refl eq_refl eq_refl)).
  split; [reflexivity|].
  rewrite trace_tuple, forallb_app, Hg. simpl.
  apply forallb_notice_logs, checkProductPageRedirect_false_logs, Hd.
Qed.

(** A tick that finds the address it started on still in the address bar
    leaves nothing for the next tick: unless the page is a product page
    that redirects, the next tick changes nothing in the browser and only
    logs or alerts.  So an address is processed once, however many ticks
    find it. *)
Theorem address_is_processed_once :
  forall env env' w,
    href (location (page (world (mainController env w))))
    = href (location (page w)) ->
    value (checkProductPageRedirect (world (mainController env w))) = false ->
    world (mainController env' (world (mainController env w)))
    = world (mainController env w) /\
    forallb isNotice (trace (mainController env' (world (mainController env w))))
    = true.
Proof.
  intros env env' w Hsame Hred.
  apply mainController_skips; [exact Hred|].
  revert Hsame Hred.
  destruct (isProcessing w) eqn:Hp.
  { rewrite (mainController_busy env w Hp), world_tuple. congruence. }
  destruct (pageReady (page w)) eqn:Hr.
  2:{ rewrite (mainController_not_ready env w Hp Hr), world_tuple. congruence. }
  destruct (value (detectCaptcha w)) eqn:Hc.
  { rewrite (mainController_challenge env w Hp Hr Hc), world_tuple. congruence. }
  destruct (isActive (value (getOrCreateSession w))) eqn:Ha.
  2:{ rewrite (mainController_inactive env w Hp Hr Hc Ha), world_tuple.
      congruence. }
  destruct (value (checkProductPageRedirect w)) eqn:Hd.
  { rewrite (mainController_redirects env w Hp Hr Hc Ha Hd), world_tuple.
    congruence. }
  destruct (str_eqb (href (location (page w))) (lastProcessedUrl w)) eqn:Hu.
  { rewrite (mainController_same_url env w Hp Hr Hc Ha Hd Hu), world_tuple.
    intros; exact Hu. }
  rewrite (mainController_scrapes env w Hp Hr Hc Ha Hd Hu), world_tuple.
  intros Hsame _ _ _ _ _.
  change (href (location (page (world (scrapeCurrentPage env
            (set_lastUrl (href (location (page w))) (value (getOrCreateSession w)))
            (processing w))))) = href (location (page w))) in Hsame.
  change (str_eqb
            (href (location (page (world (scrapeCurrentPage env
               (set_lastUrl (href (location (page w)))
                            (value (getOrCreateSession w)))
               (processing w))))))
            (lastProcessedUrl (world (scrapeCurrentPage env
               (set_lastUrl (href (location (page w)))
                            (value (getOrCreateSession w)))
               (processing w)))) = true).
  rewrite Hsame, scrapeCurrentPage_keeps_url. apply str_eqb_refl.
Qed.

Lemma address_is_processed_once_witness :
  href (location (page (world (mainController (exampleEnv oneStarPage2 oneStarPage1)
                                 (browserWith lastPageNoControls (sessionAt 0 1))))))
  = href (location (page (browserWith lastPageNoControls (sessionAt 0 1)))) /\
  world (mainController (exampleEnv oneStarPage2 oneStarPage1)
           (world (mainController (exampleEnv oneStarPage2 oneStarPage1)
                     (browserWith lastPageNoControls (sessionAt 0 1)))))
  = world (mainController (exampleEnv oneStarPage2 oneStarPage1)
             (browserWith lastPageNoControls (sessionAt 0 1))).
Proof.
  assert (H1 : href (location (page (world (mainController
                  (exampleEnv oneStarPage2 oneStarPage1)
                  (browserWith lastPageNoControls (sessionAt 0 1))))))
               = href (location (page (browserWith lastPageNoControls
                                         (sessionAt 0 1)))))
    by (vm_compute; reflexivity).
  assert (H2 : value (checkProductPageRedirect (world (mainController
                  (exampleEnv oneStarPage2 oneStarPage1)
                  (browserWith lastPageNoControls (sessionAt 0 1))))) = false)
    by (vm_compute; reflexivity).
  split; [exact H1|].
  exact (proj1 (address_is_processed_once
                  (exampleEnv oneStarPage2 oneStarPage1)
                  (exampleEnv oneStarPage2 oneStarPage1)
                  (browserWith lastPageNoControls (sessionAt 0 1)) H1 H2)).
Defined.

Lemma tick_of_quiet_controller (env : Env) (w : World) (t : list Event) :
  mainController env w = (tt, w, t) ->
  Forall (fun e => forall m, e <> ESend m) t ->
  tick env w = (tt, w, t).
Proof.
  intros E Hq. unfold tick. rewrite E.
  assert (Hd : forall w0, deliver t w0 = (tt, w0, [])).
  { clear E. induction Hq as [|e t He _ IH]; intros w0; [reflexivity|].
    destruct e; try apply IH. exfalso. exact (He _ eq_refl). }
  rewrite Hd, app_nil_r. reflexivity.
Qed.

(** A challenge stops a tick before the session is read: nothing is
    extracted, stored or clicked, and the browser is as it was.  The
    challenge is reported, by a log line and an alert, only when the page
    also shows review cards or the no-reviews section; on a page with
    neither the tick is silent. *)
Theorem challenge_stops_the_tick :
  forall env w,
    isProcessing w = false ->
    value (detectCaptcha w) = true ->
    tick env w =
    (tt, w, if pageReady (page w)
            then [ELog LError MsgCaptcha; EAlert AlertCaptcha]
            else []).
Proof.
  intros env w Hp Hc.
  destruct (pageReady (page w)) eqn:Hr.
  - apply tick_of_quiet_controller.
    + exact (mainController_challenge env w Hp Hr Hc).
    + repeat constructor; discriminate.
  - apply tick_of_quiet_controller.
    + exact (mainController_not_ready env w Hp Hr).
    + constructor.
Qed.

Lemma challenge_stops_the_tick_witness :
  tick (exampleEnv oneStarPage2 oneStarPage1)
       (browserWith challengePage (sessionAt 0 1))
  = (tt, browserWith challengePage (sessionAt 0 1),
     [ELog LError MsgCaptcha; EAlert AlertCaptcha]).
Proof.
  assert (Hp : isProcessing (browserWith challengePage (sessionAt 0 1)) = false)
    by reflexivity.
  assert (Hc : value (detectCaptcha (browserWith challengePage (sessionAt 0 1)))
               = true) by (vm_compute; reflexivity).
  exact (challenge_stops_the_tick (exampleEnv oneStarPage2 oneStarPage1)
           (browserWith challengePage (sessionAt 0 1)) Hp Hc).
Defined.

(** ** The redirect from a product page *)

Lemma count_navigations (t : list Event) :
  count isNavigation t = List.length (navigations t).
Proof. reflexivity. Qed.

Lemma getOrCreateSession_no_write (w : World) :
  count isSessionWrite (trace (getOrCreateSession w)) = 0%nat.
Proof.
  apply count_logs; [reflexivity|]. apply getOrCreateSession_logs.
Qed.

(** On a product page (the path holds /dp/ and not /product-reviews/) that
    shows the link to all reviews, a tick of an active session sends the
    browser to the address of that link and does nothing else: no record is
    extracted or stored, no control is clicked, and the browser state of
    the script, the processed address included, is as it was.  The check
    comes before the comparison of addresses, which is therefore not
    consulted.  On a product page without the link the check answers false
    after one log line. *)
Theorem product_page_redirects :
  forall env w target,
    isProcessing w = false ->
    pageReady (page w) = true ->
    value (detectCaptcha w) = false ->
    isActive (value (getOrCreateSession w)) = true ->
    onProductPage (page w) = true ->
    seeAllReviewsLink (page w) = Some target ->
    world (mainController env w) = w /\
    navigations (trace (mainController env w)) = [ERedirect target] /\
    count isSessionWrite (trace (mainController env w)) = 0%nat /\
    forall w', onProductPage (page w') = true ->
               seeAllReviewsLink (page w') = None ->
               checkProductPageRedirect w' = (false, w', [ELog LInfo MsgOnProductPage]).
Proof.
  intros env w target Hp Hr Hc Ha Hprod Hlink.
  assert (Hd : checkProductPageRedirect w =
               (true, w, [ELog LInfo MsgOnProductPage;
                          ELog LSuccess MsgRedirecting; ERedirect target])).
  { unfold checkProductPageRedirect. mcompute.
    unfold onProductPage in Hprod. rewrite Hprod, Hlink. reflexivity. }
  assert (Hv : value (checkProductPageRedirect w) = true) by (rewrite Hd; reflexivity).
  rewrite (mainController_redirects env w Hp Hr Hc Ha Hv), world_tuple, trace_tuple.
  split; [reflexivity|]. split; [|split].
  - rewrite navigations_app, (navigations_logs _ (getOrCreateSession_logs w)), Hd.
    reflexivity.
  - rewrite count_app, getOrCreateSession_no_write, Hd. reflexivity.
  - intros w' Hprod' Hlink'. unfold checkProductPageRedirect. mcompute.
    unfold onProductPage in Hprod'. rewrite Hprod', Hlink'. reflexivity.
Qed.

Lemma product_page_redirects_witness :
  navigations (trace (mainController (exampleEnv oneStarPage2 oneStarPage1)
                        (browserWith productPage (sessionAt 0 1))))
  = [ERedirect (exampleHref [])].
Proof.
  assert (Hr : pageReady (page (browserWith productPage (sessionAt 0 1))) = true)
    by reflexivity.
  assert (Hc : value (detectCaptcha (browserWith productPage (sessionAt 0 1)))
               = false) by (vm_compute; reflexivity).
  assert (Ha : isActive (value (getOrCreateSession
                                  (browserWith productPage (sessionAt 0 1)))) = true)
    by reflexivity.
  assert (Hprod : onProductPage (page (browserWith productPage (sessionAt 0 1)))
                  = true) by (vm_compute; reflexivity).
  exact (proj1 (proj2 (product_page_redirects
                         (exampleEnv oneStarPage2 oneStarPage1)
                         (browserWith productPage (sessionAt 0 1))
                         (exampleHref []) eq_refl Hr Hc Ha Hprod eq_refl))).
Defined.

(** ** A stored session that is not active *)

Lemma logs_no_send (t : list Event) :
  Forall (fun e => exists level msg, e = ELog level msg) t ->
  Forall (fun e => forall m, e <> ESend m) t.
Proof.
  intros H. eapply Forall_impl; [|exact H].
  intros e (level & msg & ->) m. discriminate.
Qed.

Lemma tick_inactive_local (env : Env) (w : World) (s : ScrapeSession) :
  localStore w = Some s -> isActive s = false ->
  world (tick env w) = w /\
  navigations (trace (tick env w)) = [] /\
  count isSessionWrite (trace (tick env w)) = 0%nat.
Proof.
  intros Hl Hs.
  destruct (isProcessing w) eqn:Hp.
  { rewrite (tick_of_quiet_controller env w [] (mainController_busy env w Hp));
      [repeat split|constructor]. }
  destruct (pageReady (page w)) eqn:Hr.
  2:{ rewrite (tick_of_quiet_controller env w []
                 (mainController_not_ready env w Hp Hr));
        [repeat split|constructor]. }
  destruct (value (detectCaptcha w)) eqn:Hc.
  { rewrite (tick_of_quiet_controller env w _
               (mainController_challenge env w Hp Hr Hc));
      [repeat split|repeat constructor; discriminate]. }
  assert (Ha : isActive (value (getOrCreateSession w)) = false).
  { rewrite (getOrCreateSession_local w s Hl), value_tuple. exact Hs. }
  rewrite (tick_of_quiet_controller env w _
             (mainController_inactive env w Hp Hr Hc Ha)).
  - rewrite world_tuple, trace_tuple. split; [reflexivity|]. split.
    + apply navigations_logs, getOrCreateSession_logs.
    + apply getOrCreateSession_no_write.
  - apply logs_no_send, getOrCreateSession_logs.
Qed.

Lemma step_inactive_local (i : Input) (w : World) (s : ScrapeSession) :
  localStore w = Some s -> isActive s = false ->
  localStore (world (step i w)) = Some s /\
  navigations (trace (step i w)) = [] /\
  count isSessionWrite (trace (step i w)) = 0%nat.
Proof.
  intros Hl Hs. destruct i as [env|p|p|reloaded| |d].
  - destruct (tick_inactive_local env w s Hl Hs) as (Hw & Hn & Hc).
    change (step (Tick env) w) with (tick env w). rewrite Hw. auto.
  - repeat split. exact Hl.
  - repeat split. exact Hl.
  - repeat split. exact Hl.
  - repeat split. exact Hl.
  - repeat split. exact Hl.
Qed.

Lemma run_cons (i : Input) (rest : list Input) (w : World) :
  world (run (i :: rest) w) = world (run rest (world (step i w))) /\
  trace (run (i :: rest) w) = trace (step i w) ++ trace (run rest (world (step i w))).
Proof.
  change (run (i :: rest)) with (bind (step i) (fun _ => run rest)).
  unfold bind. destruct (step i w) as [[u w1] t1].
  rewrite world_tuple, trace_tuple.
  destruct (run rest w1) as [[u2 w2] t2]. split; reflexivity.
Qed.

(** A session stored in the fast tier with its active mark down keeps the
    scraper at rest whatever happens next: ticks, page changes, reloads,
    new settings, the stop signal and also the start signal.  The session
    stays in the fast tier as it is, no tick navigates and no tick writes
    or removes a session.  This is the state a failed filter switch leaves
    behind when the fast tier accepts the write. *)
Theorem inactive_stored_session_blocks_restart :
  forall inputs w s,
    localStore w = Some s ->
    isActive s = false ->
    localStore (world (run inputs w)) = Some s /\
    navigations (trace (run inputs w)) = [] /\
    count isSessionWrite (trace (run inputs w)) = 0%nat.
Proof.
  induction inputs as [|i rest IH]; intros w s Hl Hs.
  - repeat split. exact Hl.
  - destruct (run_cons i rest w) as [-> ->].
    destruct (step_inactive_local i w s Hl Hs) as (Hl1 & Hn1 & Hc1).
    destruct (IH _ s Hl1 Hs) as (Hl2 & Hn2 & Hc2).
    rewrite navigations_app, count_app, Hn1, Hn2, Hc1, Hc2. auto.
Qed.

Lemma inactive_stored_session_blocks_restart_witness :
  navigations
    (trace (run [StartSignal oneStarPage1;
                 Tick (exampleEnv oneStarPage2 oneStarPage1);
                 PageChanged oneStarPage2;
                 Tick (exampleEnv oneStarPage2 oneStarPage1)]
              (browser oneStarPage1 (Some (set_isActive false (sessionAt 0 1)))
                       emptyChrome 2000)))
  = [].
Proof.
  exact (proj1 (proj2 (inactive_stored_session_blocks_restart
           [StartSignal oneStarPage1;
            Tick (exampleEnv oneStarPage2 oneStarPage1);
            PageChanged oneStarPage2;
            Tick (exampleEnv oneStarPage2 oneStarPage1)]
           (browser oneStarPage1 (Some (set_isActive false (sessionAt 0 1)))
                    emptyChrome 2000)
           (set_isActive false (sessionAt 0 1)) eq_refl eq_refl))).
Defined.

(** ** What the popup can read after a page was scraped *)

Lemma extractAndSave_found_eq (f : option StarFilter) (s : ScrapeSession) (w : World) :
  let pageNum := value (getCurrentPageNumber w) in
  let found := value (extractReviews f pageNum w) in
  let s1 := set_currentPage pageNum (set_reviews (reviews s ++ found) s) in
  found <> [] ->
  extractAndSave f s w =
  (appended s found pageNum (clock w), world (saveSession s1 w),
   trace (extractReviews f pageNum w) ++ trace (saveSession s1 w)
   ++ [ELog LSuccess (MsgSaved (List.length found) (List.length (reviews s ++ found)));
       ESend (REVIEWS_UPDATE (List.length (reviews s ++ found)) (labelOf f) pageNum)]).
Proof.
  intros pageNum found s1 Hfound. subst s1. unfold extractAndSave.
  rewrite bind_eq.
  rewrite (pure_world _ w pure_getCurrentPageNumber),
          (pure_trace _ w pure_getCurrentPageNumber).
  fold pageNum. rewrite bind_eq, extractReviews_world. fold found.
  destruct found as [|r0 rest] eqn:E; [congruence|].
  rewrite <- E.
  rewrite bind_eq, saveSession_value. msimpl. reflexivity.
Qed.

Lemma saveSession_chrome_failed (s : ScrapeSession) (w : World) :
  sessionFitsChrome w = false ->
  chromeStore (world (saveSession s w)) = chromeStore w.
Proof.
  intros H. unfold saveSession. mcompute. rewrite H.
  destruct (sessionFitsLocal w); reflexivity.
Qed.

(** The popup reads the durable tier only.  After a page that yielded
    records, the content script announces the new total to the popup in any
    case; the export and the status of the service worker show the new
    records exactly when the durable tier accepted the session.  When it
    did, the export is the serialization of the old records followed by the
    new ones and the status total is the announced total; when it did not,
    export and status are what they were before the page, whatever the fast
    tier holds. *)
Theorem popup_reads_the_durable_tier :
  forall f s w,
    let pageNum := value (getCurrentPageNumber w) in
    let found := value (extractReviews f pageNum w) in
    let e := extractAndSave f s w in
    found <> [] ->
    In (ESend (REVIEWS_UPDATE (List.length (reviews s ++ found)) (labelOf f) pageNum))
       (trace e) /\
    (sessionFitsChrome w = true ->
     exportRequest (world e) =
       mkResponse true (Some (serialize (reviews s ++ found))) None /\
     status_total (value (getScrapingStatus (world e)))
     = List.length (reviews s ++ found)) /\
    (sessionFitsChrome w = false ->
     exportRequest (world e) = exportRequest w /\
     value (getScrapingStatus (world e)) = value (getScrapingStatus w)).
Proof.
  intros f s w pageNum found e Hfound. subst e.
  rewrite (extractAndSave_found_eq f s w Hfound). fold pageNum found.
  rewrite world_tuple, trace_tuple.
  set (s1 := set_currentPage pageNum (set_reviews (reviews s ++ found) s)).
  split; [|split].
  - apply in_or_app. right. apply in_or_app. right. right. left. reflexivity.
  - intros Hc. destruct (saveSession_chrome s1 w Hc) as [Hs _].
    assert (Hne : reviews (set_lastUpdated (clock w) s1) <> []).
    { simpl. destruct (reviews s); destruct found; simpl; congruence. }
    split.
    + unfold exportRequest.
      rewrite (handleDownloadCSV_serialize _ _ Hs Hne). reflexivity.
    + unfold getScrapingStatus. mcompute. rewrite Hs. reflexivity.
  - intros Hc. unfold exportRequest, getScrapingStatus. mcompute.
    rewrite (saveSession_chrome_failed s1 w Hc). split; reflexivity.
Qed.

Lemma popup_reads_the_durable_tier_witness :
  status_total
    (value (getScrapingStatus
              (world (extractAndSave (Some one_star) (sessionAt 0 1)
                        (browserWith oneStarPage1 (sessionAt 0 1))))))
  = List.length
      (reviews (sessionAt 0 1)
       ++ value (extractReviews (Some one_star)
                   (value (getCurrentPageNumber
                             (browserWith oneStarPage1 (sessionAt 0 1))))
                   (browserWith oneStarPage1 (sessionAt 0 1)))).
Proof.
  assert (H : value (extractReviews (Some one_star)
                       (value (getCurrentPageNumber
                                 (browserWith oneStarPage1 (sessionAt 0 1))))
                       (browserWith oneStarPage1 (sessionAt 0 1))) <> [])
    by (vm_compute; discriminate).
  exact (proj2 (proj1 (proj2 (popup_reads_the_durable_tier (Some one_star)
                                (sessionAt 0 1)
                                (browserWith oneStarPage1 (sessionAt 0 1)) H))
                      eq_refl)).
Defined.

(** ** A filter switch that finds no control *)

Lemma clickStarFilter_value_page (env : Env) (f : option StarFilter) (w w' : World) :
  page w' = page w ->
  value (clickStarFilter env f w') = value (clickStarFilter env f w).
Proof.
  intros H. unfold clickStarFilter. mcompute. rewrite H.
  destruct (existsb _ (histogramRows (page w))); [reflexivity|].
  destruct (existsb _ (filterLinks (page w))); [reflexivity|].
  destruct (match starDropdown (page w) with Some _ => _ | None => _ end);
    reflexivity.
Qed.

(** When a filter is finished and the page offers no control for the next
    one, the scraper halts without losing anything: the session it returns
    and saves is marked inactive, points at the next filter and holds the
    records gathered so far; the scan flag is lowered, an alert is raised
    and nothing is clicked.  Each tier that accepts the write holds that
    session, so the popup can still export every record from the durable
    tier. *)
Theorem failed_switch_halts_with_records :
  forall env s w,
    currentStarIndex s + 1 < Z.of_nat (List.length STAR_FILTERS) ->
    value (clickStarFilter env (starFilterAt (currentStarIndex s + 1)) w) = false ->
    let r := switchToNextFilter env s w in
    isActive (value r) = false /\
    reviews (value r) = reviews s /\
    currentStarIndex (value r) = currentStarIndex s + 1 /\
    isScanning (chromeStore (world r)) = Some false /\
    navigations (trace r) = [] /\
    In (EAlert (AlertSwitchFailed (labelOf (starFilterAt (currentStarIndex s + 1)))))
       (trace r) /\
    (sessionFitsLocal w = true -> localStore (world r) = Some (value r)) /\
    (sessionFitsChrome w = true ->
     amazon_scraper_session (chromeStore (world r)) = Some (value r) /\
     (reviews s <> [] ->
      exportRequest (world r) =
        mkResponse true (Some (serialize (reviews s))) None)).
Proof.
  intros env s w Hidx Hclick r. subst r.
  rewrite (switchToNextFilter_next env s w Hidx).
  set (f := starFilterAt (currentStarIndex s + 1)) in *.
  set (s1 := set_lastUpdated (clock w) (advanced s)).
  set (w1 := world (saveSession (advanced s) w)).
  set (w2 := set_clock (clock w1 + DELAY_BETWEEN_STARS) w1).
  destruct (saveSession_frame (advanced s) w)
    as (Hpage & _ & Hfl & Hfc & _). fold w1 in Hpage, Hfl, Hfc.
  assert (Hc2 : value (clickStarFilter env f w2) = false).
  { rewrite <- Hclick. apply clickStarFilter_value_page. exact Hpage. }
  rewrite Hc2, value_tuple, world_tuple, trace_tuple.
  set (s2 := set_isActive false s1).
  split; [reflexivity|]. split; [reflexivity|]. split; [reflexivity|].
  split; [reflexivity|]. split; [|split; [|split]].
  - change (ELog LInfo ?m :: ?a ++ ?b) with ([ELog LInfo m] ++ a ++ b).
    rewrite !navigations_app, !navigations_saveSession.
    rewrite (clickStarFilter_false env f w2 Hc2). reflexivity.
  - apply in_or_app. right. apply in_or_app. right. apply in_or_app. right.
    apply in_or_app. right. right. left. reflexivity.
  - intros H. assert (H2 : sessionFitsLocal w2 = true) by (rewrite <- H; exact Hfl).
    destruct (saveSession_local s2 w2 H2) as [Hl _]. exact Hl.
  - intros H. assert (H2 : sessionFitsChrome w2 = true) by (rewrite <- H; exact Hfc).
    destruct (saveSession_chrome s2 w2 H2) as [Hs _].
    split; [exact Hs|]. intros Hne. unfold exportRequest.
    cbn [chromeStore set_chromeStore].
    apply (handleDownloadCSV_serialize _ (set_lastUpdated (clock w2) s2)).
    + cbn [amazon_scraper_session set_isScanning]. exact Hs.
    + exact Hne.
Qed.

Lemma failed_switch_halts_with_records_witness :
  isActive (value (switchToNextFilter (exampleEnv oneStarPage2 oneStarPage1)
                     (sessionAt 0 1)
                     (browserWith lastPageNoControls (sessionAt 0 1)))) = false.
Proof.
  assert (H1 : currentStarIndex (sessionAt 0 1) + 1
               < Z.of_nat (List.length STAR_FILTERS)) by (vm_compute; reflexivity).
  assert (H2 : value (clickStarFilter (exampleEnv oneStarPage2 oneStarPage1)
                        (starFilterAt (currentStarIndex (sessionAt 0 1) + 1))
                        (browserWith lastPageNoControls (sessionAt 0 1))) = false)
    by (vm_compute; reflexivity).
  exact (proj1 (failed_switch_halts_with_records
                  (exampleEnv oneStarPage2 oneStarPage1) (sessionAt 0 1)
                  (browserWith lastPageNoControls (sessionAt 0 1)) H1 H2)).
Defined.

(** ** Saving and loading *)

(** What a tick loads after a save.  When the fast tier accepted the write,
    the session loaded is the one saved, stamped with the time of the save.
    When it refused and held nothing, the durable tier supplies the saved
    session if it accepted the write.  When it refused and held an older
    session, that older session is loaded, although the durable tier may
    hold the newer one: the fast tier is always read first. *)
Theorem load_after_save :
  forall s w,
    let w' := world (saveSession s w) in
    (sessionFitsLocal w = true ->
     value (getOrCreateSession w') = set_lastUpdated (clock w) s) /\
    (sessionFitsLocal w = false -> localStore w = None ->
     sessionFitsChrome w = true ->
     value (getOrCreateSession w') = set_lastUpdated (clock w) s) /\
    (forall old, sessionFitsLocal w = false -> localStore w = Some old ->
     value (getOrCreateSession w') = old /\
     (sessionFitsChrome w = true ->
      amazon_scraper_session (chromeStore w') = Some (set_lastUpdated (clock w) s))).
Proof.
  intros s w w'. subst w'. split; [|split].
  - intros Hl. destruct (saveSession_local s w Hl) as [H _].
    rewrite (getOrCreateSession_local _ _ H). reflexivity.
  - intros Hl Hnone Hc.
    unfold saveSession, getOrCreateSession, loadSessionFromLocalStorage.
    mcompute. rewrite Hl, Hc. mcompute. rewrite Hnone. reflexivity.
  - intros old Hl Hold. split.
    + unfold saveSession, getOrCreateSession, loadSessionFromLocalStorage.
      mcompute. rewrite Hl. destruct (sessionFitsChrome w); mcompute;
        rewrite Hold; reflexivity.
    + intros Hc. destruct (saveSession_chrome s w Hc) as [H _]. exact H.
Qed.

Lemma load_after_save_witness :
  value (getOrCreateSession
           (world (saveSession (sessionAt 1 3)
                     (mkWorld oneStarPage1 (Some (sessionAt 0 1)) emptyChrome 2000
                              false true [] false))))
  = sessionAt 0 1.
Proof.
  exact (proj1 (proj2 (proj2 (load_after_save (sessionAt 1 3)
           (mkWorld oneStarPage1 (Some (sessionAt 0 1)) emptyChrome 2000
                    false true [] false)))
         (sessionAt 0 1) eq_refl eq_refl)).
Defined.

(** ** The start signal *)

(** The start signal raises the scan flag and reloads the page, but it does
    not reset a stored session: the first tick after it resumes from the
    session of the fast tier if there is one, else from the session of the
    durable tier if there is one, and only with both tiers empty does it
    begin a new session, active, without records, at the first filter and
    page 1.  After the signal the re-entrancy flag is down and no address
    counts as processed. *)
Theorem start_resumes_a_stored_session :
  forall reloaded w,
    let w' := world (step (StartSignal reloaded) w) in
    page w' = reloaded /\
    isProcessing w' = false /\
    lastProcessedUrl w' = [] /\
    isScanning (chromeStore w') = Some true /\
    (forall s, localStore w = Some s -> value (getOrCreateSession w') = s) /\
    (forall s, localStore w = None ->
               amazon_scraper_session (chromeStore w) = Some s ->
               value (getOrCreateSession w') = s) /\
    (localStore w = None -> amazon_scraper_session (chromeStore w) = None ->
     value (getOrCreateSession w') =
       mkSession true [] 0 (Int 1) [] (clock w) (clock w) /\
     starFilterAt (currentStarIndex (value (getOrCreateSession w'))) = Some one_star).
Proof.
  intros reloaded w w'. subst w'.
  change (step (StartSignal reloaded) w) with (handleStartScraping reloaded w).
  unfold handleStartScraping, broadcastMessage. mcompute.
  repeat split.
  - intros s Hs. unfold getOrCreateSession, loadSessionFromLocalStorage.
    mcompute. rewrite Hs. reflexivity.
  - intros s Hl Hs. unfold getOrCreateSession, loadSessionFromLocalStorage.
    mcompute. rewrite Hl. mcompute. cbn. rewrite Hs. reflexivity.
  - unfold getOrCreateSession, loadSessionFromLocalStorage.
    mcompute. rewrite H. mcompute. cbn. rewrite H0. reflexivity.
  - unfold getOrCreateSession, loadSessionFromLocalStorage.
    mcompute. rewrite H. mcompute. cbn. rewrite H0. reflexivity.
Qed.

Lemma start_resumes_a_stored_session_witness :
  value (getOrCreateSession
           (world (step (StartSignal oneStarPage1)
                     (browser oneStarPage4 (Some (sessionAt 2 7)) emptyChrome 2000))))
  = sessionAt 2 7.
Proof.
  exact (proj1 (proj2 (proj2 (proj2 (proj2
           (start_resumes_a_stored_session oneStarPage1
              (browser oneStarPage4 (Some (sessionAt 2 7)) emptyChrome 2000))))))
         (sessionAt 2 7) eq_refl).
Defined.

(** Only ticks write sessions: the start signal, the stop signal, new
    settings, a page change and a reload leave the session of either tier
    as it is, and their effects hold no session write or removal. *)
Theorem only_ticks_touch_the_session :
  forall i w,
    (forall env, i <> Tick env) ->
    localStore (world (step i w)) = localStore w /\
    amazon_scraper_session (chromeStore (world (step i w)))
    = amazon_scraper_session (chromeStore w) /\
    count isSessionWrite (trace (step i w)) = 0%nat.
Proof.
  intros i w Hi. destruct i as [env|p|p|reloaded| |d].
  - exfalso. exact (Hi env eq_refl).
  - repeat split.
  - repeat split.
  - repeat split.
  - repeat split.
  - repeat split.
Qed.

Lemma only_ticks_touch_the_session_witness :
  localStore (world (step StopSignal (browserWith oneStarPage2 (sessionAt 0 1))))
  = localStore (browserWith oneStarPage2 (sessionAt 0 1)).
Proof.
  assert (H : forall env, StopSignal <> Tick env) by (intros env; discriminate).
  exact (proj1 (only_ticks_touch_the_session StopSignal
                  (browserWith oneStarPage2 (sessionAt 0 1)) H)).
Defined.

(** ** After the last filter *)

(** Once the last filter is finished and the service worker has handled
    the completion message, the popup has nothing left to read: the status
    reports no scan and a total of 0, and an export request is answered
    with the error text, however many records the scan gathered.  The
    records are in the file downloaded at completion only (and in no file
    when there were none).  The service worker passes the total on. *)
Theorem after_completion_the_popup_reads_nothing :
  forall env s w,
    Z.of_nat (List.length STAR_FILTERS) <= currentStarIndex s + 1 ->
    let r := switchToNextFilter env s w in
    let handled := deliver (trace r) (world r) in
    value (getScrapingStatus (world handled)) = mkStatus false 0 /\
    exportRequest (world handled) =
      mkResponse false None (Some (js "No reviews to export")) /\
    trace handled =
      [EChromeSetScanning false; ESend (SCRAPING_COMPLETE (List.length (reviews s)))].
Proof.
  intros env s w Hidx r handled. subst handled r.
  rewrite (switchToNextFilter_complete env s w Hidx).
  rewrite world_tuple, trace_tuple.
  destruct (reviews s) as [|r0 rest]; repeat split.
Qed.

Lemma after_completion_the_popup_reads_nothing_witness :
  exportRequest
    (world (deliver
              (trace (switchToNextFilter (exampleEnv oneStarPage2 oneStarPage1)
                        (sessionAt 4 2)
                        (browserWith fiveStarLastPage (sessionAt 4 2))))
              (world (switchToNextFilter (exampleEnv oneStarPage2 oneStarPage1)
                        (sessionAt 4 2)
                        (browserWith fiveStarLastPage (sessionAt 4 2))))))
  = mkResponse false None (Some (js "No reviews to export")).
Proof.
  assert (H : Z.of_nat (List.length STAR_FILTERS)
              <= currentStarIndex (sessionAt 4 2) + 1) by (vm_compute; discriminate).
  exact (proj1 (proj2 (after_completion_the_popup_reads_nothing
                         (exampleEnv oneStarPage2 oneStarPage1) (sessionAt 4 2)
                         (browserWith fiveStarLastPage (sessionAt 4 2)) H))).
Defined.

(** ** Settings saved without a check *)

Lemma waitTimeOf_between (minDelay maxDelay : Z) (r : Q) :
  (0 <= r)%Q -> (r < 1)%Q ->
  Z.min minDelay maxDelay <= waitTimeOf minDelay maxDelay r
  <= Z.max minDelay maxDelay.
Proof.
  intros H0 H1.
  destruct (Z_lt_le_dec minDelay maxDelay) as [Hlt|Hge].
  - pose proof (waitTimeOf_bounds minDelay maxDelay r H0 H1 Hlt). lia.
  - unfold waitTimeOf.
    assert (Hhi : Qfloor (r * inject_Z (maxDelay - minDelay)) <= 0).
    { rewrite <- (Qfloor_Z 0). apply Qfloor_resp_le.
      destruct r as [p q]. unfold Qle, Qmult, inject_Z in *. simpl in *. nia. }
    assert (Hlo : maxDelay - minDelay
                  <= Qfloor (r * inject_Z (maxDelay - minDelay))).
    { rewrite <- (Qfloor_Z (maxDelay - minDelay)) at 1. apply Qfloor_resp_le.
      destruct r as [p q]. unfold Qle, Qlt, Qmult, inject_Z in *. simpl in *.
      nia. }
    lia.
Qed.



(** ** The page number of the address *)

Lemma digitsValue_uint_acc (d : Decimal.uint) (a : positive) :
  digitsValue (Z.pos a) (js (NilEmpty.string_of_uint d))
  = Z.pos (Pos.of_uint_acc d a).
Proof.
  revert a. induction d; intros a; [reflexivity|..];
    cbn [NilEmpty.string_of_uint Pos.of_uint_acc];
    rewrite <- IHd;
    match goal with
    | |- digitsValue _ (js (String ?c _)) = digitsValue _ ?r =>
        let k := eval vm_compute in (Z.of_N (N_of_ascii c) - 48) in
        transitivity (digitsValue (10 * Z.pos a + k) r);
        [reflexivity | f_equal; lia]
    end.
Qed.

Lemma digitsValue_uint (d : Decimal.uint) :
  digitsValue 0 (js (NilEmpty.string_of_uint d)) = Z.of_N (Pos.of_uint d).
Proof.
  induction d; [reflexivity|exact IHd|..];
    cbn [NilEmpty.string_of_uint Pos.of_uint Z.of_N];
    rewrite <- digitsValue_uint_acc; reflexivity.
Qed.

Lemma parseInt10_uint (d : Decimal.uint) :
  d <> Decimal.Nil ->
  parseInt10 (js (NilEmpty.string_of_uint d))
  = Int (digitsValue 0 (js (NilEmpty.string_of_uint d))) /\
  parseInt10 (js (String "-" (NilEmpty.string_of_uint d)))
  = Int (- digitsValue 0 (js (NilEmpty.string_of_uint d))).
Proof.
  destruct d; [congruence|..]; intros _; split; reflexivity.
Qed.

Lemma parseInt10_Z_toString (n : Z) : parseInt10 (Z_toString n) = Int n.
Proof.
  unfold Z_toString. destruct n as [|p|p]; [reflexivity|..];
    cbn [Z.to_int NilEmpty.string_of_int];
    destruct (parseInt10_uint (Pos.to_uint p) (DecimalPos.Unsigned.to_uint_nonnil p))
      as [Hpos Hneg].
  - rewrite Hpos, digitsValue_uint, DecimalPos.Unsigned.of_to. reflexivity.
  - rewrite Hneg, digitsValue_uint, DecimalPos.Unsigned.of_to. reflexivity.
Qed.



(** ** Cards that cannot be read *)

Lemma forEachCard_trace (f : option StarFilter) (pageNum : jsnum) (now : Z)
    (cards : list Card) :
  forall index acc,
    snd (forEachCard f pageNum now index cards acc)
    = map (fun i => ELog LWarn (MsgCardParseError i)) (brokenPositions index cards) /\
    (List.length (fst (forEachCard f pageNum now index cards acc))
     + List.length (brokenPositions index cards)
     <= List.length acc + List.length cards)%nat.
Proof.
  induction cards as [|card rest IH]; intros index acc.
  - simpl. split; [reflexivity|lia].
  - cbn [forEachCard brokenPositions]. unfold parseCard.
    destruct (cardThrows card).
    + destruct (IH (S index) acc) as [Ht Hl].
      destruct (forEachCard f pageNum now (S index) rest acc) as [rs evs].
      simpl in *. rewrite Ht. split; [reflexivity|lia].
    + destruct (truthy _ && _).
      * destruct (IH (S index)
                    (acc ++ [mkReview (str_or (cardId card) (syntheticId now index))
                               (textOr (ratingAlt card) (js "N/A"))
                               (textOr (profileName card) (js "Anonymous"))
                               (textOr (titleSpan card) [])
                               (textOr (reviewDate card) [])
                               (textOr (reviewBody card) [])
                               (avpBadge card)
                               (textOr (formatStrip card) []) []
                               (labelOf f) (Some pageNum)])) as [Ht Hl].
        split; [exact Ht|]. rewrite length_app in Hl. simpl in *. lia.
      * destruct (IH (S index) acc) as [Ht Hl].
        split; [exact Ht|]. simpl. lia.
Qed.

(** The extraction survives cards that cannot be read.  It logs the number
    of cards found, then one warning for each card whose reading raises,
    naming the position of the card counted from 1, in the order of the
    page; it logs nothing else and leaves the browser as it is.  Such a card
    yields no record, so the records and the warnings together never
    outnumber the cards. *)
Theorem extractReviews_reports_broken_cards :
  forall f pageNum w,
    world (extractReviews f pageNum w) = w /\
    trace (extractReviews f pageNum w) =
      ELog LInfo (MsgFoundCards pageNum (labelOf f)
                    (List.length (reviewCards (page w))))
      :: map (fun i => ELog LWarn (MsgCardParseError i))
             (brokenPositions 0 (reviewCards (page w))) /\
    (List.length (value (extractReviews f pageNum w))
     + List.length (brokenPositions 0 (reviewCards (page w)))
     <= List.length (reviewCards (page w)))%nat.
Proof.
  intros f pageNum w.
  destruct (forEachCard_trace f pageNum (clock w) (reviewCards (page w)) 0%nat [])
    as [Ht Hl].
  unfold extractReviews. mcompute.
  destruct (forEachCard f pageNum (clock w) 0 (reviewCards (page w)) [])
    as [rs evs].
  simpl in *. rewrite Ht. repeat split. exact Hl.
Qed.

(** ** The next-page control *)

(** The pagination decision clicks the next-page control exactly when an
    enabled one is offered, and then once.  The click itself does not look
    at the disabled mark: it succeeds whenever the page holds a next-page
    control at all, so it cannot fail after an enabled control was seen,
    and only the check before it keeps a disabled control from being
    clicked. *)
Theorem pager_is_clicked_only_when_enabled :
  forall env f s w,
    count isClickNext (trace (paginate env f s w))
    = (if value (hasNextPage w) then 1 else 0)%nat /\
    (value (hasNextPage w) = true -> value (clickNextPage env w) = true) /\
    (lastItems (page w) <> [] -> value (clickNextPage env w) = true).
Proof.
  intros env f s w. split; [|split].
  - destruct (value (hasNextPage w)) eqn:Hn.
    + rewrite (paginate_advance env f s w Hn).
      destruct (num_eqb _ _); rewrite trace_tuple, count_app.
      * rewrite count_cons, switchToNextFilter_no_next_click. reflexivity.
      * reflexivity.
    + rewrite (paginate_end env f s w Hn), trace_tuple, count_cons.
      rewrite switchToNextFilter_no_next_click. reflexivity.
  - intros Hn. rewrite (clickNextPage_eq env w (hasNextPage_clickable w Hn)).
    reflexivity.
  - intros Hne. unfold clickNextPage. mcompute.
    destruct (lastItems (page w)); [congruence|reflexivity].
Qed.

Lemma pager_is_clicked_only_when_enabled_witness :
  value (hasNextPage (browserWith oneStarPage4 (sessionAt 0 4))) = false /\
  value (clickNextPage (exampleEnv oneStarPage2 oneStarPage1)
           (browserWith oneStarPage4 (sessionAt 0 4))) = true.
Proof.
  assert (H : lastItems (page (browserWith oneStarPage4 (sessionAt 0 4))) <> [])
    by (vm_compute; discriminate).
  split; [reflexivity|].
  exact (proj2 (proj2 (pager_is_clicked_only_when_enabled
                         (exampleEnv oneStarPage2 oneStarPage1) (Some one_star)
                         (sessionAt 0 4)
                         (browserWith oneStarPage4 (sessionAt 0 4)))) H).
Defined.

(** ** A page that shows another filter *)

Lemma sameFilter_differs (shown : StarFilter) (f : option StarFilter) :
  f <> Some shown -> sameFilter (Some shown) f = false.
Proof.
  intros H. destruct f as [g|]; [|reflexivity].
  destruct shown, g; try reflexivity; exfalso; apply H; reflexivity.
Qed.

(** When the address names a filter other than the one the session expects,
    the scraper warns and scrapes the page all the same: it clicks no filter
    control before the extraction, and the records of the page are
    labelled with the expected filter, not with the filter shown, and are
    appended to the session. *)
Theorem page_of_another_filter_is_scraped_as_expected :
  forall env s w shown,
    let f := starFilterAt (currentStarIndex s) in
    let pageNum := value (getCurrentPageNumber w) in
    let found := value (extractReviews f pageNum w) in
    let e := extractAndSave f s w in
    value (getCurrentStarFilter w) = Some shown ->
    f <> Some shown ->
    trace (scrapeCurrentPage env s w) =
      ELog LWarn (MsgFilterMismatch f (Some shown))
      :: trace e ++ trace (paginate env f (value e) (world e)) /\
    navigations (trace e) = [] /\
    Forall (fun r => starFilter r = labelOf f) found /\
    (found <> [] -> reviews (value e) = reviews s ++ found).
Proof.
  intros env s w shown f pageNum found e Hshown Hf. subst e.
  pose proof (validateFilter_other env f w shown Hshown
                (sameFilter_differs shown f Hf)) as Hv.
  assert (Hvf : value (validateFilter env f w) = false) by (rewrite Hv; reflexivity).
  split; [|split; [|split]].
  - rewrite (scrapeCurrentPage_continues env s w Hvf), trace_tuple.
    fold f. rewrite Hv. reflexivity.
  - apply navigations_extractAndSave.
  - subst found. rewrite extractReviews_value.
    apply forEachCard_Forall; [|constructor].
    intros index card r H.
    destruct (parseCard_fields f pageNum (clock w) index card r H)
      as (_ & _ & _ & _ & _ & _ & _ & _ & Hl & _).
    exact Hl.
  - intros Hne. destruct (extractAndSave_found f s w Hne) as (-> & _).
    reflexivity.
Qed.

Lemma page_of_another_filter_is_scraped_as_expected_witness :
  Forall (fun r => starFilter r = Some (STAR_LABELS one_star))
         (value (extractReviews (Some one_star) (Int 1)
                   (browserWith threeStarPage1 (sessionAt 0 1)))).
Proof.
  assert (H1 : value (getCurrentStarFilter (browserWith threeStarPage1 (sessionAt 0 1)))
               = Some three_star) by (vm_compute; reflexivity).
  assert (H2 : starFilterAt (currentStarIndex (sessionAt 0 1)) <> Some three_star)
    by (vm_compute; discriminate).
  exact (proj1 (proj2 (proj2 (page_of_another_filter_is_scraped_as_expected
                                (exampleEnv oneStarPage2 oneStarPage1) (sessionAt 0 1)
                                (browserWith threeStarPage1 (sessionAt 0 1))
                                three_star H1 H2)))).
Defined.
